(** * GO_VideoStreamer: the conversion pipeline of the HLS streaming server

    A shallow embedding of [lib/lib.go], [lib/converter.go] and [main.go]:
    the upload, reconvert, delete and status handlers and the background
    orchestration [ConvertToHLS], over an in-memory model of the part of the
    operating system the program talks to (the [os], [path/filepath],
    [strings], [fmt] and [os/exec] packages).

    Layout: the Go library functions the program calls, the file system
    model, the program itself, and then the properties of the program. *)

From Stdlib Require Import ZArith NArith String Ascii List Lia.
From Stdlib Require Import DecimalString DecimalN DecimalZ.
From stdpp Require Import gmap strings list fin_maps sorting.

#[local] Set Warnings "-register-all".
#[local] Arguments String.append !_ _ : simpl nomatch.

(* ================================================================== *)
(** * Part I. Definitions *)
(* ================================================================== *)

(** ** The [strings] package *)

Section GoStrings.

(** [strings.HasSuffix(s, suffix)]:
    [len(s) >= len(suffix) && s[len(s)-len(suffix):] == suffix]. *)
Definition strings_HasSuffix (s suffix : string) : bool :=
  (String.length suffix <=? String.length s)%nat &&
  String.eqb
    (substring (String.length s - String.length suffix)
               (String.length suffix) s)
    suffix.

(** [strings.TrimSuffix(s, suffix)]: [s] without the trailing [suffix],
    or [s] itself when it does not end in [suffix]. *)
Definition strings_TrimSuffix (s suffix : string) : string :=
  if strings_HasSuffix s suffix
  then substring 0 (String.length s - String.length suffix) s
  else s.

(** [strings.Join(elems, sep)]. *)
Fixpoint strings_Join (elems : list string) (sep : string) : string :=
  match elems with
  | [] => ""
  | [e] => e
  | e :: rest => e +:+ sep +:+ strings_Join rest sep
  end.

(** The text split at every line feed, the way a playlist reader sees it:
    a final line feed ends the last line and does not open a new one. *)
Fixpoint lines (s : string) : list string :=
  match s with
  | EmptyString => []
  | String c s' =>
      if Ascii.eqb c "010" then "" :: lines s'
      else match lines s' with
           | [] => [String c ""]
           | l :: ls => String c l :: ls
           end
  end.

(** Every byte of [s] passes the test [p]. *)
Fixpoint all_bytes (p : ascii -> bool) (s : string) : bool :=
  match s with
  | EmptyString => true
  | String c s' => p c && all_bytes p s'
  end.

(** No line feed inside [s]. *)
Fixpoint single_line (s : string) : bool :=
  match s with
  | EmptyString => true
  | String c s' => negb (Ascii.eqb c "010") && single_line s'
  end.

End GoStrings.

(** ** The [fmt] verbs the program uses *)

Section GoFmt.

(** [%d] of a signed integer ([int64]): decimal digits, [-] when negative. *)
Definition fmt_d (z : Z) : string := NilZero.string_of_int (Z.to_int z).

(** [%d] of an unsigned integer ([uint64]). *)
Definition fmt_u (n : N) : string := NilZero.string_of_uint (N.to_uint n).

(** The bytes [%d] can print. *)
Definition numeral_byte (c : ascii) : bool :=
  match c with
  | "0" | "1" | "2" | "3" | "4" | "5" | "6" | "7" | "8" | "9" | "-" => true
  | _ => false
  end%char.

End GoFmt.

(** ** The [path/filepath] package (Unix flavour, separator [/]) *)

Section GoFilepath.

Definition is_sep (c : ascii) : bool := Ascii.eqb c "/".

(** The elements between separators; [split_sep "a//b" = ["a"; ""; "b"]]. *)
Fixpoint split_sep (s : string) : list string :=
  match s with
  | EmptyString => [""]
  | String c s' =>
      if is_sep c then "" :: split_sep s'
      else match split_sep s' with
           | [] => [String c ""]
           | w :: ws => String c w :: ws
           end
  end.

(** One step of the element loop of [filepath.Clean], for a path that is
    not rooted; [out] is the output so far, last element first.  Empty
    elements and [.] are dropped, [..] removes the previous element when
    there is one that is not itself [..], and is kept otherwise. *)
Definition clean_step (out : list string) (elem : string) : list string :=
  if String.eqb elem "" || String.eqb elem "." then out
  else if String.eqb elem ".." then
    match out with
    | prev :: out' => if String.eqb prev ".." then ".." :: out else out'
    | [] => [".."]
    end
  else elem :: out.

Definition clean_elems (elems : list string) : list string :=
  rev (fold_left clean_step elems []).

(** [filepath.Clean] on a path that does not start with a separator.
    Every path this program builds starts with one of the two relative
    roots, so the rooted branch of [Clean] is never taken. *)
Definition filepath_Clean (p : string) : string :=
  match clean_elems (split_sep p) with
  | [] => "."
  | elems => strings_Join elems "/"
  end.

(** [filepath.Join(elem...)]: leading empty elements are skipped, the rest
    is joined with the separator and cleaned; all empty gives [""]. *)
Fixpoint filepath_Join (elem : list string) : string :=
  match elem with
  | [] => ""
  | e :: rest =>
      if String.eqb e "" then filepath_Join rest
      else filepath_Clean (strings_Join elem "/")
  end.

(** The loop of [filepath.Ext], run from the last byte towards the first:
    [seen] holds the bytes already passed, in path order. *)
Fixpoint ext_scan (rev_path : list ascii) (seen : list ascii) : string :=
  match rev_path with
  | [] => ""
  | c :: before =>
      if is_sep c then ""
      else if Ascii.eqb c "." then string_of_list_ascii (c :: seen)
      else ext_scan before (c :: seen)
  end.

(** [filepath.Ext(path)]: the suffix beginning at the final dot of the
    final element of [path], empty if there is no dot. *)
Definition filepath_Ext (path : string) : string :=
  ext_scan (rev (list_ascii_of_string path)) [].

(** A string usable as one element of a path: not empty, not [.] or [..],
    and free of the separator and of the NUL byte. *)
Definition valid_name (s : string) : bool :=
  negb (String.eqb s "") && negb (String.eqb s ".") &&
  negb (String.eqb s "..") &&
  all_bytes (fun c => negb (is_sep c) && negb (Ascii.eqb c "000")) s.

End GoFilepath.

(** ** The part of the [os] package the program uses *)

(** The error numbers a file operation can report. *)
Inductive errno : Type :=
  | ENOENT | ENOTDIR | EISDIR | ENOTEMPTY | EINVAL | EACCES | EIO.

(** A Go [error] value: [None] is [nil]. *)
Definition error : Type := option errno.

(** A Go [(value, err)] pair of which exactly one side is meaningful. *)
Inductive result (A : Type) : Type :=
  | Ok (a : A)
  | Err (e : errno).
Arguments Ok {A} a.
Arguments Err {A} e.

Definition err_of {A : Type} (r : result A) : error :=
  match r with Ok _ => None | Err e => Some e end.

(** [os.IsNotExist(err)]: true for the does-not-exist error only; [nil] and
    every other error (not a directory, permission, I/O, ...) give false. *)
Definition os_IsNotExist (err : error) : bool :=
  match err with Some ENOENT => true | _ => false end.

Record FileInfo : Type := { fi_IsDir : bool }.
Record DirEntry : Type := { de_Name : string; de_IsDir : bool }.

(** The operating system as the program sees it: a state [W] of the file
    store and the calls of package [os] on it.  [io_Copy path data] stands
    for [io.Copy(out, file)] where [out] is the file just created at
    [path]. *)
Class FileSystem (W : Type) : Type := {
  os_Stat : string -> W -> result FileInfo;
  os_ReadDir : string -> W -> result (list DirEntry);
  os_Remove : string -> W -> error * W;
  os_RemoveAll : string -> W -> error * W;
  os_MkdirAll : string -> W -> error * W;
  os_WriteFile : string -> string -> W -> error * W;
  os_Create : string -> W -> error * W;
  io_Copy : string -> string -> W -> error * W
}.

(** ** An in-memory file system *)

(** A file with its contents, or a directory with its entries by name.
    The store sets no limit to the length of a name and knows no links,
    owners or permissions: a call fails here only for what the tree itself
    shows (nothing there, a file where a directory is needed, a directory
    where a file is needed, a directory that is not empty). *)
Inductive node : Type :=
  | File (data : string)
  | Dir (entries : gmap string node).

Definition is_dir (n : node) : bool :=
  match n with Dir _ => true | File _ => false end.

(** Path resolution by the kernel, for the paths [filepath.Join] returns:
    those are Clean, so [..] elements occur only in front.  The working
    directory of the server is taken to be the root of the store, which is
    its own parent: a path that climbs out of it ends at the root.  What
    the program could do to the world above its working directory is not
    modelled. *)
Definition resolve_step (out : list string) (elem : string) : list string :=
  if String.eqb elem "" || String.eqb elem "." then out
  else if String.eqb elem ".." then tail out
  else elem :: out.

Definition resolve (p : string) : list string :=
  rev (fold_left resolve_step (split_sep p) []).

(** Follow the elements of a path down from [n]. *)
Fixpoint walk (p : list string) (n : node) : result node :=
  match p with
  | [] => Ok n
  | c :: p' =>
      match n with
      | File _ => Err ENOTDIR
      | Dir m =>
          match m !! c with
          | None => Err ENOENT
          | Some n' => walk p' n'
          end
      end
  end.

(** Replace, create or remove ([None]) the entry [c] of a directory. *)
Definition set_entry (c : string) (o : option node)
    (m : gmap string node) : gmap string node :=
  match o with
  | Some n => <[c := n]> m
  | None => delete c m
  end.

(** Change the entry named by the path [c :: p] below [n]: [f] sees the
    entry as it is and decides what it becomes, or fails.  [missing] is
    what is reported when a directory on the way does not exist.  A failed
    change leaves the store as it was. *)
Fixpoint modify (f : option node -> result (option node)) (missing : error)
    (c : string) (p : list string) (n : node) : error * node :=
  match n with
  | File _ => (Some ENOTDIR, n)
  | Dir m =>
      match p with
      | [] =>
          match f (m !! c) with
          | Ok o => (None, Dir (set_entry c o m))
          | Err e => (Some e, n)
          end
      | c' :: p' =>
          match m !! c with
          | None => (missing, n)
          | Some n' =>
              let '(e, n'') := modify f missing c' p' n' in
              (e, Dir (<[c := n'']> m))
          end
      end
  end.

(** [unlink]/[rmdir] of one entry: a file, or a directory without entries. *)
Definition remove_entry (o : option node) : result (option node) :=
  match o with
  | None => Err ENOENT
  | Some (File _) => Ok None
  | Some (Dir m) =>
      match map_to_list m with
      | [] => Ok None
      | _ :: _ => Err ENOTEMPTY
      end
  end.

(** Removal of an entry with everything below it; nothing there is fine. *)
Definition remove_tree (o : option node) : result (option node) := Ok None.

(** [open(O_WRONLY|O_CREATE|O_TRUNC)] and write: not onto a directory. *)
Definition write_entry (data : string) (o : option node)
    : result (option node) :=
  match o with
  | Some (Dir _) => Err EISDIR
  | _ => Ok (Some (File data))
  end.

(** [mkdir -p]: directories on the way are created as needed; a file on the
    way, or at the end, is an error and nothing is created. *)
Fixpoint mkdir_all (p : list string) (n : node) : error * node :=
  match n with
  | File _ => (Some ENOTDIR, n)
  | Dir m =>
      match p with
      | [] => (None, n)
      | c :: p' =>
          let '(e, child) := mkdir_all p' (default (Dir ∅) (m !! c)) in
          match e with
          | None => (None, Dir (<[c := child]> m))
          | Some _ => (e, n)
          end
      end
  end.

(** A change at the path [p].  The root itself is neither removed nor
    written as a file: the call fails with [root_err]. *)
Definition at_path (f : option node -> result (option node))
    (missing : error) (root_err : errno) (p : string) (n : node)
    : error * node :=
  match resolve p with
  | [] => (Some root_err, n)
  | c :: q => modify f missing c q n
  end.

Definition name_le (a b : DirEntry) : Prop :=
  String.leb (de_Name a) (de_Name b) = true.

#[local] Instance name_le_dec (a b : DirEntry) : Decision (name_le a b).
Proof. unfold name_le. apply _. Defined.

(** The entries of a directory, sorted by file name as [os.ReadDir] does. *)
Definition dir_entries (m : gmap string node) : list DirEntry :=
  merge_sort name_le
    (map (fun e : string * node =>
            {| de_Name := fst e; de_IsDir := is_dir (snd e) |})
         (map_to_list m)).

Definition node_Stat (p : string) (n : node) : result FileInfo :=
  match walk (resolve p) n with
  | Ok x => Ok {| fi_IsDir := is_dir x |}
  | Err e => Err e
  end.

Definition node_ReadDir (p : string) (n : node) : result (list DirEntry) :=
  match walk (resolve p) n with
  | Ok (Dir m) => Ok (dir_entries m)
  | Ok (File _) => Err ENOTDIR
  | Err e => Err e
  end.

(** [os.RemoveAll] returns [nil] when the path does not exist, and refuses
    a path that ends in a dot, as [rmdir] does. *)
Definition node_RemoveAll : string -> node -> error * node :=
  at_path remove_tree None EINVAL.

Definition node_Remove : string -> node -> error * node :=
  at_path remove_entry (Some ENOENT) EINVAL.

Definition node_WriteFile (p data : string) : node -> error * node :=
  at_path (write_entry data) (Some ENOENT) EISDIR p.

Definition node_MkdirAll (p : string) (n : node) : error * node :=
  mkdir_all (resolve p) n.

(** The in-memory store as an instance of the interface.  Writing through
    an open file cannot fail here, so [io_Copy] is a plain write. *)
#[export] Instance node_fs : FileSystem node := {|
  os_Stat := node_Stat;
  os_ReadDir := node_ReadDir;
  os_Remove := node_Remove;
  os_RemoveAll := node_RemoveAll;
  os_MkdirAll := node_MkdirAll;
  os_WriteFile := node_WriteFile;
  os_Create := fun p => node_WriteFile p "";
  io_Copy := node_WriteFile
|}.

(** ** The [os/exec] package and the instrumented run of a background task *)

(** A command as built by [exec.Command(name, arg...)]. *)
Record Cmd : Type := { cmd_name : string; cmd_args : list string }.

Definition exec_Command (name : string) (args : list string) : Cmd :=
  {| cmd_name := name; cmd_args := args |}.

(** Why [cmd.Run()] returned a non-nil error. *)
Inductive exec_failure : Type :=
  | ExitError (status : nat)
  | NotStarted.

(** The external programs: what running a command does to the store and
    whether [cmd.Run()] reports an error.  The transcoder itself is outside
    the program; the properties below quantify over it. *)
Definition Runner (W : Type) : Type := Cmd -> W -> option exec_failure * W.

(** What a background task does to the outside world, one entry per call. *)
Inductive event : Type :=
  | EvRemoveAll (path : string) (err : error)
  | EvMkdirAll (path : string) (err : error)
  | EvRun (c : Cmd) (err : option exec_failure)
  | EvWriteFile (path data : string) (err : error).

(** A computation on the store that records every call together with the
    store it leaves behind: the states a concurrent reader can observe. *)
Definition prog (W A : Type) : Type := W -> A * W * list (event * W).

Definition ret {W A : Type} (a : A) : prog W A := fun w => (a, w, []).

Definition bind {W A B : Type} (m : prog W A) (k : A -> prog W B)
    : prog W B :=
  fun w =>
    let '(a, w1, t1) := m w in
    let '(b, w2, t2) := k a w1 in
    (b, w2, t1 ++ t2).

Notation "'do' x <- m ; k" := (bind m (fun x => k))
  (at level 10, x name, m at level 100, k at level 200).
Notation "'do_' m ; k" := (bind m (fun _ => k))
  (at level 10, m at level 100, k at level 200).

Definition call {W E : Type} (op : W -> E * W) (ev : E -> event)
    : prog W E :=
  fun w => let '(e, w') := op w in (e, w', [(ev e, w')]).

Definition final_state {W A : Type} (r : A * W * list (event * W)) : W :=
  snd (fst r).

Definition trace_of {W A : Type} (r : A * W * list (event * W))
    : list (event * W) :=
  snd r.

(** The stores a reader may see: the one before the task starts and the one
    after each of its calls. *)
Definition observed {W A : Type} (w : W) (r : A * W * list (event * W))
    : list W :=
  w :: map snd (trace_of r).

(** The commands that were run, in order. *)
Fixpoint commands_run {W : Type} (t : list (event * W)) : list Cmd :=
  match t with
  | [] => []
  | (EvRun c _, _) :: t' => c :: commands_run t'
  | _ :: t' => commands_run t'
  end.

(** ** lib/converter.go *)

Definition LF : string := String "010" EmptyString.
Definition QUOTE : string := String "034" EmptyString.

(** The two roots, as [main.go] hands them to [Init]. *)
Definition uploadDir : string := "./uploads".
Definition hlsDir : string := "./hls".

(** [variant] defines the parameters for a single HLS quality stream. *)
Record variant : Type := {
  name : string;
  height : string;
  vbitrate : string;
  width : string
}.

Definition HLS_VARIANTS : list variant := [
  {| name := "360p"; height := "360"; vbitrate := "800k"; width := "640" |};
  {| name := "540p"; height := "540"; vbitrate := "1800k"; width := "960" |};
  {| name := "720p"; height := "720"; vbitrate := "3500k"; width := "1280" |};
  {| name := "1080p"; height := "1080"; vbitrate := "6000k";
     width := "1920" |}
].

(** [fmt.Sprintf("stream_%s.m3u8", v.name)]. *)
Definition streamName (v : variant) : string :=
  "stream_" +:+ name v +:+ ".m3u8".

(** [filepath.Join(outputDir, fmt.Sprintf("%s_segment_%%03d.ts", v.name))]. *)
Definition segmentPattern (outputDir : string) (v : variant) : string :=
  filepath_Join [outputDir; name v +:+ "_segment_%03d.ts"].

(** The transcoder invocation for one variant. *)
Definition ffmpeg_cmd (inputPath outputDir : string) (v : variant) : Cmd :=
  exec_Command "ffmpeg" [
    "-i"; inputPath;
    "-vf"; "scale=" +:+ width v +:+ ":" +:+ height v;
    "-c:v"; "libx264";
    "-preset"; "veryfast";
    "-b:v"; vbitrate v;
    "-maxrate"; vbitrate v;
    "-bufsize"; "2M";
    "-g"; "30";
    "-c:a"; "aac";
    "-b:a"; "128k";
    "-hls_time"; "10";
    "-hls_playlist_type"; "vod";
    "-hls_segment_filename"; segmentPattern outputDir v;
    filepath_Join [outputDir; streamName v]
  ].

(** [strings.TrimSuffix(v.vbitrate, "k") + "000"]. *)
Definition bandwidth (v : variant) : string :=
  strings_TrimSuffix (vbitrate v) "k" +:+ "000".

(** The [#EXT-X-STREAM-INF] line of a variant, without its line feed. *)
Definition stream_inf (v : variant) : string :=
  "#EXT-X-STREAM-INF:BANDWIDTH=" +:+ bandwidth v +:+
  ",RESOLUTION=" +:+ width v +:+ "x" +:+ height v +:+
  ",NAME=" +:+ QUOTE +:+ name v +:+ QUOTE.

(** The master playlist: the header, then for each variant in order the two
    [WriteString] calls of the loop. *)
Definition masterContent (variants : list variant) : string :=
  fold_left
    (fun b v => (b +:+ (stream_inf v +:+ LF)) +:+ (streamName v +:+ LF))
    variants
    ("#EXTM3U" +:+ LF +:+ "#EXT-X-VERSION:3" +:+ LF).

Section Converter.

Context {W : Type} `{FileSystem W}.
Variable run : Runner W.

Definition RemoveAll (path : string) : prog W error :=
  call (os_RemoveAll path) (EvRemoveAll path).

Definition MkdirAll (path : string) : prog W error :=
  call (os_MkdirAll path) (EvMkdirAll path).

Definition WriteFile (path data : string) : prog W error :=
  call (os_WriteFile path data) (EvWriteFile path data).

Definition Run (c : Cmd) : prog W (option exec_failure) :=
  call (run c) (EvRun c).

(** The encoding loop: one transcoder run per variant, in order, leaving
    the loop at the first failure.  The value is [success]. *)
Fixpoint encode_variants (inputPath outputDir : string)
    (variants : list variant) : prog W bool :=
  match variants with
  | [] => ret true
  | v :: rest =>
      do err <- Run (ffmpeg_cmd inputPath outputDir v);
      match err with
      | Some _ => ret false
      | None => encode_variants inputPath outputDir rest
      end
  end.

(** [ConvertToHLS(inputPath, id)], for the variant list [variants] (the
    package variable [HLS_VARIANTS]).  Console output is not modelled. *)
Definition ConvertToHLS (variants : list variant)
    (inputPath id : string) : prog W unit :=
  let outputDir := filepath_Join [hlsDir; id] in
  do_ RemoveAll outputDir;
  do_ MkdirAll outputDir;
  do success <- encode_variants inputPath outputDir variants;
  if negb success then
    do_ RemoveAll outputDir;
    ret tt
  else
    let masterPlaylistPath := filepath_Join [outputDir; "master.m3u8"] in
    do err <- WriteFile masterPlaylistPath (masterContent variants);
    match err with
    | Some _ =>
        do_ RemoveAll outputDir;
        ret tt
    | None => ret tt
    end.

End Converter.

(** ** lib/lib.go *)

(** Data structures for template rendering. *)
Record Video : Type := {
  ID : string;
  Ready : bool;
  Processing : bool
}.

Record UploadedFile : Type := { Name : string }.

Record TemplateData : Type := {
  Videos : list Video;
  UploadedFiles : list UploadedFile;
  HasProcessing : bool
}.

(** An uploaded form file: the name the client gave and the bytes. *)
Record FormFile : Type := { Filename : string; Content : string }.

(** The part of [*http.Request] the handlers read. *)
Record Request : Type := {
  Method : string;
  URL_Path : string;
  Form : list (string * string);
  Files : list (string * FormFile)
}.

(** What a handler writes to its [http.ResponseWriter]. *)
Inductive Response : Type :=
  | HttpError (msg : string) (code : nat)
  | Redirect (url : string) (code : nat)
  | NotFound
  | Page (data : TemplateData).

Definition MethodPost : string := "POST".
Definition StatusSeeOther : nat := 303.
Definition StatusBadRequest : nat := 400.
Definition StatusNotFound : nat := 404.
Definition StatusMethodNotAllowed : nat := 405.
Definition StatusInternalServerError : nat := 500.

(** [r.FormValue(key)]: the first value for [key], [""] when there is none. *)
Fixpoint FormValue (form : list (string * string)) (key : string) : string :=
  match form with
  | [] => ""
  | (k, v) :: rest => if String.eqb k key then v else FormValue rest key
  end.

(** [r.FormFile(key)]: the first file for [key], if any. *)
Fixpoint FormFile_of (files : list (string * FormFile)) (key : string)
    : option FormFile :=
  match files with
  | [] => None
  | (k, f) :: rest => if String.eqb k key then Some f else FormFile_of rest key
  end.

(** [counter.Add(1)] on an [atomic.Uint64]: the new value, modulo 2^64. *)
Definition counter_Add (counter delta : N) : N :=
  ((counter + delta) mod 2 ^ 64)%N.

(** [fmt.Sprintf("video_%d_%d", now, n)] with [now] the [int64] of
    [time.Now().UnixNano()] and [n] the [uint64] of [counter.Add(1)]. *)
Definition video_id (now : Z) (n : N) : string :=
  "video_" +:+ fmt_d now +:+ "_" +:+ fmt_u n.

(** The status of a job as a reader derives it from the page data. *)
Inductive JobStatus : Type := JobAbsent | JobProcessing | JobReady.

Section Handlers.

Context {W : Type} `{FileSystem W}.

(** [DeleteHLSHandler] deletes the HLS output directory and all its
    contents.  The outcome of the removal only goes to the log. *)
Definition DeleteHLSHandler (r : Request) (w : W) : Response * W :=
  if negb (String.eqb (Method r) MethodPost) then
    (HttpError "Method not allowed" StatusMethodNotAllowed, w)
  else
    let id := FormValue (Form r) "id" in
    if String.eqb id "" then
      (HttpError "No ID provided" StatusBadRequest, w)
    else
      let outputDir := filepath_Join [hlsDir; id] in
      let '(_, w') := os_RemoveAll outputDir w in
      (Redirect "/" StatusSeeOther, w').

(** [DeleteUploadHandler] deletes the original uploaded video file. *)
Definition DeleteUploadHandler (r : Request) (w : W) : Response * W :=
  if negb (String.eqb (Method r) MethodPost) then
    (HttpError "Method not allowed" StatusMethodNotAllowed, w)
  else
    let filename := FormValue (Form r) "filename" in
    if String.eqb filename "" then
      (HttpError "No filename provided" StatusBadRequest, w)
    else
      let inputPath := filepath_Join [uploadDir; filename] in
      let '(_, w') := os_Remove inputPath w in
      (Redirect "/" StatusSeeOther, w').

(** The body of the scan loop of [RootHandler] for one directory entry
    named [id]. *)
Definition probe (w : W) (id : string) : Video :=
  let masterPath := filepath_Join [hlsDir; id; "master.m3u8"] in
  let err := err_of (os_Stat masterPath w) in
  let ready := match err with None => true | Some _ => false end in
  {| ID := id; Ready := ready; Processing := negb ready |}.

(** The scan loop: the directory entries, in order, and nothing else. *)
Fixpoint scan (w : W) (hlsDirs : list DirEntry) : list Video :=
  match hlsDirs with
  | [] => []
  | f :: rest =>
      if de_IsDir f then probe w (de_Name f) :: scan w rest
      else scan w rest
  end.

(** [os.ReadDir] with its error dropped: no entries on failure. *)
Definition ReadDir_ (path : string) (w : W) : list DirEntry :=
  match os_ReadDir path w with
  | Ok entries => entries
  | Err _ => []
  end.

(** The [videos] slice of [RootHandler]. *)
Definition list_videos (w : W) : list Video := scan w (ReadDir_ hlsDir w).

(** The second loop of [RootHandler]: uploads without a job directory. *)
Fixpoint unconverted (hlsVideoIDs : gset string) (uploads : list DirEntry)
    : list UploadedFile :=
  match uploads with
  | [] => []
  | f :: rest =>
      if negb (de_IsDir f) then
        let filename := de_Name f in
        let ext := filepath_Ext filename in
        let id := strings_TrimSuffix filename ext in
        if bool_decide (id ∈ hlsVideoIDs) then unconverted hlsVideoIDs rest
        else {| Name := filename |} :: unconverted hlsVideoIDs rest
      else unconverted hlsVideoIDs rest
  end.

(** [RootHandler] renders the main page with the current video status. *)
Definition RootHandler (r : Request) (w : W) : Response :=
  if negb (String.eqb (URL_Path r) "/") then NotFound
  else
    let videos := list_videos w in
    let hlsVideoIDs : gset string := list_to_set (map ID videos) in
    let hasProcessing := existsb (fun v => negb (Ready v)) videos in
    let uploadedFiles := unconverted hlsVideoIDs (ReadDir_ uploadDir w) in
    Page {| Videos := videos;
            UploadedFiles := uploadedFiles;
            HasProcessing := hasProcessing |}.

(** The status of job [id] on the page: absent when [id] is not listed,
    otherwise what its [Ready] flag says. *)
Definition Status (w : W) (id : string) : JobStatus :=
  match find (fun v => String.eqb (ID v) id) (list_videos w) with
  | None => JobAbsent
  | Some v => if Ready v then JobReady else JobProcessing
  end.

(** [UploadHandler] saves a new video and does not start a conversion.
    [now] is the clock reading; the state is the store and the counter. *)
Definition UploadHandler (now : Z) (r : Request) (st : W * N)
    : Response * (W * N) :=
  let '(w, counter) := st in
  if negb (String.eqb (Method r) MethodPost) then
    (HttpError "Method not allowed" StatusMethodNotAllowed, st)
  else
    match FormFile_of (Files r) "video" with
    | None => (HttpError "Cannot read file" StatusBadRequest, st)
    | Some file =>
        let counter' := counter_Add counter 1 in
        let id := video_id now counter' in
        let ext := filepath_Ext (Filename file) in
        let filename := filepath_Join [uploadDir; id +:+ ext] in
        let '(err, w1) := os_Create filename w in
        match err with
        | Some _ =>
            (HttpError "Cannot save file" StatusInternalServerError,
             (w1, counter'))
        | None =>
            let '(err', w2) := io_Copy filename (Content file) w1 in
            match err' with
            | Some _ =>
                (HttpError "Save failed" StatusInternalServerError,
                 (w2, counter'))
            | None => (Redirect "/" StatusSeeOther, (w2, counter'))
            end
        end
    end.

(** [ReconvertHandler] starts the conversion of an uploaded file that has
    no job yet.  The second component is the background task handed to
    [go ConvertToHLS(inputPath, id)], if one is started. *)
Definition ReconvertHandler (r : Request) (w : W)
    : Response * option (string * string) :=
  if negb (String.eqb (Method r) MethodPost) then
    (HttpError "Method not allowed" StatusMethodNotAllowed, None)
  else
    let filename := FormValue (Form r) "uploaded_file" in
    if String.eqb filename "" then
      (HttpError "No file selected" StatusBadRequest, None)
    else
      let inputPath := filepath_Join [uploadDir; filename] in
      let ext := filepath_Ext filename in
      let id := strings_TrimSuffix filename ext in
      let outputDir := filepath_Join [hlsDir; id] in
      if negb (os_IsNotExist (err_of (os_Stat outputDir w))) then
        (Redirect "/" StatusSeeOther, None)
      else if os_IsNotExist (err_of (os_Stat inputPath w)) then
        (HttpError "File not found" StatusNotFound, None)
      else
        (Redirect "/" StatusSeeOther, Some (inputPath, id)).

End Handlers.

(** ** The manifest format, in the words of the specification *)

Definition manifest_header : string :=
  "#EXTM3U" +:+ LF +:+ "#EXT-X-VERSION:3" +:+ LF.

Definition is_stream_inf (line : string) : bool :=
  String.prefix "#EXT-X-STREAM-INF" line.

(** The lines after the header: for each variant in order one
    [#EXT-X-STREAM-INF] line, immediately followed by the line that holds
    the file name of the variant's sub-playlist; nothing else. *)
Fixpoint entries_ok (ls : list string) (variants : list variant) : bool :=
  match variants, ls with
  | [], [] => true
  | v :: vs, inf :: sub :: rest =>
      is_stream_inf inf && String.eqb sub (streamName v) && entries_ok rest vs
  | _, _ => false
  end.

(** A manifest in the format of the specification for [variants]: the exact
    header in front, then the entries, and as many [#EXT-X-STREAM-INF] lines
    in all as there are variants. *)
Definition manifest_ok (m : string) (variants : list variant) : bool :=
  String.prefix manifest_header m &&
  match lines m with
  | _ :: _ :: rest => entries_ok rest variants
  | _ => false
  end &&
  (length (List.filter is_stream_inf (lines m)) =? length variants)%nat.

(** A variant none of whose fields holds a line feed. *)
Definition plain_variant (v : variant) : bool :=
  single_line (name v) && single_line (height v) &&
  single_line (vbitrate v) && single_line (width v).

(** A variant whose name runs over two lines. *)
Definition two_line_variant : variant :=
  {| name := "a" +:+ LF +:+ "#EXT-X-STREAM-INF:b";
     height := "360"; vbitrate := "800k"; width := "640" |}.

(** ** Sample stores *)

(** A directory given by the list of its entries. *)
Definition dir_of (entries : list (string * node)) : node :=
  Dir (list_to_map entries).

(** An upload waiting for conversion, a finished job, a job in progress
    and a stray file under the output root. *)
Definition sample_store : node :=
  dir_of [
    ("uploads", dir_of [("clip.mp4", File "bytes")]);
    ("hls", dir_of [
       ("done", dir_of [("master.m3u8", File "#EXTM3U")]);
       ("busy", dir_of [("stream_360p.m3u8", File "")]);
       ("note.txt", File "")])
  ].

(** A job directory in which [master.m3u8] is itself a directory. *)
Definition manifest_dir_store : node :=
  dir_of [("hls", dir_of [("j", dir_of [("master.m3u8", dir_of [])])])].

(** The output root and the upload area, both empty but for one upload. *)
Definition fresh_store : node :=
  dir_of [("uploads", dir_of [("clip.mp4", File "bytes")]);
          ("hls", dir_of [])].

(** A store on which every call fails with the same error, as when the
    process lacks permission or the disk does not answer. *)
Definition faulty_fs (e : errno) : FileSystem unit := {|
  os_Stat := fun _ _ => Err e;
  os_ReadDir := fun _ _ => Err e;
  os_Remove := fun _ w => (Some e, w);
  os_RemoveAll := fun _ w => (Some e, w);
  os_MkdirAll := fun _ w => (Some e, w);
  os_WriteFile := fun _ _ w => (Some e, w);
  os_Create := fun _ w => (Some e, w);
  io_Copy := fun _ _ w => (Some e, w)
|}.

(** ** Sample requests *)

Definition post (form : list (string * string)) : Request :=
  {| Method := MethodPost; URL_Path := "/"; Form := form; Files := [] |}.

(** ** What is observed of a run *)

(** A call of the task that reported an error. *)
Definition failed (ev : event) : bool :=
  match ev with
  | EvRun _ (Some _) => true
  | EvWriteFile _ _ (Some _) => true
  | _ => false
  end.

Definition is_write (ev : event) : bool :=
  match ev with EvWriteFile _ _ _ => true | _ => false end.

Definition is_file (o : option node) : bool :=
  match o with Some (File _) => true | _ => false end.

(** ** What the transcoder is expected to leave behind *)

(** [%03d]: the decimal index, with zeros in front up to three digits. *)
Definition pad3 (k : nat) : string :=
  let s := fmt_u (N.of_nat k) in
  if (k <? 10)%nat then "00" +:+ s
  else if (k <? 100)%nat then "0" +:+ s
  else s.

(** The name of segment [k] of a variant: the segment pattern with the
    index filled in. *)
Definition segment_name (v : variant) (k : nat) : string :=
  name v +:+ "_segment_" +:+ pad3 k +:+ ".ts".

(** The entries a successful transcoder run for [v] adds to the job
    directory: the sub-playlist and at least one segment, all of them files
    and nothing else. *)
Definition variant_output (v : variant) (produced : gmap string node)
    : Prop :=
  is_file (produced !! streamName v) = true /\
  (exists k, is_file (produced !! segment_name v k) = true) /\
  (forall x n, produced !! x = Some n ->
     is_dir n = false /\ (x = streamName v \/ exists k, x = segment_name v k)).

(** A transcoder that does its job for [variants]: run on a store where
    the output directory exists and holds only files, it reports success
    and adds the output of the variant to that directory. *)
Definition transcoder_ok (run : Runner node) (inputPath outputDir : string)
    (variants : list variant) : Prop :=
  forall v w m,
    In v variants ->
    walk (resolve outputDir) w = Ok (Dir m) ->
    (forall x n, m !! x = Some n -> is_dir n = false) ->
    exists produced w',
      run (ffmpeg_cmd inputPath outputDir v) w = (None, w') /\
      walk (resolve outputDir) w' = Ok (Dir (produced ∪ m)) /\
      variant_output v produced.

(** ** A stand-in transcoder *)

(** Put [x] in the place of the node at path [p], if there is one. *)
Fixpoint put (p : list string) (x : node) (n : node) : node :=
  match p with
  | [] => x
  | c :: p' =>
      match n with
      | File _ => n
      | Dir m =>
          match m !! c with
          | None => n
          | Some n' => Dir (<[c := put p' x n']> m)
          end
      end
  end.

(** The argument that follows [flag]. *)
Fixpoint arg_after (flag : string) (args : list string) : string :=
  match args with
  | a :: ((b :: _) as rest) =>
      if String.eqb a flag then b else arg_after flag rest
  | _ => ""
  end.

(** The segment pattern with [%03d] replaced by the index [k]. *)
Fixpoint fill_index (pattern : string) (k : nat) : string :=
  match pattern with
  | EmptyString => ""
  | String c rest =>
      if String.prefix "%03d" pattern
      then pad3 k +:+ substring 4 (String.length pattern - 4) pattern
      else String c (fill_index rest k)
  end.

(** The stand-in reads the two output names off its command line and adds
    one segment and the sub-playlist to their directory.  For a sub-playlist
    listed in [broken] it stops after the segment with exit status 1, and
    so it does when the directory is missing. *)
Definition mock_ffmpeg (broken : list string) : Runner node :=
  fun c w =>
    let playlist := resolve (List.last (cmd_args c) "") in
    let segment :=
      resolve (fill_index (arg_after "-hls_segment_filename" (cmd_args c)) 0)
    in
    let dir := removelast playlist in
    match walk dir w with
    | Ok (Dir m) =>
        let seg : gmap string node := {[ List.last segment "" := File "ts" ]} in
        if existsb (String.eqb (List.last playlist "")) broken then
          (Some (ExitError 1), put dir (Dir (seg ∪ m)) w)
        else
          (None,
           put dir
             (Dir (<[ List.last playlist "" := File "#EXTM3U" ]> seg ∪ m)) w)
    | _ => (Some (ExitError 1), w)
    end.

(** The three variants of the first version of the program. *)
Definition three_variants : list variant := firstn 3 HLS_VARIANTS.

(** A transcoder that reports success and puts an empty file in the place
    of the directory it was asked to fill. *)
Definition vandal_ffmpeg : Runner node :=
  fun c w =>
    (None, put (removelast (resolve (List.last (cmd_args c) ""))) (File "") w).

(** The sample store after a run for [clip] with all four variants. *)
Definition after_first_run : node :=
  final_state
    (ConvertToHLS (mock_ffmpeg []) HLS_VARIANTS "uploads/clip.mp4" "clip"
       sample_store).

(** ** Successive uploads *)

(** The identifiers drawn by successive uploads, the counter standing at
    [counter] before the first and the clock reading the times [nows]. *)
Fixpoint ids_drawn (counter : N) (nows : list Z) : list string :=
  match nows with
  | [] => []
  | now :: later =>
      let counter' := counter_Add counter 1 in
      video_id now counter' :: ids_drawn counter' later
  end.

(** An upload request for a file the client calls [filename]. *)
Definition upload (filename content : string) : Request :=
  {| Method := MethodPost; URL_Path := "/upload"; Form := [];
     Files := [("video", {| Filename := filename; Content := content |})] |}.

(** ** Paths that part ways *)

(** [p] and [q] differ at some position that both have: neither leads to
    the other, nor to anything below it. *)
Fixpoint diverges (p q : list string) : bool :=
  match p, q with
  | a :: p', b :: q' => if String.eqb a b then diverges p' q' else true
  | _, _ => false
  end.

(** ** main.go *)

Section Main.

Context {W : Type} `{FileSystem W}.

(** [init]: the upload area and the output root are created when they
    are missing; what the two calls report is dropped.  The parsing of the
    page template is not modelled. *)
Definition init (w : W) : W :=
  let '(_, w1) := os_MkdirAll uploadDir w in
  let '(_, w2) := os_MkdirAll hlsDir w1 in
  w2.

End Main.

(** ** More sample stores *)

(** An upload whose id is taken by a regular file under the output root. *)
Definition stray_store : node :=
  dir_of [("uploads", dir_of [("clip.mp4", File "bytes")]);
          ("hls", dir_of [("clip", File "")])].

(** ** Cleaned paths *)

(** The output of the element loop of [filepath.Clean], last element
    first: names, with the [..] elements that could not be resolved in
    front of them in the path. *)
Fixpoint clean_stack (out : list string) : bool :=
  match out with
  | [] => true
  | e :: out' =>
      if String.eqb e ".." then forallb (String.eqb "..") out'
      else negb (String.eqb e "") && negb (String.eqb e ".") &&
           clean_stack out'
  end.

(** ** Limits of the file system *)

(** The longest name of one path element that the file system accepts, in
    bytes ([NAME_MAX]); with a longer one every call fails with
    [ENAMETOOLONG].  The in-memory store knows no such limit.  Where the
    outcome of a call depends on it, for a name that comes from a request,
    the statement carries the limit as a hypothesis. *)
Definition NAME_MAX : nat := 255.

(** ** Uploads one after another *)

(** A file system that accepts every call and keeps the paths handed to
    [os.Create], in call order. *)
Definition recording_fs : FileSystem (list string) := {|
  os_Stat := fun _ _ => Err ENOENT;
  os_ReadDir := fun _ _ => Ok [];
  os_Remove := fun _ w => (None, w);
  os_RemoveAll := fun _ w => (None, w);
  os_MkdirAll := fun _ w => (None, w);
  os_WriteFile := fun _ _ w => (None, w);
  os_Create := fun p w => (None, w ++ [p]);
  io_Copy := fun _ _ w => (None, w)
|}.

(** A request that the upload handler accepts: a POST that carries a file
    in the field [video]. *)
Definition accepted (r : Request) : bool :=
  String.eqb (Method r) MethodPost &&
  match FormFile_of (Files r) "video" with
  | Some _ => true
  | None => false
  end.

(** The path at which the file of the request [r] is created when the
    identifier drawn for it is [id]. *)
Definition upload_path (id : string) (r : Request) : string :=
  match FormFile_of (Files r) "video" with
  | Some file =>
      filepath_Join [uploadDir; id +:+ filepath_Ext (Filename file)]
  | None => ""
  end.

Section Serving.

Context {W : Type} {FS : FileSystem W}.

(** The upload handler serving the requests one after another, each at its
    clock reading, on the store and the counter the one before left. *)
Fixpoint serve_uploads (reqs : list (Z * Request)) (st : W * N) : W * N :=
  match reqs with
  | [] => st
  | (now, r) :: rest => serve_uploads rest (snd (UploadHandler now r st))
  end.

End Serving.

(* ================================================================== *)
(** * Part II. Properties *)
(* ================================================================== *)

(** ** Strings *)

Section StringFacts.

Lemma length_append (s t : string) :
  String.length (s +:+ t) = String.length s + String.length t.
Proof. induction s as [|c s IH]; simpl; [reflexivity | now rewrite IH]. Qed.

Lemma append_assoc (s t u : string) : (s +:+ t) +:+ u = s +:+ (t +:+ u).
Proof. induction s as [|c s IH]; simpl; [reflexivity | now rewrite IH]. Qed.

Lemma append_nil_r (s : string) : s +:+ "" = s.
Proof. induction s as [|c s IH]; simpl; [reflexivity | now rewrite IH]. Qed.

(** The first [length s] bytes of [s +:+ t] are [s] ... *)
Lemma substring_append_l (s t : string) :
  substring 0 (String.length s) (s +:+ t) = s.
Proof. induction s as [|c s IH]; simpl; [now destruct t | now rewrite IH]. Qed.

(** ... and the rest is [t]. *)
Lemma substring_append_r (s t : string) :
  substring (String.length s) (String.length t) (s +:+ t) = t.
Proof.
  induction s as [|c s IH]; simpl; [| exact IH].
  induction t as [|c t IH]; simpl; [reflexivity | now rewrite IH].
Qed.

Lemma HasSuffix_append (s suffix : string) :
  strings_HasSuffix (s +:+ suffix) suffix = true.
Proof.
  unfold strings_HasSuffix. rewrite length_append.
  replace (String.length s + String.length suffix - String.length suffix)
    with (String.length s) by lia.
  rewrite substring_append_r, String.eqb_refl.
  rewrite andb_true_r. apply Nat.leb_le. lia.
Qed.

Lemma TrimSuffix_append (s suffix : string) :
  strings_TrimSuffix (s +:+ suffix) suffix = s.
Proof.
  unfold strings_TrimSuffix. rewrite HasSuffix_append, length_append.
  replace (String.length s + String.length suffix - String.length suffix)
    with (String.length s) by lia.
  apply substring_append_l.
Qed.

Lemma single_line_append (s t : string) :
  single_line (s +:+ t) = single_line s && single_line t.
Proof.
  induction s as [|c s IH]; simpl; [reflexivity |].
  now rewrite IH, andb_assoc.
Qed.

Lemma single_line_substring (s : string) (n m : nat) :
  single_line s = true -> single_line (substring n m s) = true.
Proof.
  revert n m. induction s as [|c s IH]; intros n m Hs.
  - now destruct n, m.
  - simpl in Hs. apply andb_true_iff in Hs as [Hc Hs].
    destruct n as [|n]; simpl.
    + destruct m as [|m]; simpl; [reflexivity |].
      now rewrite Hc, IH.
    + now apply IH.
Qed.

Lemma single_line_TrimSuffix (s suffix : string) :
  single_line s = true -> single_line (strings_TrimSuffix s suffix) = true.
Proof.
  intros Hs. unfold strings_TrimSuffix.
  destruct (strings_HasSuffix s suffix); [| exact Hs].
  now apply single_line_substring.
Qed.

(** A line and its line feed in front of a text: one more line. *)
Lemma lines_cons (l rest : string) :
  single_line l = true -> lines (l +:+ LF +:+ rest) = l :: lines rest.
Proof.
  induction l as [|c l IH]; simpl in *; intros Hl; [reflexivity |].
  apply andb_true_iff in Hl as [Hc Hl].
  apply negb_true_iff in Hc. rewrite Hc, (IH Hl). reflexivity.
Qed.

End StringFacts.


(** ** Decimal numerals *)

Section DecimalNumerals.

Import Decimal.

Lemma string_of_revapp (r e : uint) :
  NilEmpty.string_of_uint (revapp r e) =
  NilEmpty.string_of_uint (revapp r Nil) +:+ NilEmpty.string_of_uint e.
Proof.
  revert e. induction r as [|r IH|r IH|r IH|r IH|r IH|r IH|r IH|r IH|r IH|r IH];
    intros e; simpl; [reflexivity | ..];
    rewrite IH; symmetry; rewrite IH; rewrite append_assoc; reflexivity.
Qed.

Lemma string_of_uint_app (d e : uint) :
  NilEmpty.string_of_uint (app d e) =
  NilEmpty.string_of_uint d +:+ NilEmpty.string_of_uint e.
Proof.
  unfold app. rewrite string_of_revapp.
  change (revapp (rev d) Nil) with (rev (rev d)).
  now rewrite DecimalFacts.rev_rev.
Qed.

(** The numeral of a number is in normal form. *)
Lemma unorm_to_uint (k : N) : unorm (N.to_uint k) = N.to_uint k.
Proof.
  rewrite <- (DecimalN.Unsigned.of_to k) at 2.
  now rewrite DecimalN.Unsigned.to_of.
Qed.

(** Three zeros behind the numeral of a positive number: a thousandfold. *)
Lemma to_uint_thousand (k : N) :
  (0 < k)%N ->
  N.to_uint (1000 * k) = app (N.to_uint k) (D0 (D0 (D0 Nil))).
Proof.
  intros Hk.
  assert (Hof : N.of_uint (app (N.to_uint k) (D0 (D0 (D0 Nil)))) =
                (1000 * k)%N).
  { apply N2Z.inj.
    pose proof (DecimalZ.of_uint_iter_D0 (N.to_uint k) 3) as E.
    unfold Z.of_uint in E. simpl Nat.iter in E.
    change (Pos.of_uint ?d) with (N.of_uint d) in E.
    rewrite E, DecimalN.Unsigned.of_to. lia. }
  rewrite <- Hof, DecimalN.Unsigned.to_of.
  pose proof (unorm_to_uint k) as Hn.
  set (d := N.to_uint k) in *. set (e := D0 (D0 (D0 Nil))).
  destruct (le_lt_dec (nb_digits (unorm (app d e))) (nb_digits e))
    as [Hle|Hlt].
  - exfalso. apply DecimalFacts.unorm_app_zero in Hle.
    rewrite Hn in Hle. subst d. destruct k as [|p]; [lia |].
    now apply (DecimalPos.Unsigned.to_uint_nonzero p).
  - rewrite (DecimalFacts.unorm_app_l d e Hlt). now rewrite Hn.
Qed.

Lemma fmt_u_thousand (k : N) :
  (0 < k)%N -> fmt_u (1000 * k) = fmt_u k +:+ "000".
Proof.
  intros Hk. unfold fmt_u.
  assert (Hne : forall m : N, (0 < m)%N ->
            NilZero.string_of_uint (N.to_uint m) =
            NilEmpty.string_of_uint (N.to_uint m)).
  { intros [|p] Hm; [lia |]. simpl.
    pose proof (DecimalPos.Unsigned.to_uint_nonnil p) as Hp.
    destruct (Pos.to_uint p); congruence || reflexivity. }
  rewrite !Hne by lia. rewrite (to_uint_thousand k Hk).
  apply string_of_uint_app.
Qed.

End DecimalNumerals.

(** ** The master playlist *)

Section Manifest.

#[local] Arguments stream_inf : simpl never.
#[local] Arguments streamName : simpl never.

(** What the loop appends for one variant. *)
Let entry (v : variant) : string :=
  stream_inf v +:+ LF +:+ streamName v +:+ LF.

Let entries (variants : list variant) : string :=
  fold_right (fun v rest => entry v +:+ rest) "" variants.

Lemma builder_loop (variants : list variant) (b : string) :
  fold_left
    (fun b v => (b +:+ (stream_inf v +:+ LF)) +:+ (streamName v +:+ LF))
    variants b
  = b +:+ entries variants.
Proof.
  revert b. induction variants as [|v vs IH]; intros b; cbn.
  - now rewrite append_nil_r.
  - rewrite IH. unfold entry. now rewrite !append_assoc.
Qed.

(** The manifest is the header followed by the entries, whatever the
    variants are. *)
Lemma masterContent_eq (variants : list variant) :
  masterContent variants = manifest_header +:+ entries variants.
Proof. unfold masterContent. now rewrite builder_loop. Qed.

Lemma masterContent_header (variants : list variant) :
  String.prefix manifest_header (masterContent variants) = true.
Proof.
  rewrite masterContent_eq. apply prefix_correct, substring_append_l.
Qed.

Lemma plain_stream_inf (v : variant) :
  plain_variant v = true -> single_line (stream_inf v) = true.
Proof.
  unfold plain_variant, stream_inf, bandwidth. intros Hv.
  repeat (apply andb_true_iff in Hv as [Hv ?]).
  rewrite !single_line_append, single_line_TrimSuffix by assumption.
  now repeat (apply andb_true_iff; split).
Qed.

Lemma plain_streamName (v : variant) :
  plain_variant v = true -> single_line (streamName v) = true.
Proof.
  unfold plain_variant, streamName. intros Hv.
  repeat (apply andb_true_iff in Hv as [Hv ?]).
  rewrite !single_line_append.
  now repeat (apply andb_true_iff; split).
Qed.

Lemma lines_entries (variants : list variant) :
  forallb plain_variant variants = true ->
  lines (entries variants) =
  flat_map (fun v => [stream_inf v; streamName v]) variants.
Proof.
  induction variants as [|v vs IH]; cbn; intros Hvs; [reflexivity |].
  apply andb_true_iff in Hvs as [Hv Hvs]. unfold entry.
  rewrite !append_assoc.
  rewrite lines_cons by now apply plain_stream_inf.
  rewrite lines_cons by now apply plain_streamName.
  do 2 f_equal. now apply IH.
Qed.

Lemma lines_masterContent (variants : list variant) :
  forallb plain_variant variants = true ->
  lines (masterContent variants) =
  ["#EXTM3U"; "#EXT-X-VERSION:3"] ++
  flat_map (fun v => [stream_inf v; streamName v]) variants.
Proof.
  intros Hvs. rewrite masterContent_eq. unfold manifest_header.
  rewrite !append_assoc.
  rewrite 2 lines_cons by reflexivity.
  now rewrite lines_entries.
Qed.

Lemma entries_ok_pairs (variants : list variant) :
  entries_ok (flat_map (fun v => [stream_inf v; streamName v]) variants)
             variants = true.
Proof.
  induction variants as [|v vs IH]; cbn; [reflexivity |].
  rewrite String.eqb_refl, IH. reflexivity.
Qed.

Lemma count_stream_inf_pairs (variants : list variant) :
  length (List.filter is_stream_inf
            (flat_map (fun v => [stream_inf v; streamName v]) variants))
  = length variants.
Proof.
  induction variants as [|v vs IH]; cbn; [reflexivity |].
  change (is_stream_inf (stream_inf v)) with true.
  change (is_stream_inf (streamName v)) with false.
  cbn. now rewrite IH.
Qed.

End Manifest.

(** C3, as it holds.  For every variant list whose fields hold no line
    feed, the manifest starts with the exact header and then consists of one
    [#EXT-X-STREAM-INF] line per variant, in order, each immediately
    followed by the line with the name of the variant's sub-playlist. *)
Theorem manifest_format (variants : list variant) :
  forallb plain_variant variants = true ->
  String.prefix manifest_header (masterContent variants) = true /\
  lines (masterContent variants) =
    ["#EXTM3U"; "#EXT-X-VERSION:3"] ++
    flat_map (fun v => [stream_inf v; streamName v]) variants /\
  manifest_ok (masterContent variants) variants = true.
Proof.
  intros Hvs. split; [apply masterContent_header |].
  split; [now apply lines_masterContent |].
  unfold manifest_ok.
  rewrite masterContent_header, (lines_masterContent _ Hvs). cbn.
  rewrite entries_ok_pairs, count_stream_inf_pairs.
  now rewrite Nat.eqb_refl.
Qed.

(** The manifest of the variant list of the program. *)
Lemma manifest_format_HLS_VARIANTS :
  String.prefix manifest_header (masterContent HLS_VARIANTS) = true /\
  lines (masterContent HLS_VARIANTS) =
    ["#EXTM3U"; "#EXT-X-VERSION:3"] ++
    flat_map (fun v => [stream_inf v; streamName v]) HLS_VARIANTS /\
  manifest_ok (masterContent HLS_VARIANTS) HLS_VARIANTS = true.
Proof. apply (manifest_format HLS_VARIANTS). reflexivity. Defined.

(** C3, as stated, fails: a variant whose name holds a line feed followed by
    [#EXT-X-STREAM-INF] gives three such lines for one variant, and the line
    after the first of them is not the name of its sub-playlist. *)
Lemma manifest_format_counterexample :
  ~ (forall variants : list variant,
       manifest_ok (masterContent variants) variants = true).
Proof.
  intros Hall. specialize (Hall [two_line_variant]).
  vm_compute in Hall. discriminate Hall.
Qed.

(** The lines of that manifest. *)
Example two_line_variant_manifest :
  lines (masterContent [two_line_variant]) =
  ["#EXTM3U"; "#EXT-X-VERSION:3";
   "#EXT-X-STREAM-INF:BANDWIDTH=800000,RESOLUTION=640x360,NAME=" +:+ QUOTE
     +:+ "a";
   "#EXT-X-STREAM-INF:b" +:+ QUOTE;
   "stream_a";
   "#EXT-X-STREAM-INF:b.m3u8"].
Proof. vm_compute. reflexivity. Qed.

(** ** The bandwidth attribute *)

Section Bandwidth.

#[local] Arguments stream_inf : simpl never.
#[local] Arguments streamName : simpl never.

(** The manifest of a list is that of its front part followed by what the
    loop appends for the rest. *)
Lemma masterContent_app (before after : list variant) :
  masterContent (before ++ after) =
  fold_left
    (fun b v => (b +:+ (stream_inf v +:+ LF)) +:+ (streamName v +:+ LF))
    after (masterContent before).
Proof. unfold masterContent. now rewrite fold_left_app. Qed.

Lemma stream_inf_kilobit (v : variant) (n : string) :
  vbitrate v = n +:+ "k" ->
  stream_inf v =
  "#EXT-X-STREAM-INF:BANDWIDTH=" +:+ n +:+ "000" +:+
  ",RESOLUTION=" +:+ width v +:+ "x" +:+ height v +:+
  ",NAME=" +:+ QUOTE +:+ name v +:+ QUOTE.
Proof.
  intros Hv. unfold stream_inf, bandwidth.
  rewrite Hv, TrimSuffix_append. f_equal. apply append_assoc.
Qed.

End Bandwidth.

(** C7. A bitrate written [<n>k] is rendered into the manifest as [<n>]
    followed by [000].  That is the value of the [BANDWIDTH] attribute of
    the variant's [#EXT-X-STREAM-INF] line, and that line, as written out
    here, stands in the manifest of every variant list at the place of the
    variant: after the manifest of the variants before it, followed by the
    name of its sub-playlist and by what the loop writes for the variants
    after it.  It is one of the lines of the manifest when no field of a
    variant holds a line feed.  When [<n>]
    is the decimal numeral of a positive number [k] of kilobits per second,
    [<n>000] is the numeral of [1000 * k] bits per second. *)
Theorem bandwidth_of_kilobit_rate (v : variant) (n : string) :
  vbitrate v = n +:+ "k" ->
  let line :=
    "#EXT-X-STREAM-INF:BANDWIDTH=" +:+ n +:+ "000" +:+
    ",RESOLUTION=" +:+ width v +:+ "x" +:+ height v +:+
    ",NAME=" +:+ QUOTE +:+ name v +:+ QUOTE in
  bandwidth v = n +:+ "000" /\
  stream_inf v = line /\
  (forall before after : list variant,
     masterContent (before ++ v :: after) =
     masterContent before +:+ (line +:+ LF) +:+ (streamName v +:+ LF) +:+
     fold_left
       (fun b v' => (b +:+ (stream_inf v' +:+ LF)) +:+ (streamName v' +:+ LF))
       after "") /\
  (forall variants : list variant,
     forallb plain_variant variants = true -> In v variants ->
     In line (lines (masterContent variants))) /\
  (forall k : N, (0 < k)%N -> n = fmt_u k ->
     bandwidth v = fmt_u (1000 * k)).
Proof.
  intros Hv line.
  pose proof (stream_inf_kilobit v n Hv) as Hline. fold line in Hline.
  assert (Hb : bandwidth v = n +:+ "000").
  { unfold bandwidth. now rewrite Hv, TrimSuffix_append. }
  split; [exact Hb |]. split; [exact Hline |]. split; [| split].
  - intros before after. rewrite masterContent_app. cbn [fold_left].
    rewrite builder_loop, (builder_loop after ""). cbv zeta. rewrite Hline.
    cbn [String.append]. now rewrite !append_assoc.
  - intros variants Hplain Hin.
    rewrite (lines_masterContent variants Hplain), <- Hline.
    apply in_or_app. right. apply in_flat_map. exists v.
    split; [exact Hin | now left].
  - intros k Hk ->. rewrite Hb. symmetry. now apply fmt_u_thousand.
Qed.

(** The two renderings the specification names, as they stand in the
    manifest of the four variants of the program. *)
Lemma bandwidth_800k_6000k :
  (bandwidth {| name := "360p"; height := "360"; vbitrate := "800k";
                width := "640" |} = "800000" /\
   In ("#EXT-X-STREAM-INF:BANDWIDTH=800000,RESOLUTION=640x360,NAME=" +:+
       QUOTE +:+ "360p" +:+ QUOTE)
      (lines (masterContent HLS_VARIANTS)) /\
   "800000" = fmt_u (1000 * 800)) /\
  (bandwidth {| name := "1080p"; height := "1080"; vbitrate := "6000k";
                width := "1920" |} = "6000000" /\
   In ("#EXT-X-STREAM-INF:BANDWIDTH=6000000,RESOLUTION=1920x1080,NAME=" +:+
       QUOTE +:+ "1080p" +:+ QUOTE)
      (lines (masterContent HLS_VARIANTS)) /\
   "6000000" = fmt_u (1000 * 6000)).
Proof.
  split.
  - destruct (bandwidth_of_kilobit_rate
                {| name := "360p"; height := "360"; vbitrate := "800k";
                   width := "640" |} "800" eq_refl)
      as (Hb & _ & _ & Hl & Hk).
    split; [exact Hb |]. split.
    + apply (Hl HLS_VARIANTS eq_refl). now left.
    + exact (eq_trans (eq_sym Hb) (Hk 800%N eq_refl eq_refl)).
  - destruct (bandwidth_of_kilobit_rate
                {| name := "1080p"; height := "1080"; vbitrate := "6000k";
                   width := "1920" |} "6000" eq_refl)
      as (Hb & _ & _ & Hl & Hk).
    split; [exact Hb |]. split.
    + apply (Hl HLS_VARIANTS eq_refl). do 3 right. now left.
    + exact (eq_trans (eq_sym Hb) (Hk 6000%N eq_refl eq_refl)).
Defined.

(** ** Identifiers *)

Section Identifiers.

Import Decimal.

Lemma all_bytes_append (p : ascii -> bool) (s t : string) :
  all_bytes p (s +:+ t) = all_bytes p s && all_bytes p t.
Proof.
  induction s as [|c s IH]; cbn; [reflexivity |].
  now rewrite IH, andb_assoc.
Qed.

Lemma all_bytes_impl (p q : ascii -> bool) (s : string) :
  (forall c, p c = true -> q c = true) ->
  all_bytes p s = true -> all_bytes q s = true.
Proof.
  intros Hpq. induction s as [|c s IH]; cbn; [reflexivity |].
  intros H. apply andb_true_iff in H as [Hc Hs].
  now rewrite (Hpq c Hc), IH.
Qed.

Lemma numeral_bytes_uint (d : uint) :
  all_bytes numeral_byte (NilEmpty.string_of_uint d) = true.
Proof. induction d; cbn; assumption || reflexivity. Qed.

Lemma numeral_bytes_fmt_u (n : N) : all_bytes numeral_byte (fmt_u n) = true.
Proof.
  unfold fmt_u, NilZero.string_of_uint.
  destruct (N.to_uint n) eqn:E; try reflexivity;
    rewrite <- E; apply numeral_bytes_uint.
Qed.

Lemma numeral_bytes_fmt_d (z : Z) : all_bytes numeral_byte (fmt_d z) = true.
Proof.
  unfold fmt_d, NilZero.string_of_int, NilZero.string_of_uint.
  destruct (Z.to_int z) as [d|d]; destruct d eqn:E; try reflexivity;
    rewrite <- E; cbn; apply numeral_bytes_uint.
Qed.

Lemma fmt_u_inj (m n : N) : fmt_u m = fmt_u n -> m = n.
Proof.
  unfold fmt_u. intros E.
  apply (f_equal NilZero.uint_of_string) in E.
  rewrite !NilZero.usu in E.
  - injection E as E. now apply DecimalN.Unsigned.to_uint_inj.
  - destruct n; [discriminate | apply DecimalPos.Unsigned.to_uint_nonnil].
  - destruct m; [discriminate | apply DecimalPos.Unsigned.to_uint_nonnil].
Qed.

Lemma to_int_nonnil (z : Z) :
  Z.to_int z <> Pos Nil /\ Z.to_int z <> Neg Nil.
Proof.
  destruct z as [|p|p]; cbn; split; try discriminate;
    intros E; injection E as E;
    now apply (DecimalPos.Unsigned.to_uint_nonnil p).
Qed.

Lemma fmt_d_inj (y z : Z) : fmt_d y = fmt_d z -> y = z.
Proof.
  unfold fmt_d. intros E.
  apply (f_equal NilZero.int_of_string) in E.
  destruct (to_int_nonnil y) as [Hy1 Hy2], (to_int_nonnil z) as [Hz1 Hz2].
  rewrite !NilZero.isi in E by assumption.
  injection E as E. now apply DecimalZ.to_int_inj.
Qed.

(** Two texts free of [_], each followed by [_] and more: equal wholes
    have equal parts. *)
Lemma underscore_split (a a' b b' : string) :
  all_bytes numeral_byte a = true ->
  all_bytes numeral_byte a' = true ->
  a +:+ "_" +:+ b = a' +:+ "_" +:+ b' -> a = a' /\ b = b'.
Proof.
  revert a'. induction a as [|c a IH]; intros [|c' a'] Ha Ha' E; cbn in *.
  - injection E as E. now split.
  - injection E as <- E. discriminate Ha'.
  - injection E as -> E. discriminate Ha.
  - injection E as -> E.
    apply andb_true_iff in Ha as [_ Ha], Ha' as [_ Ha'].
    destruct (IH a' Ha Ha' E) as [-> ->]. now split.
Qed.

Lemma video_id_inj (t t' : Z) (n n' : N) :
  video_id t n = video_id t' n' -> t = t' /\ n = n'.
Proof.
  unfold video_id. intros E. cbn in E.
  injection E as E.
  apply underscore_split in E as [Et En];
    try apply numeral_bytes_fmt_d.
  split; [now apply fmt_d_inj | now apply fmt_u_inj].
Qed.

Lemma video_id_valid (t : Z) (n : N) : valid_name (video_id t n) = true.
Proof.
  unfold valid_name, video_id. cbn.
  rewrite !all_bytes_append. cbn.
  apply andb_true_iff; split;
    (eapply all_bytes_impl;
     [| apply numeral_bytes_fmt_d || apply numeral_bytes_fmt_u]);
    intros c Hc; unfold numeral_byte in Hc;
    repeat (destruct c as [[] [] [] [] [] [] [] []]; try discriminate Hc;
            try reflexivity).
Qed.

End Identifiers.

(** ** The counter over a run of uploads *)

Section Uploads.

Lemma counter_Add_iter (c : N) (k : N) :
  counter_Add ((c + k) mod 2 ^ 64)%N 1 = ((c + (k + 1)) mod 2 ^ 64)%N.
Proof.
  unfold counter_Add. rewrite N.Div0.add_mod_idemp_l. f_equal. lia.
Qed.

(** The [i]-th identifier drawn holds the [i]-th clock reading and the
    counter advanced [i + 1] times. *)
Lemma ids_drawn_nth (c : N) (nows : list Z) (k : N) (i : nat) :
  nth_error (ids_drawn ((c + k) mod 2 ^ 64)%N nows) i =
  option_map
    (fun now => video_id now ((c + (k + N.of_nat (S i))) mod 2 ^ 64)%N)
    (nth_error nows i).
Proof.
  revert k i. induction nows as [|now later IH]; intros k i.
  - now destruct i.
  - cbn [ids_drawn]. rewrite counter_Add_iter. destruct i as [|i].
    + reflexivity.
    + cbn [nth_error]. rewrite IH.
      replace (k + 1 + N.of_nat (S i))%N with (k + N.of_nat (S (S i)))%N
        by lia.
      reflexivity.
Qed.

(** Fewer than 2^64 steps apart, the counter does not come back. *)
Lemma counter_values_distinct (c : N) (i j : N) :
  (i < j)%N -> (j - i < 2 ^ 64)%N ->
  ((c + i) mod 2 ^ 64)%N <> ((c + j) mod 2 ^ 64)%N.
Proof.
  intros Hij Hlt E.
  pose proof (N.Div0.div_mod (c + i) (2 ^ 64)) as Hi.
  pose proof (N.Div0.div_mod (c + j) (2 ^ 64)) as Hj.
  rewrite E in Hi.
  set (M := (2 ^ 64)%N) in *.
  assert (HM : (0 < M)%N) by (subst M; reflexivity).
  set (qi := ((c + i) / M)%N) in *. set (qj := ((c + j) / M)%N) in *.
  set (r := ((c + j) mod M)%N) in *.
  assert (Hq : (qi < qj)%N \/ (qj <= qi)%N) by lia.
  destruct Hq as [Hq|Hq]; nia.
Qed.

(** As long as the counter has not gone round, no identifier is drawn
    twice, whatever the clock reads. *)
Lemma ids_drawn_NoDup (c : N) (nows : list Z) :
  (c < 2 ^ 64)%N ->
  (N.of_nat (length nows) <= 2 ^ 64)%N ->
  NoDup (ids_drawn c nows).
Proof.
  intros Hc Hlen. apply NoDup_ListNoDup, NoDup_nth_error.
  assert (Hlen' : length (ids_drawn c nows) = length nows).
  { clear. revert c. induction nows as [|t l IH]; intros c; cbn;
      [reflexivity | now rewrite IH]. }
  intros i j Hi E. rewrite Hlen' in Hi.
  rewrite <- (N.mod_small c (2 ^ 64) Hc) in E.
  replace (c mod 2 ^ 64)%N with ((c + 0) mod 2 ^ 64)%N in E
    by (f_equal; lia).
  rewrite !ids_drawn_nth in E.
  destruct (nth_error nows i) as [ti|] eqn:Ei;
    [| apply nth_error_None in Ei; lia].
  destruct (nth_error nows j) as [tj|] eqn:Ej; [| discriminate].
  assert (Hj : (j < length nows)%nat)
    by (apply nth_error_Some; congruence).
  cbn [option_map] in E. apply (inj Some) in E.
  apply video_id_inj in E as [_ E].
  destruct (Nat.lt_trichotomy i j) as [Hlt|[Heq|Hgt]]; [| exact Heq |].
  - exfalso. revert E. apply counter_values_distinct; lia.
  - exfalso. symmetry in E. revert E. apply counter_values_distinct; lia.
Qed.

(** An accepted upload is stored under the identifier drawn for it, with
    the extension of the client's file name, and advances the counter. *)
Lemma UploadHandler_stores (now : Z) (filename content : string)
    (w : node) (counter : N) :
  let id := video_id now (counter_Add counter 1) in
  let path := filepath_Join [uploadDir; id +:+ filepath_Ext filename] in
  forall w',
    os_WriteFile path content (snd (os_Create path w)) = (None, w') ->
    fst (os_Create path w) = None ->
    UploadHandler now (upload filename content) (w, counter) =
    (Redirect "/" StatusSeeOther, (w', counter_Add counter 1)).
Proof.
  intros id path w' Hw Hc. unfold UploadHandler. cbn [Method upload].
  change (String.eqb MethodPost MethodPost) with true. cbn [negb].
  change (FormFile_of (Files (upload filename content)) "video")
    with (Some {| Filename := filename; Content := content |}).
  cbn [Filename Content]. fold id. fold path.
  rewrite (surjective_pairing (os_Create path w)), Hc.
  change (io_Copy path content) with (os_WriteFile path content).
  now rewrite Hw.
Qed.

End Uploads.

(** ** What successive uploads create *)

Section Recorded.

Lemma length_ids_drawn (c : N) (nows : list Z) :
  length (ids_drawn c nows) = length nows.
Proof.
  revert c. induction nows as [|t l IH]; intros c; cbn;
    [reflexivity | now rewrite IH].
Qed.

Lemma ids_drawn_valid (c : N) (nows : list Z) :
  Forall (fun id => valid_name id = true) (ids_drawn c nows).
Proof.
  revert c. induction nows as [|t l IH]; intros c; cbn; constructor;
    [apply video_id_valid | apply IH].
Qed.

(** An accepted upload on the recording file system: the file is created
    at the path made of the identifier drawn, and the counter has advanced. *)
Lemma UploadHandler_recorded (now : Z) (r : Request)
    (created : list string) (c : N) :
  accepted r = true ->
  @UploadHandler (list string) recording_fs now r (created, c) =
  (Redirect "/" StatusSeeOther,
   (created ++ [upload_path (video_id now (counter_Add c 1)) r],
    counter_Add c 1)).
Proof.
  unfold accepted, upload_path, UploadHandler.
  intros [Hm Hf]%andb_true_iff. rewrite Hm. cbn [negb].
  now destruct (FormFile_of (Files r) "video").
Qed.

Lemma serve_uploads_recorded (reqs : list (Z * Request))
    (created : list string) (c : N) :
  forallb (fun q => accepted (snd q)) reqs = true ->
  fst (@serve_uploads (list string) recording_fs reqs (created, c)) =
  created ++
  map (fun iq => upload_path (fst iq) (snd (snd iq)))
      (combine (ids_drawn c (map fst reqs)) reqs).
Proof.
  revert created c. induction reqs as [|[now r] rest IH];
    intros created c Hacc.
  - cbn. now rewrite app_nil_r.
  - cbn [forallb snd] in Hacc. apply andb_true_iff in Hacc as [Hr Hrest].
    cbn [serve_uploads]. rewrite (UploadHandler_recorded now r created c Hr).
    cbn [snd]. rewrite (IH _ _ Hrest).
    cbn [map fst ids_drawn combine snd]. now rewrite <- app_assoc.
Qed.

End Recorded.

(** C8. The identifiers that successive uploads draw.  The upload handler,
    serving accepted requests one after another from a counter at [c],
    creates its files at the paths made of the identifiers [ids], one per
    request and in order, the [i]-th being made of the [i]-th clock reading
    and of the counter after [i] increments.  As long as the counter has
    not gone round (no more than 2^64 uploads), no identifier is drawn
    twice, whatever the clock reads; any two identifiers made of different
    counter values differ; and every identifier is a valid single element
    of a path: not empty, not [.] or [..], and without the separator or a
    NUL byte. *)
Theorem video_id_unique_and_safe (c : N) (reqs : list (Z * Request)) :
  (c < 2 ^ 64)%N ->
  (N.of_nat (length reqs) <= 2 ^ 64)%N ->
  forallb (fun q => accepted (snd q)) reqs = true ->
  let ids := ids_drawn c (map fst reqs) in
  fst (@serve_uploads (list string) recording_fs reqs ([], c)) =
    map (fun iq => upload_path (fst iq) (snd (snd iq))) (combine ids reqs) /\
  length ids = length reqs /\
  NoDup ids /\
  Forall (fun id => valid_name id = true) ids /\
  (forall (now1 now2 : Z) (n1 n2 : N),
     n1 <> n2 -> video_id now1 n1 <> video_id now2 n2).
Proof.
  intros Hc Hlen Hacc ids. subst ids.
  split; [exact (serve_uploads_recorded reqs [] c Hacc) |].
  split; [now rewrite length_ids_drawn, length_map |].
  split; [apply ids_drawn_NoDup; [exact Hc | now rewrite length_map] |].
  split; [apply ids_drawn_valid |].
  intros now1 now2 n1 n2 Hn E. apply video_id_inj in E as [_ E].
  contradiction.
Qed.

(** Two uploads of a file of the same name in the same nanosecond, the
    counter at 0 before the first. *)
Lemma video_id_unique_and_safe_witness :
  let reqs := [(1700000000000000000%Z, upload "cat.mp4" "meow");
               (1700000000000000000%Z, upload "cat.mp4" "purr")] in
  fst (@serve_uploads (list string) recording_fs reqs ([], 0%N)) =
    ["uploads/video_1700000000000000000_1.mp4";
     "uploads/video_1700000000000000000_2.mp4"] /\
  NoDup (ids_drawn 0 (map fst reqs)) /\
  Forall (fun id => valid_name id = true) (ids_drawn 0 (map fst reqs)).
Proof.
  intros reqs.
  destruct (video_id_unique_and_safe 0 reqs)
    as (Hcreated & _ & Hnodup & Hvalid & _);
    [reflexivity | cbn; lia | reflexivity |].
  split; [exact Hcreated |]. split; [exact Hnodup | exact Hvalid].
Defined.

(** Two uploads into the sample store within the same nanosecond. *)
Example two_uploads :
  let st0 := (sample_store, 0%N) in
  let st1 := snd (UploadHandler 1700000000000000000
                    (upload "cat.mp4" "meow") st0) in
  let st2 := snd (UploadHandler 1700000000000000000
                    (upload "cat.mp4" "meow") st1) in
  map de_Name (ReadDir_ uploadDir (fst st2)) =
    ["clip.mp4"; "video_1700000000000000000_1.mp4";
     "video_1700000000000000000_2.mp4"] /\
  snd st2 = 2%N.
Proof. split; vm_compute; reflexivity. Qed.

(** ** Paths *)

Section Paths.

Lemma split_sep_name (s : string) :
  all_bytes (fun c => negb (is_sep c)) s = true -> split_sep s = [s].
Proof.
  induction s as [|c s IH]; cbn; [reflexivity |].
  intros H. apply andb_true_iff in H as [Hc Hs].
  apply negb_true_iff in Hc. now rewrite Hc, (IH Hs).
Qed.

(** What [valid_name] says, piece by piece. *)
Lemma valid_name_inv (s : string) :
  valid_name s = true ->
  String.eqb s "" = false /\ String.eqb s "." = false /\
  String.eqb s ".." = false /\ split_sep s = [s].
Proof.
  unfold valid_name. intros H.
  repeat (apply andb_true_iff in H as [H ?]).
  repeat (split; [now apply negb_true_iff |]).
  apply split_sep_name. eapply all_bytes_impl; [| eassumption].
  intros c Hc. now apply andb_true_iff in Hc as [Hc _].
Qed.

Lemma clean_step_name (out : list string) (s : string) :
  valid_name s = true -> clean_step out s = s :: out.
Proof.
  intros (H1 & H2 & H3 & _)%valid_name_inv.
  unfold clean_step. now rewrite H1, H2, H3.
Qed.

Lemma resolve_step_name (out : list string) (s : string) :
  valid_name s = true -> resolve_step out s = s :: out.
Proof.
  intros (H1 & H2 & H3 & _)%valid_name_inv.
  unfold resolve_step. now rewrite H1, H2, H3.
Qed.

(** The directory of job [id] is the entry [id] of the entry [hls]. *)
Lemma outputDir_eq (id : string) :
  valid_name id = true -> filepath_Join [hlsDir; id] = "hls/" +:+ id.
Proof.
  intros Hid. pose proof (valid_name_inv id Hid) as (_ & _ & _ & Hs).
  cbn. unfold filepath_Clean, clean_elems. cbn. rewrite Hs. cbn.
  now rewrite (clean_step_name _ _ Hid).
Qed.

Lemma resolve_outputDir (id : string) :
  valid_name id = true -> resolve ("hls/" +:+ id) = ["hls"; id].
Proof.
  intros Hid. pose proof (valid_name_inv id Hid) as (_ & _ & _ & Hs).
  unfold resolve. cbn. rewrite Hs. cbn.
  now rewrite (resolve_step_name _ _ Hid).
Qed.

Lemma split_sep_app (s t : string) :
  all_bytes (fun c => negb (is_sep c)) s = true ->
  split_sep (s +:+ String "/" t) = s :: split_sep t.
Proof.
  induction s as [|c s IH]; cbn; [reflexivity |].
  intros H. apply andb_true_iff in H as [Hc Hs].
  apply negb_true_iff in Hc. now rewrite Hc, (IH Hs).
Qed.

Lemma valid_name_no_sep (s : string) :
  valid_name s = true -> all_bytes (fun c => negb (is_sep c)) s = true.
Proof.
  unfold valid_name. intros H.
  repeat (apply andb_true_iff in H as [H ?]).
  eapply all_bytes_impl; [| eassumption].
  intros c Hc. now apply andb_true_iff in Hc as [Hc _].
Qed.

(** The manifest of job [id], joined in one go as the status page does
    or in two as the converter does. *)
Lemma masterPath_eq (id : string) :
  valid_name id = true ->
  filepath_Join [hlsDir; id; "master.m3u8"] =
  "hls/" +:+ id +:+ "/master.m3u8".
Proof.
  intros Hid. pose proof (valid_name_no_sep id Hid) as Hs.
  cbn. unfold filepath_Clean, clean_elems. cbn.
  rewrite (split_sep_app _ _ Hs). cbn.
  now rewrite (clean_step_name _ _ Hid).
Qed.

Lemma masterPlaylistPath_eq (id : string) :
  valid_name id = true ->
  filepath_Join ["hls/" +:+ id; "master.m3u8"] =
  "hls/" +:+ id +:+ "/master.m3u8".
Proof.
  intros Hid. pose proof (valid_name_no_sep id Hid) as Hs.
  cbn. unfold filepath_Clean, clean_elems. cbn.
  rewrite (split_sep_app _ _ Hs). cbn.
  now rewrite (clean_step_name _ _ Hid).
Qed.

Lemma resolve_masterPath (id : string) :
  valid_name id = true ->
  resolve ("hls/" +:+ id +:+ "/master.m3u8") = ["hls"; id; "master.m3u8"].
Proof.
  intros Hid. pose proof (valid_name_no_sep id Hid) as Hs.
  unfold resolve. cbn. rewrite (split_sep_app _ _ Hs). cbn.
  now rewrite (resolve_step_name _ _ Hid).
Qed.

End Paths.

(** ** The status page on the in-memory store *)

Section StatusPage.

Implicit Types (w : node) (m : gmap string node) (id : string).

(** A job directory found by walking down from the root. *)
Lemma walk_job w id m :
  walk ["hls"; id] w = Ok (Dir m) <->
  exists root jobs,
    w = Dir root /\ root !! "hls" = Some (Dir jobs) /\
    jobs !! id = Some (Dir m).
Proof.
  split.
  - destruct w as [|root]; cbn; [discriminate |].
    destruct (root !! "hls") as [[|jobs]|] eqn:Eh; try discriminate.
    destruct (jobs !! id) as [n|] eqn:Ej; [| discriminate].
    intros [= ->]. eauto.
  - intros (root & jobs & -> & Eh & Ej). cbn. now rewrite Eh, Ej.
Qed.

(** The entries [os.ReadDir] reports are the entries of the directory. *)
Lemma In_dir_entries m (e : DirEntry) :
  In e (dir_entries m) <->
  exists n, m !! de_Name e = Some n /\ de_IsDir e = is_dir n.
Proof.
  unfold dir_entries. rewrite <- list_elem_of_In.
  rewrite merge_sort_Permutation, list_elem_of_In, in_map_iff.
  split.
  - intros ([k n] & <- & Hin). cbn.
    apply list_elem_of_In, elem_of_map_to_list in Hin. eauto.
  - intros (n & Hn & Hd). exists (de_Name e, n). split.
    + destruct e as [nm d]; cbn in *. now rewrite Hd.
    + now apply list_elem_of_In, elem_of_map_to_list.
Qed.

(** The scan lists [id] when a directory entry of that name was read, and
    then with the outcome of its probe. *)
Lemma find_scan w id (es : list DirEntry) :
  find (fun v => String.eqb (ID v) id) (scan w es) =
  if existsb (fun e => de_IsDir e && String.eqb (de_Name e) id) es
  then Some (probe w id) else None.
Proof.
  induction es as [|e es IH]; cbn; [reflexivity |].
  destruct (de_IsDir e); cbn; [| exact IH].
  destruct (String.eqb_spec (de_Name e) id) as [->|Hne]; [reflexivity |].
  exact IH.
Qed.

Lemma listed_iff m id :
  existsb (fun e => de_IsDir e && String.eqb (de_Name e) id)
          (dir_entries m) = true <->
  exists d, m !! id = Some (Dir d).
Proof.
  rewrite existsb_exists. split.
  - intros (e & Hin & He). apply andb_true_iff in He as [Hd Hn].
    apply String.eqb_eq in Hn. subst id.
    apply In_dir_entries in Hin as (n & Hn & Hdn).
    rewrite Hd in Hdn. destruct n as [|d]; [discriminate | eauto].
  - intros (d & Hd). exists {| de_Name := id; de_IsDir := true |}.
    split; [| cbn; now rewrite String.eqb_refl].
    apply In_dir_entries. cbn. eauto.
Qed.

(** The status of a job read off the tree: absent without a directory
    [hls/id], ready when that directory has an entry [master.m3u8] of any
    kind, processing otherwise. *)
Lemma Status_tree w id :
  valid_name id = true ->
  Status w id =
  match walk ["hls"; id] w with
  | Ok (Dir m) =>
      match m !! "master.m3u8" with
      | Some _ => JobReady
      | None => JobProcessing
      end
  | _ => JobAbsent
  end.
Proof.
  intros Hid. unfold Status, list_videos, ReadDir_.
  rewrite find_scan. cbn [os_ReadDir node_fs]. unfold node_ReadDir.
  change (resolve hlsDir) with ["hls"].
  destruct w as [|root]; [reflexivity |]. cbn [walk].
  destruct (root !! "hls") as [[|jobs]|] eqn:Eh; try reflexivity.
  destruct (existsb _ (dir_entries jobs)) eqn:Ex.
  - apply listed_iff in Ex as (d & Hd). rewrite Hd.
    unfold probe. cbn [Ready os_Stat node_fs]. unfold node_Stat.
    rewrite (masterPath_eq id Hid), (resolve_masterPath id Hid).
    cbn [walk]. rewrite Eh, Hd.
    now destruct (d !! "master.m3u8").
  - destruct (jobs !! id) as [[|d]|] eqn:Ej; try reflexivity.
    assert (existsb (fun e => de_IsDir e && String.eqb (de_Name e) id)
              (dir_entries jobs) = true) as Ht
      by (apply listed_iff; eauto).
    congruence.
Qed.

(** The two probes of the specification, on the tree. *)
Lemma Stat_outputDir w id :
  valid_name id = true ->
  os_Stat (filepath_Join [hlsDir; id]) w =
  match walk ["hls"; id] w with
  | Ok n => Ok {| fi_IsDir := is_dir n |}
  | Err e => Err e
  end.
Proof.
  intros Hid. cbn [os_Stat node_fs]. unfold node_Stat.
  now rewrite (outputDir_eq id Hid), (resolve_outputDir id Hid).
Qed.

Lemma Stat_masterPath w id :
  valid_name id = true ->
  os_Stat (filepath_Join [hlsDir; id; "master.m3u8"]) w =
  match walk ["hls"; id; "master.m3u8"] w with
  | Ok n => Ok {| fi_IsDir := is_dir n |}
  | Err e => Err e
  end.
Proof.
  intros Hid. cbn [os_Stat node_fs]. unfold node_Stat.
  now rewrite (masterPath_eq id Hid), (resolve_masterPath id Hid).
Qed.

(** The listing is the directory entries of the root, in the order read,
    by name. *)
Lemma scan_names w (es : list DirEntry) :
  map ID (scan w es) = map de_Name (List.filter de_IsDir es).
Proof.
  induction es as [|e es IH]; cbn; [reflexivity |].
  destruct (de_IsDir e); cbn; now rewrite IH.
Qed.

End StatusPage.

(** C2, as it holds.  A job is ready exactly when [<root>/<id>] is a
    directory and [<root>/<id>/master.m3u8] exists, as a file or as anything
    else [os.Stat] succeeds on; it is processing exactly when the directory
    exists and [master.m3u8] does not; it is absent exactly when there is no
    such directory.  The listing holds the names of the directory entries
    directly under the root, in the order read, and no other entry. *)
Theorem status_probe (w : node) (id : string) :
  valid_name id = true ->
  let dir_exists :=
    os_Stat (filepath_Join [hlsDir; id]) w = Ok {| fi_IsDir := true |} in
  let manifest_exists :=
    exists info,
      os_Stat (filepath_Join [hlsDir; id; "master.m3u8"]) w = Ok info in
  (Status w id = JobReady <-> dir_exists /\ manifest_exists) /\
  (Status w id = JobProcessing <-> dir_exists /\ ~ manifest_exists) /\
  (Status w id = JobAbsent <-> ~ dir_exists) /\
  map ID (list_videos w) =
    map de_Name (List.filter de_IsDir (ReadDir_ hlsDir w)).
Proof.
  intros Hid dir_exists manifest_exists.
  subst dir_exists manifest_exists.
  rewrite (Status_tree w id Hid), (Stat_outputDir w id Hid),
    (Stat_masterPath w id Hid).
  split; [| split; [| split]]; [| | | apply scan_names].
  all: destruct (walk ["hls"; id] w) as [[|m]|e] eqn:Ew; cbn;
    try (split; [discriminate | intros [[=] _]]);
    try (split; [intros _ [=] | reflexivity]).
  all: apply walk_job in Ew as (root & jobs & -> & Eh & Ej);
    cbn; rewrite ?Eh, ?Ej;
    destruct (m !! "master.m3u8") as [n|]; split; try discriminate; eauto.
  all: first
    [ intros [_ [info [=]]]
    | intros [_ Hno]; exfalso; apply Hno; eauto
    | intros _; split; [reflexivity | intros [info [=]]]
    | intros Hno; exfalso; now apply Hno ].
Qed.

(** The finished job of the sample store. *)
Lemma status_probe_witness :
  (Status sample_store "done" = JobReady <->
   os_Stat (filepath_Join [hlsDir; "done"]) sample_store =
     Ok {| fi_IsDir := true |} /\
   exists info,
     os_Stat (filepath_Join [hlsDir; "done"; "master.m3u8"]) sample_store =
     Ok info) /\
  map ID (list_videos sample_store) = ["busy"; "done"].
Proof.
  destruct (status_probe sample_store "done" eq_refl) as (H1 & _ & _ & H4).
  split; [exact H1 | exact H4].
Defined.

(** C2, as stated, fails: where [master.m3u8] is a directory the job is
    ready although no manifest file exists. *)
Lemma status_probe_counterexample :
  ~ (forall (w : node) (id : string),
       valid_name id = true ->
       (Status w id = JobReady <->
        os_Stat (filepath_Join [hlsDir; id]) w = Ok {| fi_IsDir := true |} /\
        os_Stat (filepath_Join [hlsDir; id; "master.m3u8"]) w =
          Ok {| fi_IsDir := false |})).
Proof.
  intros Hall.
  destruct (Hall manifest_dir_store "j" eq_refl) as [Hready _].
  assert (Hs : Status manifest_dir_store "j" = JobReady)
    by (vm_compute; reflexivity).
  destruct (Hready Hs) as [_ Hfile].
  vm_compute in Hfile. discriminate Hfile.
Qed.

(** ** Changes to the in-memory store *)

Section TreeFacts.

Implicit Types (n : node) (m : gmap string node) (c : string)
  (q : list string) (f : option node -> result (option node)).

Lemma lookup_set_entry c (o : option node) m : set_entry c o m !! c = o.
Proof.
  destruct o; cbn; [apply lookup_insert_eq | apply lookup_delete_eq].
Qed.

Lemma set_entry_twice c (o : option node) m :
  set_entry c o (set_entry c o m) = set_entry c o m.
Proof.
  destruct o; cbn; [apply insert_insert_eq | apply delete_delete_eq].
Qed.

Lemma set_entry_same c m : set_entry c (m !! c) m = m.
Proof.
  destruct (m !! c) eqn:E; cbn; [now apply insert_id | now apply delete_id].
Qed.

(** A change that fails leaves the store as it was. *)
Lemma modify_failed f missing c q n (e : errno) :
  fst (modify f missing c q n) = Some e -> snd (modify f missing c q n) = n.
Proof.
  revert c n. induction q as [|c' q IH]; intros c [d|m]; cbn; try easy.
  - destruct (f (m !! c)); cbn; easy.
  - destruct (m !! c) as [n'|] eqn:Ec; cbn; [| easy].
    specialize (IH c' n').
    destruct (modify f missing c' q n') as [e' n'']; cbn in *.
    intros He. rewrite (IH He). now rewrite insert_id.
Qed.

(** A change whose outcome it would itself leave alone or refuse to touch
    changes nothing when made a second time. *)
Lemma modify_twice f missing c q n :
  (forall o o', f o = Ok o' -> f o' = Ok o' \/ exists e, f o' = Err e) ->
  snd (modify f missing c q (snd (modify f missing c q n))) =
  snd (modify f missing c q n).
Proof.
  intros Hf. revert c n.
  induction q as [|c' q IH]; intros c [d|m]; cbn; try easy.
  - destruct (f (m !! c)) as [o|e] eqn:E1; cbn.
    + rewrite lookup_set_entry.
      destruct (Hf _ _ E1) as [E2|[e E2]]; rewrite E2; cbn;
        [now rewrite set_entry_twice | reflexivity].
    + now rewrite E1.
  - destruct (m !! c) as [n'|] eqn:Ec; cbn; [| now rewrite Ec].
    specialize (IH c' n').
    destruct (modify f missing c' q n') as [e' n''] eqn:E1; cbn in *.
    rewrite lookup_insert_eq.
    destruct (modify f missing c' q n'') as [e2 n3] eqn:E2; cbn in *.
    now rewrite IH, insert_insert_eq.
Qed.

(** Nothing at the path: a change that maps nothing to nothing, or fails
    on nothing, leaves the store as it was. *)
Lemma modify_absent f missing c q n :
  walk (c :: q) n = Err ENOENT ->
  f None = Ok None \/ (exists e, f None = Err e) ->
  snd (modify f missing c q n) = n.
Proof.
  intros Hw Hf. revert c n Hw.
  induction q as [|c' q IH]; intros c [d|m]; cbn; try easy.
  - destruct (m !! c) as [n'|] eqn:Ec; [discriminate |]. intros _.
    destruct Hf as [E|[e E]]; rewrite E; cbn; [| reflexivity].
    now rewrite delete_id.
  - destruct (m !! c) as [n'|] eqn:Ec; cbn; [| easy].
    intros Hw. specialize (IH c' n' Hw).
    destruct (modify f missing c' q n') as [e' n'']; cbn in *.
    rewrite IH. now rewrite insert_id.
Qed.

(** After the removal of a tree nothing is found at its path. *)
Lemma walk_removed c q n :
  exists e, walk (c :: q) (snd (modify remove_tree None c q n)) = Err e.
Proof.
  revert c n. induction q as [|c' q IH]; intros c [d|m]; cbn; eauto.
  - rewrite lookup_delete_eq. eauto.
  - destruct (m !! c) as [n'|] eqn:Ec; cbn; [| rewrite Ec; eauto].
    specialize (IH c' n').
    destruct (modify remove_tree None c' q n') as [e' n'']; cbn in *.
    rewrite lookup_insert_eq. exact IH.
Qed.

Lemma remove_tree_stable (o o' : option node) :
  remove_tree o = Ok o' ->
  remove_tree o' = Ok o' \/ exists e, remove_tree o' = Err e.
Proof. intros [= <-]. now left. Qed.

Lemma remove_entry_stable (o o' : option node) :
  remove_entry o = Ok o' ->
  remove_entry o' = Ok o' \/ exists e, remove_entry o' = Err e.
Proof.
  destruct o as [[d|m]|]; cbn; try discriminate.
  - intros [= <-]. right. now exists ENOENT.
  - destruct (map_to_list m); [| discriminate].
    intros [= <-]. right. now exists ENOENT.
Qed.

Lemma at_path_twice f missing root_err (p : string) n :
  (forall o o', f o = Ok o' -> f o' = Ok o' \/ exists e, f o' = Err e) ->
  snd (at_path f missing root_err p (snd (at_path f missing root_err p n)))
  = snd (at_path f missing root_err p n).
Proof.
  intros Hf. unfold at_path.
  destruct (resolve p) as [|c q]; [reflexivity |].
  now apply modify_twice.
Qed.

Lemma at_path_absent f missing root_err (p : string) n :
  node_Stat p n = Err ENOENT ->
  f None = Ok None \/ (exists e, f None = Err e) ->
  snd (at_path f missing root_err p n) = n.
Proof.
  unfold node_Stat, at_path. intros Hs Hf.
  destruct (resolve p) as [|c q]; [reflexivity |].
  apply modify_absent; [| exact Hf].
  destruct (walk (c :: q) n); [discriminate | congruence].
Qed.

(** [os.RemoveAll] and [os.Remove], twice and on nothing. *)
Lemma RemoveAll_twice (p : string) n :
  snd (node_RemoveAll p (snd (node_RemoveAll p n))) =
  snd (node_RemoveAll p n).
Proof. apply at_path_twice, remove_tree_stable. Qed.

Lemma Remove_twice (p : string) n :
  snd (node_Remove p (snd (node_Remove p n))) = snd (node_Remove p n).
Proof. apply at_path_twice, remove_entry_stable. Qed.

Lemma RemoveAll_absent (p : string) n :
  node_Stat p n = Err ENOENT -> snd (node_RemoveAll p n) = n.
Proof. intros Hs. apply at_path_absent; [exact Hs | now left]. Qed.

Lemma Remove_absent (p : string) n :
  node_Stat p n = Err ENOENT -> snd (node_Remove p n) = n.
Proof.
  intros Hs. apply at_path_absent; [exact Hs |]. right. now exists ENOENT.
Qed.

(** After [os.RemoveAll] of anything but the root, [os.Stat] fails. *)
Lemma Stat_removed (p : string) n :
  resolve p <> [] ->
  exists e, node_Stat p (snd (node_RemoveAll p n)) = Err e.
Proof.
  unfold node_Stat, node_RemoveAll, at_path. intros Hp.
  destruct (resolve p) as [|c q]; [contradiction |].
  destruct (walk_removed c q n) as [e He]. rewrite He. eauto.
Qed.

End TreeFacts.

(** ** Deleting *)

(** C9. With nothing at the target, deleting the output of a job and
    deleting an upload both leave the store as it was, and the caller is
    redirected; in every store, deleting a second time changes nothing
    more and answers as the first time.  [r] is a request to delete the
    output of a job, [r'] one to delete an upload. *)
Theorem deletes_idempotent (r r' : Request) (w : node) :
  Method r = MethodPost ->
  FormValue (Form r) "id" <> "" ->
  Method r' = MethodPost ->
  FormValue (Form r') "filename" <> "" ->
  let outputDir := filepath_Join [hlsDir; FormValue (Form r) "id"] in
  let inputPath :=
    filepath_Join [uploadDir; FormValue (Form r') "filename"] in
  (fst (DeleteHLSHandler r w) = Redirect "/" StatusSeeOther /\
   (os_Stat outputDir w = Err ENOENT -> snd (DeleteHLSHandler r w) = w) /\
   DeleteHLSHandler r (snd (DeleteHLSHandler r w)) = DeleteHLSHandler r w) /\
  (fst (DeleteUploadHandler r' w) = Redirect "/" StatusSeeOther /\
   (os_Stat inputPath w = Err ENOENT -> snd (DeleteUploadHandler r' w) = w) /\
   DeleteUploadHandler r' (snd (DeleteUploadHandler r' w)) =
     DeleteUploadHandler r' w).
Proof.
  intros Hm Hid Hm' Hfn outputDir inputPath.
  assert (Hhls : forall s, DeleteHLSHandler r s =
            (Redirect "/" StatusSeeOther, snd (node_RemoveAll outputDir s))).
  { intros s. unfold DeleteHLSHandler. rewrite Hm.
    change (String.eqb MethodPost MethodPost) with true. cbn [negb].
    apply String.eqb_neq in Hid. rewrite Hid.
    cbn [os_RemoveAll node_fs]. fold outputDir.
    now destruct (node_RemoveAll outputDir s). }
  assert (Hup : forall s, DeleteUploadHandler r' s =
            (Redirect "/" StatusSeeOther, snd (node_Remove inputPath s))).
  { intros s. unfold DeleteUploadHandler. rewrite Hm'.
    change (String.eqb MethodPost MethodPost) with true. cbn [negb].
    apply String.eqb_neq in Hfn. rewrite Hfn.
    cbn [os_Remove node_fs]. fold inputPath.
    now destruct (node_Remove inputPath s). }
  split; (split; [| split]).
  - now rewrite Hhls.
  - intros Hs. rewrite Hhls. now apply RemoveAll_absent.
  - rewrite !Hhls. cbn [snd]. now rewrite RemoveAll_twice.
  - now rewrite Hup.
  - intros Hs. rewrite Hup. now apply Remove_absent.
  - rewrite !Hup. cbn [snd]. now rewrite Remove_twice.
Qed.

(** Deleting a job and an upload that are not there, and deleting the
    finished job and the upload of the sample store twice. *)
Lemma deletes_idempotent_witness :
  (DeleteHLSHandler (post [("id", "gone")]) sample_store =
     (Redirect "/" StatusSeeOther, sample_store) /\
   DeleteUploadHandler (post [("filename", "gone.mp4")]) sample_store =
     (Redirect "/" StatusSeeOther, sample_store)) /\
  (DeleteHLSHandler (post [("id", "done")])
     (snd (DeleteHLSHandler (post [("id", "done")]) sample_store)) =
     DeleteHLSHandler (post [("id", "done")]) sample_store /\
   DeleteUploadHandler (post [("filename", "clip.mp4")])
     (snd (DeleteUploadHandler (post [("filename", "clip.mp4")])
             sample_store)) =
     DeleteUploadHandler (post [("filename", "clip.mp4")]) sample_store).
Proof.
  assert (Hne : forall a b : string, String.eqb a b = false -> a <> b)
    by (intros a b E; now apply String.eqb_neq).
  destruct (deletes_idempotent
              (post [("id", "gone")]) (post [("filename", "gone.mp4")])
              sample_store eq_refl (Hne "gone" "" eq_refl)
              eq_refl (Hne "gone.mp4" "" eq_refl))
    as [(H1 & H2 & _) (H4 & H5 & _)].
  destruct (deletes_idempotent
              (post [("id", "done")]) (post [("filename", "clip.mp4")])
              sample_store eq_refl (Hne "done" "" eq_refl)
              eq_refl (Hne "clip.mp4" "" eq_refl))
    as [(_ & _ & H3) (_ & _ & H6)].
  split; split.
  - rewrite (surjective_pairing
               (DeleteHLSHandler (post [("id", "gone")]) sample_store)).
    now rewrite H1, (H2 eq_refl).
  - rewrite (surjective_pairing
               (DeleteUploadHandler (post [("filename", "gone.mp4")])
                  sample_store)).
    now rewrite H4, (H5 eq_refl).
  - exact H3.
  - exact H6.
Defined.

(** ** Starting a conversion *)

Section Reconvert.

Context {W : Type} `{FileSystem W}.

(** The handler past its two input checks. *)
Lemma ReconvertHandler_checked (r : Request) (w : W) :
  Method r = MethodPost ->
  FormValue (Form r) "uploaded_file" <> "" ->
  let filename := FormValue (Form r) "uploaded_file" in
  let id := strings_TrimSuffix filename (filepath_Ext filename) in
  let inputPath := filepath_Join [uploadDir; filename] in
  let outputDir := filepath_Join [hlsDir; id] in
  ReconvertHandler r w =
  if negb (os_IsNotExist (err_of (os_Stat outputDir w))) then
    (Redirect "/" StatusSeeOther, None)
  else if os_IsNotExist (err_of (os_Stat inputPath w)) then
    (HttpError "File not found" StatusNotFound, None)
  else (Redirect "/" StatusSeeOther, Some (inputPath, id)).
Proof.
  intros Hm Hfn. cbv zeta. unfold ReconvertHandler. rewrite Hm.
  change (String.eqb MethodPost MethodPost) with true. cbn [negb].
  apply String.eqb_neq in Hfn. now rewrite Hfn.
Qed.

End Reconvert.

(** C6. A conversion request for a file whose derived id already has an
    output directory starts no conversion and is answered with the usual
    redirect. *)
Theorem reconvert_existing_job {W : Type} `{FileSystem W}
    (r : Request) (w : W) :
  Method r = MethodPost ->
  FormValue (Form r) "uploaded_file" <> "" ->
  let filename := FormValue (Form r) "uploaded_file" in
  let id := strings_TrimSuffix filename (filepath_Ext filename) in
  os_Stat (filepath_Join [hlsDir; id]) w = Ok {| fi_IsDir := true |} ->
  ReconvertHandler r w = (Redirect "/" StatusSeeOther, None).
Proof.
  intros Hm Hfn filename id Hdir.
  rewrite (ReconvertHandler_checked r w Hm Hfn). cbv zeta.
  fold filename. fold id. now rewrite Hdir.
Qed.

(** The finished job and the job in progress of the sample store. *)
Lemma reconvert_existing_job_witness :
  ReconvertHandler (post [("uploaded_file", "done.mp4")]) sample_store =
    (Redirect "/" StatusSeeOther, None) /\
  ReconvertHandler (post [("uploaded_file", "busy.mov")]) sample_store =
    (Redirect "/" StatusSeeOther, None).
Proof.
  assert (Hne : forall a b : string, String.eqb a b = false -> a <> b)
    by (intros a b E; now apply String.eqb_neq).
  split.
  - apply (reconvert_existing_job
             (post [("uploaded_file", "done.mp4")]) sample_store eq_refl
             (Hne "done.mp4" "" eq_refl)).
    reflexivity.
  - apply (reconvert_existing_job
             (post [("uploaded_file", "busy.mov")]) sample_store eq_refl
             (Hne "busy.mov" "" eq_refl)).
    reflexivity.
Defined.

(** C10. Whatever [os.Stat] of the output directory returns, other than
    the does-not-exist error, the request is answered with the redirect and
    no conversion is started: success, not-a-directory, permission and I/O
    errors all count as an existing job, and none is reported. *)
Theorem reconvert_only_on_not_exist {W : Type} `{FileSystem W}
    (r : Request) (w : W) :
  Method r = MethodPost ->
  FormValue (Form r) "uploaded_file" <> "" ->
  let filename := FormValue (Form r) "uploaded_file" in
  let id := strings_TrimSuffix filename (filepath_Ext filename) in
  os_Stat (filepath_Join [hlsDir; id]) w <> Err ENOENT ->
  ReconvertHandler r w = (Redirect "/" StatusSeeOther, None).
Proof.
  intros Hm Hfn filename id Hst.
  rewrite (ReconvertHandler_checked r w Hm Hfn). cbv zeta.
  fold filename. fold id.
  destruct (os_Stat (filepath_Join [hlsDir; id]) w) as [info|[]];
    try reflexivity.
  contradiction.
Qed.

(** An upload named below the stray file [hls/note.txt] (the probe fails
    with not-a-directory), and any upload on a store that denies access or
    fails with an I/O error. *)
Lemma reconvert_only_on_not_exist_witness :
  ReconvertHandler (post [("uploaded_file", "note.txt/clip.mp4")])
    sample_store = (Redirect "/" StatusSeeOther, None) /\
  ReconvertHandler (H := faulty_fs EACCES)
    (post [("uploaded_file", "clip.mp4")]) tt =
    (Redirect "/" StatusSeeOther, None) /\
  ReconvertHandler (H := faulty_fs EIO)
    (post [("uploaded_file", "clip.mp4")]) tt =
    (Redirect "/" StatusSeeOther, None).
Proof.
  assert (Hne : forall a b : string, String.eqb a b = false -> a <> b)
    by (intros a b E; now apply String.eqb_neq).
  split; [| split].
  - apply (reconvert_only_on_not_exist
             (post [("uploaded_file", "note.txt/clip.mp4")]) sample_store
             eq_refl (Hne "note.txt/clip.mp4" "" eq_refl)).
    discriminate.
  - apply (reconvert_only_on_not_exist (H := faulty_fs EACCES)
             (post [("uploaded_file", "clip.mp4")]) tt
             eq_refl (Hne "clip.mp4" "" eq_refl)).
    discriminate.
  - apply (reconvert_only_on_not_exist (H := faulty_fs EIO)
             (post [("uploaded_file", "clip.mp4")]) tt
             eq_refl (Hne "clip.mp4" "" eq_refl)).
    discriminate.
Defined.

(** The other way round: a conversion that is started was preceded by a
    does-not-exist answer for the output directory, and the upload was not
    reported missing. *)
Lemma reconvert_started {W : Type} `{FileSystem W}
    (r : Request) (w : W) (resp : Response) (task : string * string) :
  ReconvertHandler r w = (resp, Some task) ->
  let filename := FormValue (Form r) "uploaded_file" in
  let id := strings_TrimSuffix filename (filepath_Ext filename) in
  os_Stat (filepath_Join [hlsDir; id]) w = Err ENOENT /\
  task = (filepath_Join [uploadDir; filename], id) /\
  resp = Redirect "/" StatusSeeOther.
Proof.
  unfold ReconvertHandler. cbv zeta.
  destruct (negb (String.eqb (Method r) MethodPost)); [discriminate |].
  destruct (String.eqb (FormValue (Form r) "uploaded_file") "");
    [discriminate |].
  destruct (os_Stat (filepath_Join [hlsDir; _]) w) as [info|[]];
    cbn; try discriminate.
  destruct (os_IsNotExist _); [discriminate |].
  intros [= <- <-]. now repeat split.
Qed.

(** ** The orchestration *)

Section Orchestration.

Context {W : Type} `{FileSystem W}.
Variable run : Runner W.

(** [ConvertToHLS] with its calls spelled out, one after the other. *)
Lemma ConvertToHLS_eq (variants : list variant) (inputPath id : string)
    (w : W) :
  ConvertToHLS run variants inputPath id w =
  let outputDir := filepath_Join [hlsDir; id] in
  let masterPath := filepath_Join [outputDir; "master.m3u8"] in
  let '(e1, w1) := os_RemoveAll outputDir w in
  let '(e2, w2) := os_MkdirAll outputDir w1 in
  let '(ok, w3, t3) :=
    encode_variants run inputPath outputDir variants w2 in
  let head :=
    (EvRemoveAll outputDir e1, w1) :: (EvMkdirAll outputDir e2, w2) :: t3 in
  if ok then
    let '(e4, w4) := os_WriteFile masterPath (masterContent variants) w3 in
    match e4 with
    | None =>
        (tt, w4,
         head ++ [(EvWriteFile masterPath (masterContent variants) e4, w4)])
    | Some _ =>
        let '(e5, w5) := os_RemoveAll outputDir w4 in
        (tt, w5,
         head ++ [(EvWriteFile masterPath (masterContent variants) e4, w4);
                  (EvRemoveAll outputDir e5, w5)])
    end
  else
    let '(e5, w5) := os_RemoveAll outputDir w3 in
    (tt, w5, head ++ [(EvRemoveAll outputDir e5, w5)]).
Proof.
  unfold ConvertToHLS, bind, RemoveAll, MkdirAll, WriteFile, call, ret.
  cbv zeta.
  destruct (os_RemoveAll _ w) as [e1 w1].
  destruct (os_MkdirAll _ w1) as [e2 w2].
  destruct (encode_variants _ _ _ _ w2) as [[[|] w3] t3]; cbn [negb].
  - destruct (os_WriteFile _ _ w3) as [[e|] w4].
    + destruct (os_RemoveAll _ w4) as [e5 w5]. reflexivity.
    + reflexivity.
  - destruct (os_RemoveAll _ w3) as [e5 w5]. reflexivity.
Qed.

Section Loop.

Variables inputPath outputDir : string.

Let cmd := ffmpeg_cmd inputPath outputDir.

(** The loop, one variant further. *)
Lemma encode_variants_cons (v : variant) (rest : list variant) (w : W) :
  encode_variants run inputPath outputDir (v :: rest) w =
  let '(err, w1) := run (cmd v) w in
  match err with
  | Some _ => (false, w1, [(EvRun (cmd v) err, w1)])
  | None =>
      let '(ok, w2, t) :=
        encode_variants run inputPath outputDir rest w1 in
      (ok, w2, (EvRun (cmd v) err, w1) :: t)
  end.
Proof.
  cbn [encode_variants]. unfold bind, Run, call, ret, cmd.
  destruct (run _ w) as [[f|] w1]; [reflexivity |].
  now destruct (encode_variants _ _ _ _ w1) as [[ok w2] t].
Qed.

Lemma commands_run_app (t1 t2 : list (event * W)) :
  commands_run (t1 ++ t2) = commands_run t1 ++ commands_run t2.
Proof.
  induction t1 as [|[ev s] t1 IH]; cbn; [reflexivity |].
  destruct ev; cbn; now rewrite IH.
Qed.

(** The loop runs the transcoder for the variants in order.  When it
    reports success every run succeeded; otherwise it stopped at the
    first run that failed, which is the last entry of its trace.  It
    never writes a file itself. *)
Lemma encode_variants_spec (variants : list variant) (w : W) :
  let '(ok, w', t) :=
    encode_variants run inputPath outputDir variants w in
  existsb is_write (map fst t) = false /\
  if ok then
    commands_run t = map cmd variants /\
    existsb failed (map fst t) = false
  else
    exists done v rest f t0,
      variants = done ++ v :: rest /\
      t = t0 ++ [(EvRun (cmd v) (Some f), w')] /\
      commands_run t = map cmd (done ++ [v]) /\
      existsb failed (map fst t0) = false.
Proof.
  revert w. induction variants as [|v vs IH]; intros w.
  - cbn. auto.
  - rewrite encode_variants_cons.
    destruct (run (cmd v) w) as [[f|] w1].
    + split; [reflexivity |].
      exists [], v, vs, f, []. auto.
    + specialize (IH w1).
      destruct (encode_variants run inputPath outputDir vs w1)
        as [[[|] w2] t]; destruct IH as [Hw IH]; (split; [exact Hw |]).
      * destruct IH as [Hc Hf]. cbn. now rewrite Hc.
      * destruct IH as (done & v' & rest & f & t0 & -> & -> & Hc & Hf).
        exists (v :: done), v', rest, f, ((EvRun (cmd v) None, w1) :: t0).
        repeat split; cbn; [now rewrite Hc | exact Hf].
Qed.

End Loop.

(** An entry that did not fail is not a failed run. *)
Lemma not_failed_run (t : list (event * W)) (c : Cmd) (f : exec_failure) :
  existsb failed (map fst t) = false ->
  ~ In (EvRun c (Some f)) (map fst t).
Proof.
  intros Hf Hin.
  assert (existsb failed (map fst t) = true) as Ht; [| congruence].
  apply existsb_exists. exists (EvRun c (Some f)). now split.
Qed.

End Orchestration.

(** ** A run that fails *)

Section FailedRun.

Variable run : Runner node.

(** After [os.RemoveAll] of the directory of a job, the job is absent. *)
Lemma removed_job_absent (id : string) (w : node) :
  valid_name id = true ->
  let w' := snd (os_RemoveAll (filepath_Join [hlsDir; id]) w) in
  Status w' id = JobAbsent /\
  exists e, os_Stat (filepath_Join [hlsDir; id]) w' = Err e.
Proof.
  intros Hid w'. subst w'. rewrite (outputDir_eq id Hid).
  cbn [os_RemoveAll os_Stat node_fs].
  destruct (Stat_removed ("hls/" +:+ id) w) as [e He].
  { rewrite (resolve_outputDir id Hid). discriminate. }
  split; [| eauto].
  rewrite (Status_tree _ id Hid).
  unfold node_Stat in He. rewrite (resolve_outputDir id Hid) in He.
  destruct (walk ["hls"; id] _); [discriminate | reflexivity].
Qed.

End FailedRun.

(** C1. When a call of the run reports an error, be it a transcoder run or
    the write of the manifest, the output directory of the job does not
    exist afterwards and the job is absent, whatever the store held before
    and whatever the transcoder left behind.  A transcoder run that failed
    was the last one: the commands run are those of the variants up to and
    including the failing one, and none of the variants after it. *)
Theorem failed_run_removes_output (run : Runner node)
    (variants : list variant) (inputPath id : string) (w : node) :
  valid_name id = true ->
  let outputDir := filepath_Join [hlsDir; id] in
  let r := ConvertToHLS run variants inputPath id w in
  existsb failed (map fst (trace_of r)) = true ->
  Status (final_state r) id = JobAbsent /\
  (exists e, os_Stat outputDir (final_state r) = Err e) /\
  (forall c f,
     In (EvRun c (Some f)) (map fst (trace_of r)) ->
     exists done v rest,
       variants = done ++ v :: rest /\
       c = ffmpeg_cmd inputPath outputDir v /\
       commands_run (trace_of r) =
         map (ffmpeg_cmd inputPath outputDir) (done ++ [v])).
Proof.
  intros Hid outputDir r. subst r. rewrite ConvertToHLS_eq. cbv zeta.
  fold outputDir.
  destruct (os_RemoveAll outputDir w) as [e1 w1].
  destruct (os_MkdirAll outputDir w1) as [e2 w2].
  pose proof (encode_variants_spec run inputPath outputDir variants w2) as Hl.
  destruct (encode_variants run inputPath outputDir variants w2)
    as [[[|] w3] t3]; destruct Hl as [Hw Hl].
  - (* every transcoder run succeeded *)
    destruct Hl as [Hc Hf].
    destruct (os_WriteFile _ _ w3) as [[e4|] w4] eqn:E4.
    + pose proof (removed_job_absent id w4 Hid) as Habs. cbv zeta in Habs.
      fold outputDir in Habs.
      destruct (os_RemoveAll outputDir w4) as [e5 w5].
      unfold trace_of, final_state. cbn [fst snd]. intros _.
      split; [apply Habs | split; [apply Habs |]].
      intros c f Hin. exfalso.
      cbn [map fst] in Hin. destruct Hin as [[=]|[[=]|Hin]].
      rewrite map_app in Hin. apply in_app_or in Hin as [Hin|Hin].
      * now apply (not_failed_run t3 c f Hf).
      * cbn in Hin. destruct Hin as [[=]|[[=]|[]]].
    + unfold trace_of. cbn [snd]. rewrite map_app, existsb_app.
      cbn [map fst existsb failed orb]. rewrite Hf. discriminate.
  - (* a transcoder run failed *)
    destruct Hl as (done & v & rest & f0 & t0 & -> & -> & Hc & Hf).
    pose proof (removed_job_absent id w3 Hid) as Habs. cbv zeta in Habs.
    fold outputDir in Habs.
    destruct (os_RemoveAll outputDir w3) as [e5 w5].
    unfold trace_of, final_state. cbn [fst snd]. intros _.
    split; [apply Habs | split; [apply Habs |]].
    intros c f Hin. exists done, v, rest. split; [reflexivity |].
    split.
    + cbn [map fst] in Hin. destruct Hin as [[=]|[[=]|Hin]].
      rewrite !map_app in Hin.
      apply in_app_or in Hin as [Hin|Hin];
        [apply in_app_or in Hin as [Hin|Hin] |].
      * exfalso. now apply (not_failed_run t0 c f Hf).
      * cbn in Hin. destruct Hin as [[= <- _]|[]]. reflexivity.
      * cbn in Hin. destruct Hin as [[=]|[]].
    + cbn [commands_run]. rewrite commands_run_app. cbn [commands_run].
      rewrite app_nil_r. exact Hc.
Qed.

(** The second of three variants fails; and a transcoder that takes the
    directory away, so that the manifest cannot be written. *)
Lemma failed_run_removes_output_witness :
  let r := ConvertToHLS (mock_ffmpeg ["stream_540p.m3u8"]) three_variants
             "uploads/clip.mp4" "clip" sample_store in
  let r' := ConvertToHLS vandal_ffmpeg HLS_VARIANTS
              "uploads/clip.mp4" "clip" sample_store in
  (Status (final_state r) "clip" = JobAbsent /\
   (exists e,
      os_Stat (filepath_Join [hlsDir; "clip"]) (final_state r) = Err e) /\
   (forall c f,
      In (EvRun c (Some f)) (map fst (trace_of r)) ->
      exists done v rest,
        three_variants = done ++ v :: rest /\
        c = ffmpeg_cmd "uploads/clip.mp4" (filepath_Join [hlsDir; "clip"]) v /\
        commands_run (trace_of r) =
          map (ffmpeg_cmd "uploads/clip.mp4" (filepath_Join [hlsDir; "clip"]))
              (done ++ [v]))) /\
  Status (final_state r') "clip" = JobAbsent.
Proof.
  intros r r'. split.
  - apply (failed_run_removes_output (mock_ffmpeg ["stream_540p.m3u8"])
             three_variants "uploads/clip.mp4" "clip" sample_store eq_refl).
    vm_compute. reflexivity.
  - apply (failed_run_removes_output vandal_ffmpeg
             HLS_VARIANTS "uploads/clip.mp4" "clip" sample_store eq_refl).
    vm_compute. reflexivity.
Defined.

(** ** A run over an existing directory *)

Section FreshDirectory.

(** The output root is a directory. *)
Lemma root_is_dir (w : node) :
  os_Stat hlsDir w = Ok {| fi_IsDir := true |} ->
  exists root jobs, w = Dir root /\ root !! "hls" = Some (Dir jobs).
Proof.
  cbn [os_Stat node_fs]. unfold node_Stat.
  change (resolve hlsDir) with ["hls"].
  destruct w as [|root]; cbn; [discriminate |].
  destruct (root !! "hls") as [[|jobs]|] eqn:Eh; try discriminate.
  eauto.
Qed.

Lemma dir_entries_empty : dir_entries ∅ = [].
Proof. unfold dir_entries. now rewrite map_to_list_empty. Qed.

(** The first two calls of a run: the directory of the job is removed
    with all it holds, then made anew, empty. *)
Lemma fresh_directory (id : string) (w : node) :
  valid_name id = true ->
  os_Stat hlsDir w = Ok {| fi_IsDir := true |} ->
  let outputDir := filepath_Join [hlsDir; id] in
  exists w1 w2,
    os_RemoveAll outputDir w = (None, w1) /\
    os_MkdirAll outputDir w1 = (None, w2) /\
    walk ["hls"; id] w2 = Ok (Dir ∅) /\
    os_ReadDir outputDir w2 = Ok [].
Proof.
  intros Hid (root & jobs & -> & Eh)%root_is_dir outputDir.
  subst outputDir. rewrite (outputDir_eq id Hid).
  cbn [os_RemoveAll os_MkdirAll os_ReadDir node_fs].
  unfold node_RemoveAll, node_MkdirAll, node_ReadDir, at_path.
  rewrite (resolve_outputDir id Hid).
  cbn [modify]. rewrite Eh. cbn [modify remove_tree set_entry].
  do 2 eexists. split; [reflexivity |].
  cbn [mkdir_all]. rewrite lookup_insert_eq. cbn.
  rewrite lookup_delete_eq. cbn.
  split; [reflexivity |].
  cbn. rewrite !lookup_insert_eq.
  split; [reflexivity |]. now rewrite dir_entries_empty.
Qed.

End FreshDirectory.

(** C4. With the output root in place, a run first removes the directory of
    the job with all it holds and then makes it anew, empty; every
    transcoder run and the write of the manifest come after that.  So the
    run does not depend on what the directory held: from two stores that
    differ only below that directory, the calls, their outcomes and the
    stores they leave are the same, and nothing of an earlier run is left. *)
Theorem rerun_replaces_directory (run : Runner node)
    (variants : list variant) (inputPath id : string) (w w' : node) :
  valid_name id = true ->
  os_Stat hlsDir w = Ok {| fi_IsDir := true |} ->
  os_Stat hlsDir w' = Ok {| fi_IsDir := true |} ->
  let outputDir := filepath_Join [hlsDir; id] in
  snd (os_RemoveAll outputDir w') = snd (os_RemoveAll outputDir w) ->
  (exists w1 w2 rest,
     trace_of (ConvertToHLS run variants inputPath id w) =
       (EvRemoveAll outputDir None, w1) ::
       (EvMkdirAll outputDir None, w2) :: rest /\
     Status w1 id = JobAbsent /\
     os_ReadDir outputDir w2 = Ok [] /\
     Status w2 id = JobProcessing) /\
  ConvertToHLS run variants inputPath id w' =
  ConvertToHLS run variants inputPath id w.
Proof.
  intros Hid Hroot Hroot' outputDir Hsame.
  destruct (fresh_directory id w Hid Hroot) as (w1 & w2 & E1 & E2 & Hw & Hr).
  destruct (fresh_directory id w' Hid Hroot')
    as (w1' & w2' & E1' & E2' & _ & _).
  fold outputDir in E1, E2, Hr, E1', E2'.
  rewrite E1, E1' in Hsame. cbn [snd] in Hsame. subst w1'.
  split.
  - rewrite ConvertToHLS_eq. cbv zeta. fold outputDir. rewrite E1, E2.
    pose proof (removed_job_absent id w Hid) as [Habs _].
    fold outputDir in Habs. rewrite E1 in Habs. cbn [snd] in Habs.
    assert (Hp : Status w2 id = JobProcessing).
    { rewrite (Status_tree w2 id Hid), Hw. now rewrite lookup_empty. }
    destruct (encode_variants _ _ _ _ w2) as [[[|] w3] t3].
    + destruct (os_WriteFile _ _ w3) as [[e4|] w4].
      * destruct (os_RemoveAll outputDir w4) as [e5 w5].
        unfold trace_of. cbn [snd app]. eauto 10.
      * unfold trace_of. cbn [snd app]. eauto 10.
    + destruct (os_RemoveAll outputDir w3) as [e5 w5].
      unfold trace_of. cbn [snd app]. eauto 10.
  - rewrite !ConvertToHLS_eq. cbv zeta. fold outputDir.
    now rewrite E1, E1'.
Qed.

(** A second run for [clip], now with three variants, over the directory
    the first run with four variants left: it goes as on the store that
    never had the directory. *)
Lemma rerun_replaces_directory_witness :
  let outputDir := filepath_Join [hlsDir; "clip"] in
  (exists w1 w2 rest,
     trace_of (ConvertToHLS (mock_ffmpeg []) three_variants
                 "uploads/clip.mp4" "clip" after_first_run) =
       (EvRemoveAll outputDir None, w1) ::
       (EvMkdirAll outputDir None, w2) :: rest /\
     Status w1 "clip" = JobAbsent /\
     os_ReadDir outputDir w2 = Ok [] /\
     Status w2 "clip" = JobProcessing) /\
  ConvertToHLS (mock_ffmpeg []) three_variants "uploads/clip.mp4" "clip"
    sample_store =
  ConvertToHLS (mock_ffmpeg []) three_variants "uploads/clip.mp4" "clip"
    after_first_run.
Proof.
  apply (rerun_replaces_directory (mock_ffmpeg []) three_variants
           "uploads/clip.mp4" "clip" after_first_run sample_store eq_refl).
  - vm_compute. reflexivity.
  - vm_compute. reflexivity.
  - vm_compute. reflexivity.
Defined.

(** After that second run nothing of the fourth variant is left. *)
Example rerun_leaves_no_stale_files :
  os_ReadDir "hls/clip" after_first_run =
    Ok [ {| de_Name := "1080p_segment_000.ts"; de_IsDir := false |};
         {| de_Name := "360p_segment_000.ts"; de_IsDir := false |};
         {| de_Name := "540p_segment_000.ts"; de_IsDir := false |};
         {| de_Name := "720p_segment_000.ts"; de_IsDir := false |};
         {| de_Name := "master.m3u8"; de_IsDir := false |};
         {| de_Name := "stream_1080p.m3u8"; de_IsDir := false |};
         {| de_Name := "stream_360p.m3u8"; de_IsDir := false |};
         {| de_Name := "stream_540p.m3u8"; de_IsDir := false |};
         {| de_Name := "stream_720p.m3u8"; de_IsDir := false |} ] /\
  os_ReadDir "hls/clip"
    (final_state
       (ConvertToHLS (mock_ffmpeg []) three_variants "uploads/clip.mp4"
          "clip" after_first_run)) =
    Ok [ {| de_Name := "360p_segment_000.ts"; de_IsDir := false |};
         {| de_Name := "540p_segment_000.ts"; de_IsDir := false |};
         {| de_Name := "720p_segment_000.ts"; de_IsDir := false |};
         {| de_Name := "master.m3u8"; de_IsDir := false |};
         {| de_Name := "stream_360p.m3u8"; de_IsDir := false |};
         {| de_Name := "stream_540p.m3u8"; de_IsDir := false |};
         {| de_Name := "stream_720p.m3u8"; de_IsDir := false |} ].
Proof. split; vm_compute; reflexivity. Qed.

(** ** A run that succeeds *)

Section SuccessfulRun.

Variable run : Runner node.
Variables inputPath id : string.
Variable variants : list variant.
Hypothesis Hid : valid_name id = true.
Hypothesis Hrun :
  transcoder_ok run inputPath (filepath_Join [hlsDir; id]) variants.

Let outputDir := filepath_Join [hlsDir; id].

(** An entry name that a variant of [vs] accounts for. *)
Let named_by (vs : list variant) (x : string) : Prop :=
  exists v, In v vs /\ (x = streamName v \/ exists k, x = segment_name v k).

Let all_files (m : gmap string node) : Prop :=
  forall x n, m !! x = Some n -> is_dir n = false.

Lemma resolve_outputDir_join : resolve outputDir = ["hls"; id].
Proof.
  unfold outputDir.
  now rewrite (outputDir_eq id Hid), (resolve_outputDir id Hid).
Qed.

(** No variant, whatever its name, accounts for the manifest. *)
Lemma master_not_named (vs : list variant) : ~ named_by vs "master.m3u8".
Proof.
  intros (v & _ & [E|[k E]]).
  - unfold streamName in E. cbn in E. discriminate E.
  - apply (f_equal (fun s => strings_HasSuffix s ".ts")) in E.
    unfold segment_name in E.
    rewrite <- !append_assoc, HasSuffix_append in E. discriminate E.
Qed.

Lemma is_file_all_files (m : gmap string node) (x : string) :
  all_files m -> m !! x <> None -> is_file (m !! x) = true.
Proof.
  intros Hm Hx. destruct (m !! x) as [[d|m']|] eqn:E; try easy.
  now apply Hm in E.
Qed.

(** The loop under a transcoder that does its job, from a store where the
    directory of the job holds the files [m]: every run succeeds, the
    directory only gains files, named after the variants, and every
    store on the way has the directory. *)
Lemma encode_variants_ok (vs : list variant) (w : node)
    (m : gmap string node) :
  incl vs variants ->
  walk ["hls"; id] w = Ok (Dir m) ->
  all_files m ->
  exists w' t m',
    encode_variants run inputPath outputDir vs w = (true, w', t) /\
    walk ["hls"; id] w' = Ok (Dir m') /\
    all_files m' /\
    (forall x, m !! x <> None -> m' !! x <> None) /\
    (forall v, In v vs ->
       is_file (m' !! streamName v) = true /\
       exists k, is_file (m' !! segment_name v k) = true) /\
    (forall x, m' !! x <> None -> m !! x <> None \/ named_by vs x) /\
    length t = length vs /\
    Forall (fun s =>
              exists ms,
                walk ["hls"; id] (snd s) = Ok (Dir ms) /\
                forall x, ms !! x <> None -> m !! x <> None \/ named_by vs x)
           t.
Proof.
  revert w m. induction vs as [|v vs IH]; intros w m Hincl Hw Hm.
  - exists w, [], m. cbn. repeat split; try easy. auto.
  - assert (Hv : In v variants) by (apply Hincl; now left).
    assert (Hvs : incl vs variants)
      by (intros x Hx; apply Hincl; now right).
    pose proof Hw as Hw0. rewrite <- resolve_outputDir_join in Hw0.
    destruct (Hrun v w m Hv Hw0 Hm)
      as (produced & w1 & Er & Hw1 & Hstream & [k Hseg] & Hnames).
    fold outputDir in Er, Hw1. rewrite resolve_outputDir_join in Hw1.
    assert (Hm1 : all_files (produced ∪ m)).
    { intros x n [Hx|[_ Hx]]%lookup_union_Some_raw;
        [now apply (Hnames x n) | now apply (Hm x n)]. }
    assert (Hgrow : forall x,
               (produced ∪ m) !! x <> None ->
               m !! x <> None \/ named_by (v :: vs) x).
    { intros x Hx. destruct (produced !! x) as [n|] eqn:Ep.
      - right. exists v. split; [now left | now apply (Hnames x n)].
      - left. now rewrite lookup_union_r in Hx. }
    assert (Hkeep : forall x, m !! x <> None -> (produced ∪ m) !! x <> None).
    { intros x Hx. destruct (produced !! x) as [n|] eqn:Ep.
      - now rewrite (lookup_union_Some_l _ _ _ _ Ep).
      - now rewrite lookup_union_r. }
    assert (Hnew : forall x, produced !! x <> None ->
                             (produced ∪ m) !! x <> None).
    { intros x Hx. destruct (produced !! x) as [n|] eqn:Ep; [| easy].
      now rewrite (lookup_union_Some_l _ _ _ _ Ep). }
    destruct (IH w1 (produced ∪ m) Hvs Hw1 Hm1)
      as (w' & t & m' & El & Hw' & Hm' & Hk' & Hout & Hn' & Hlen & Hall).
    exists w', ((EvRun (ffmpeg_cmd inputPath outputDir v) None, w1) :: t), m'.
    split; [| split; [exact Hw' | split; [exact Hm' |]]].
    { rewrite encode_variants_cons, Er, El. reflexivity. }
    split; [intros x Hx; now apply Hk', Hkeep |].
    split.
    { intros v' [<-|Hv'].
      - split.
        + apply is_file_all_files; [exact Hm' |]. apply Hk', Hnew.
          now destruct (produced !! streamName v).
        + exists k. apply is_file_all_files; [exact Hm' |].
          apply Hk', Hnew. now destruct (produced !! segment_name v k).
      - now apply Hout. }
    split.
    { intros x Hx. destruct (Hn' x Hx) as [Hx'|(v' & Hv' & Hx')].
      - now apply Hgrow.
      - right. exists v'. split; [now right | exact Hx']. }
    split; [cbn; now rewrite Hlen |].
    constructor.
    + exists (produced ∪ m). split; [exact Hw1 | exact Hgrow].
    + eapply Forall_impl; [exact Hall |].
      intros s (ms & Hs & Hms). exists ms. split; [exact Hs |].
      intros x Hx. destruct (Hms x Hx) as [Hx'|(v' & Hv' & Hx')].
      * now apply Hgrow.
      * right. exists v'. split; [now right | exact Hx'].
Qed.

(** The write of the manifest into a directory that has none. *)
Lemma write_manifest (data : string) (w : node) (m : gmap string node) :
  walk ["hls"; id] w = Ok (Dir m) ->
  m !! "master.m3u8" = None ->
  exists w',
    os_WriteFile (filepath_Join [outputDir; "master.m3u8"]) data w =
      (None, w') /\
    walk ["hls"; id] w' = Ok (Dir (<["master.m3u8" := File data]> m)).
Proof.
  intros (root & jobs & -> & Eh & Ej)%walk_job Hm.
  unfold outputDir.
  rewrite (outputDir_eq id Hid), (masterPlaylistPath_eq id Hid).
  cbn [os_WriteFile node_fs]. unfold node_WriteFile, at_path.
  rewrite (resolve_masterPath id Hid).
  cbn [modify]. rewrite Eh. cbn [modify]. rewrite Ej. cbn [modify].
  rewrite Hm. cbn [write_entry set_entry].
  eexists. split; [reflexivity |].
  cbn [walk]. now rewrite !lookup_insert_eq.
Qed.

Lemma processing_states (t : list (event * node)) (n : nat) :
  length t = n ->
  Forall (fun s => Status (snd s) id = JobProcessing) t ->
  map (fun s => Status s id) (map snd t) = repeat JobProcessing n.
Proof.
  intros <- Ht. induction Ht as [|s t Hs Ht IH]; cbn; [reflexivity |].
  now rewrite Hs, IH.
Qed.

(** The whole run, from a store where the job is absent. *)
Lemma successful_run (w : node) :
  os_Stat hlsDir w = Ok {| fi_IsDir := true |} ->
  Status w id = JobAbsent ->
  let r := ConvertToHLS run variants inputPath id w in
  map (fun s => Status s id) (observed w r) =
    [JobAbsent; JobAbsent] ++
    repeat JobProcessing (S (length variants)) ++ [JobReady] /\
  (exists t w',
     trace_of r =
       t ++ [(EvWriteFile (filepath_Join [outputDir; "master.m3u8"])
                (masterContent variants) None, w')] /\
     existsb is_write (map fst t) = false /\
     final_state r = w') /\
  exists m,
    walk ["hls"; id] (final_state r) = Ok (Dir m) /\
    m !! "master.m3u8" = Some (File (masterContent variants)) /\
    (forall v, In v variants ->
       is_file (m !! streamName v) = true /\
       exists k, is_file (m !! segment_name v k) = true) /\
    (forall x n, m !! x = Some n ->
       is_dir n = false /\
       (x = "master.m3u8" \/
        exists v, In v variants /\
          (x = streamName v \/ exists k, x = segment_name v k))).
Proof.
  intros Hroot Habsent r. subst r.
  destruct (fresh_directory id w Hid Hroot) as (w1 & w2 & E1 & E2 & Hw2 & _).
  fold outputDir in E1, E2.
  pose proof (removed_job_absent id w Hid) as [Habs1 _].
  fold outputDir in Habs1. rewrite E1 in Habs1. cbn [snd] in Habs1.
  assert (Hfiles0 : all_files ∅) by (intros x n; now rewrite lookup_empty).
  destruct (encode_variants_ok variants w2 ∅ (incl_refl _) Hw2 Hfiles0)
    as (w3 & t3 & m3 & El & Hw3 & Hm3 & _ & Hout & Hn3 & Hlen & Hall).
  assert (Hnone : forall ms : gmap string node,
             (forall x, ms !! x <> None ->
                        (∅ : gmap string node) !! x <> None \/
                        named_by variants x) ->
             ms !! "master.m3u8" = None).
  { intros ms Hms. destruct (ms !! "master.m3u8") eqn:E; [| reflexivity].
    exfalso. destruct (Hms "master.m3u8") as [Hx|Hx].
    - now rewrite E.
    - now rewrite lookup_empty in Hx.
    - now apply (master_not_named variants). }
  destruct (write_manifest (masterContent variants) w3 m3 Hw3 (Hnone m3 Hn3))
    as (w4 & E4 & Hw4).
  pose proof (encode_variants_spec run inputPath outputDir variants w2)
    as Hspec.
  rewrite ConvertToHLS_eq. cbv zeta. fold outputDir.
  rewrite E1, E2, El, E4. rewrite El in Hspec. destruct Hspec as [Hnw _].
  unfold observed, trace_of, final_state. cbn [fst snd].
  split; [| split].
  - cbn [app map]. rewrite map_app, map_app. cbn [map snd].
    rewrite Habsent, Habs1.
    rewrite (processing_states t3 (length variants) Hlen).
    + rewrite (Status_tree w2 id Hid), Hw2, lookup_empty.
      rewrite (Status_tree w4 id Hid), Hw4, lookup_insert_eq.
      reflexivity.
    + eapply Forall_impl; [exact Hall |].
      intros s (ms & Hs & Hms).
      now rewrite (Status_tree _ id Hid), Hs, (Hnone ms Hms).
  - eexists _, w4. split; [reflexivity |]. split; [| reflexivity].
    exact Hnw.
  - exists (<["master.m3u8" := File (masterContent variants)]> m3).
    split; [exact Hw4 |]. split; [apply lookup_insert_eq |].
    assert (Hne : forall x, named_by variants x -> "master.m3u8" <> x).
    { intros x Hx <-. now apply (master_not_named variants). }
    split.
    + intros v Hv. destruct (Hout v Hv) as [Hs [k Hk]].
      split; [| exists k]; rewrite lookup_insert_ne; try assumption;
        apply Hne; exists v; split; eauto.
    + intros x n Hx.
      destruct (String.eqb_spec "master.m3u8" x) as [<-|Hxm].
      * rewrite lookup_insert_eq in Hx. injection Hx as <-.
        split; [reflexivity | now left].
      * rewrite lookup_insert_ne in Hx by exact Hxm.
        split; [now apply (Hm3 x n) |]. right.
        destruct (Hn3 x) as [Hx'|Hx']; [now rewrite Hx | |].
        -- now rewrite lookup_empty in Hx'.
        -- exact Hx'.
Qed.

End SuccessfulRun.

(** C5. From a store where the output root exists and the job is absent,
    with a transcoder that does its job for every variant: a reader sees
    the job absent before the run and after the removal, processing from
    the creation of the directory through every transcoder run, and ready
    after the last call, which is the write of the manifest and the only
    write of the run.  The directory then holds the manifest, for each
    variant its sub-playlist and at least one segment, all files, and
    nothing that is not one of these: no flag besides the manifest. *)
Theorem successful_run_lifecycle (run : Runner node)
    (variants : list variant) (inputPath id : string) (w : node) :
  valid_name id = true ->
  os_Stat hlsDir w = Ok {| fi_IsDir := true |} ->
  Status w id = JobAbsent ->
  transcoder_ok run inputPath (filepath_Join [hlsDir; id]) variants ->
  let r := ConvertToHLS run variants inputPath id w in
  let masterPath :=
    filepath_Join [filepath_Join [hlsDir; id]; "master.m3u8"] in
  map (fun s => Status s id) (observed w r) =
    [JobAbsent; JobAbsent] ++
    repeat JobProcessing (S (length variants)) ++ [JobReady] /\
  (exists t w',
     trace_of r =
       t ++ [(EvWriteFile masterPath (masterContent variants) None, w')] /\
     existsb is_write (map fst t) = false /\
     final_state r = w') /\
  exists m,
    walk ["hls"; id] (final_state r) = Ok (Dir m) /\
    m !! "master.m3u8" = Some (File (masterContent variants)) /\
    (forall v, In v variants ->
       is_file (m !! streamName v) = true /\
       exists k, is_file (m !! segment_name v k) = true) /\
    (forall x n, m !! x = Some n ->
       is_dir n = false /\
       (x = "master.m3u8" \/
        exists v, In v variants /\
          (x = streamName v \/ exists k, x = segment_name v k))).
Proof.
  intros Hid Hroot Habsent Hrun.
  exact (successful_run run inputPath id variants Hid Hrun w Hroot Habsent).
Qed.

(** ** The stand-in transcoder does its job *)

Section StandIn.

Lemma walk_put (p : list string) (x y n : node) :
  walk p n = Ok y -> walk p (put p x n) = Ok x.
Proof.
  revert n. induction p as [|c p IH]; intros n; cbn; [reflexivity |].
  destruct n as [d|m]; [discriminate |].
  destruct (m !! c) as [n'|] eqn:Ec; [| discriminate].
  intros Hw. cbn. rewrite lookup_insert_eq. now apply IH.
Qed.

(** One run of the stand-in whose command line names the sub-playlist
    [pl] and the first segment [seg] in the directory [dir]. *)
Lemma mock_ffmpeg_run (c : Cmd) (dir : list string) (pl seg : string)
    (w : node) (m : gmap string node) :
  resolve (List.last (cmd_args c) "") = dir ++ [pl] ->
  resolve (fill_index (arg_after "-hls_segment_filename" (cmd_args c)) 0) =
    dir ++ [seg] ->
  walk dir w = Ok (Dir m) ->
  exists w',
    mock_ffmpeg [] c w = (None, w') /\
    walk dir w' =
      Ok (Dir (<[pl := File "#EXTM3U"]> {[seg := File "ts"]} ∪ m)).
Proof.
  intros Hpl Hseg Hw. unfold mock_ffmpeg.
  rewrite Hpl, Hseg, removelast_last, !last_last, Hw. cbn [existsb].
  eexists. split; [reflexivity |]. now apply (walk_put dir _ (Dir m)).
Qed.

Lemma mock_output (v : variant) (pl seg : string) :
  pl = streamName v ->
  seg = segment_name v 0 ->
  variant_output v (<[pl := File "#EXTM3U"]> {[seg := File "ts"]}).
Proof.
  intros -> ->. unfold variant_output. split; [| split].
  - now rewrite lookup_insert_eq.
  - exists 0%nat.
    destruct (String.eqb_spec (streamName v) (segment_name v 0)) as [E|E].
    + rewrite E. now rewrite lookup_insert_eq.
    + rewrite lookup_insert_ne by exact E. now rewrite lookup_singleton_eq.
  - intros x n [[<- <-]|[_ [<- <-]%lookup_singleton_Some]]%lookup_insert_Some.
    + split; [reflexivity | now left].
    + split; [reflexivity |]. right. now exists 0%nat.
Qed.

Lemma mock_ffmpeg_ok :
  transcoder_ok (mock_ffmpeg []) "uploads/clip.mp4"
    (filepath_Join [hlsDir; "clip"]) HLS_VARIANTS.
Proof.
  intros v w m Hv Hw _.
  change (resolve (filepath_Join [hlsDir; "clip"])) with ["hls"; "clip"]
    in *.
  destruct Hv as [<-|[<-|[<-|[<-|[]]]]].
  all: match goal with
       | |- context [ffmpeg_cmd ?i ?o ?v] =>
           destruct (mock_ffmpeg_run (ffmpeg_cmd i o v) ["hls"; "clip"]
                       (streamName v) (segment_name v 0) w m
                       eq_refl eq_refl Hw) as (w' & Er & Hw')
       end;
    eexists _, w'; split; [exact Er | split; [exact Hw' |]];
    now apply mock_output.
Qed.

End StandIn.

(** The upload of the fresh store, converted by the stand-in. *)
Lemma successful_run_lifecycle_witness :
  let r := ConvertToHLS (mock_ffmpeg []) HLS_VARIANTS "uploads/clip.mp4"
             "clip" fresh_store in
  map (fun s => Status s "clip") (observed fresh_store r) =
    [JobAbsent; JobAbsent; JobProcessing; JobProcessing; JobProcessing;
     JobProcessing; JobProcessing; JobReady] /\
  exists m,
    walk ["hls"; "clip"] (final_state r) = Ok (Dir m) /\
    m !! "master.m3u8" = Some (File (masterContent HLS_VARIANTS)).
Proof.
  intros r.
  destruct (successful_run_lifecycle (mock_ffmpeg []) HLS_VARIANTS
              "uploads/clip.mp4" "clip" fresh_store
              eq_refl eq_refl eq_refl mock_ffmpeg_ok)
    as (Hstatus & _ & m & Hm & Hmaster & _).
  split; [exact Hstatus | exists m; split; assumption].
Defined.

(* ================================================================== *)
(** * Part III. More of the program *)
(* ================================================================== *)

(** ** File name extensions *)

Section Extensions.

Implicit Types (l r seen : list ascii) (c : ascii).

(** Neither the separator nor a dot. *)
Let plain (c : ascii) : bool := negb (is_sep c) && negb (Ascii.eqb c ".").

Lemma string_of_list_app (a b : list ascii) :
  string_of_list_ascii (a ++ b) =
  string_of_list_ascii a +:+ string_of_list_ascii b.
Proof. induction a as [|c a IH]; cbn; [reflexivity | now rewrite IH]. Qed.

Lemma list_of_string_app (s t : string) :
  list_ascii_of_string (s +:+ t) =
  list_ascii_of_string s ++ list_ascii_of_string t.
Proof. induction s as [|c s IH]; cbn; [reflexivity | now rewrite IH]. Qed.

Lemma forallb_all_bytes (p : ascii -> bool) (s : string) :
  forallb p (list_ascii_of_string s) = all_bytes p s.
Proof. induction s as [|c s IH]; cbn; [reflexivity | now rewrite IH]. Qed.

Lemma forallb_rev {A : Type} (p : A -> bool) (xs : list A) :
  forallb p (rev xs) = forallb p xs.
Proof.
  induction xs as [|x xs IH]; [reflexivity |].
  cbn [rev]. rewrite forallb_app, IH. cbn. now rewrite andb_true_r, andb_comm.
Qed.

(** The scan passes over bytes that are neither separator nor dot. *)
Lemma ext_scan_skip r rest seen :
  forallb plain r = true ->
  ext_scan (r ++ rest) seen = ext_scan rest (rev r ++ seen).
Proof.
  revert seen. induction r as [|c r IH]; intros seen Hr; [reflexivity |].
  cbn in Hr. apply andb_true_iff in Hr as [Hc Hr].
  apply andb_true_iff in Hc as [Hs Hd].
  apply negb_true_iff in Hs, Hd.
  cbn [app ext_scan]. rewrite Hs, Hd, (IH _ Hr). cbn [rev].
  now rewrite <- app_assoc.
Qed.

(** What the scan returns is the end of what it was given. *)
Lemma ext_scan_suffix l seen :
  exists pre,
    rev l ++ seen = pre ++ list_ascii_of_string (ext_scan l seen).
Proof.
  revert seen. induction l as [|c l IH]; intros seen.
  - exists seen. cbn. now rewrite app_nil_r.
  - cbn [ext_scan]. destruct (is_sep c).
    + exists (rev (c :: l) ++ seen). cbn [list_ascii_of_string].
      now rewrite app_nil_r.
    + destruct (Ascii.eqb c ".").
      * exists (rev l). rewrite list_ascii_of_string_of_list_ascii.
        cbn [rev]. now rewrite <- app_assoc.
      * destruct (IH (c :: seen)) as [pre Hpre]. exists pre.
        rewrite <- Hpre. cbn [rev]. now rewrite <- app_assoc.
Qed.

(** It is empty, or a dot followed by bytes that are neither separator nor
    dot. *)
Lemma ext_scan_shape l seen :
  forallb plain seen = true ->
  ext_scan l seen = "" \/
  exists r, ext_scan l seen = String "." (string_of_list_ascii r) /\
            forallb plain r = true.
Proof.
  revert seen. induction l as [|c l IH]; intros seen Hseen; [now left |].
  cbn [ext_scan]. destruct (is_sep c) eqn:Hs; [now left |].
  destruct (Ascii.eqb_spec c ".") as [->|Hd].
  - right. exists seen. now split.
  - apply IH. cbn. rewrite Hseen, andb_true_r. unfold plain.
    rewrite Hs. cbn. apply negb_true_iff. now apply Ascii.eqb_neq.
Qed.

Lemma Ext_suffix (path : string) :
  exists stem, path = stem +:+ filepath_Ext path.
Proof.
  unfold filepath_Ext.
  destruct (ext_scan_suffix (rev (list_ascii_of_string path)) [])
    as [pre Hpre].
  rewrite rev_involutive, app_nil_r in Hpre.
  exists (string_of_list_ascii pre).
  apply (f_equal string_of_list_ascii) in Hpre.
  now rewrite string_of_list_app, !string_of_list_ascii_of_string in Hpre.
Qed.

(** The extension of a name that ends in a dot and plain bytes is that
    ending, whatever stands before it. *)
Lemma Ext_append_dot (stem : string) r :
  forallb plain r = true ->
  filepath_Ext (stem +:+ String "." (string_of_list_ascii r)) =
  String "." (string_of_list_ascii r).
Proof.
  intros Hr. unfold filepath_Ext.
  rewrite list_of_string_app. cbn [list_ascii_of_string].
  rewrite list_ascii_of_string_of_list_ascii, rev_app_distr. cbn [rev].
  rewrite <- app_assoc. cbn [app].
  rewrite ext_scan_skip by now rewrite forallb_rev.
  rewrite rev_involutive, app_nil_r. cbn [ext_scan].
  now change (is_sep ".") with false.
Qed.

(** A name of plain bytes only has no extension. *)
Lemma Ext_plain (stem : string) :
  all_bytes plain stem = true -> filepath_Ext stem = "".
Proof.
  intros Hs. unfold filepath_Ext.
  rewrite <- (app_nil_r (rev _)).
  rewrite ext_scan_skip; [reflexivity |].
  now rewrite forallb_rev, forallb_all_bytes.
Qed.

Lemma video_id_plain (now : Z) (n : N) :
  all_bytes plain (video_id now n) = true.
Proof.
  unfold video_id. cbn. rewrite !all_bytes_append. cbn.
  apply andb_true_iff; split;
    (eapply all_bytes_impl;
     [| apply numeral_bytes_fmt_d || apply numeral_bytes_fmt_u]);
    intros c Hc; unfold numeral_byte in Hc;
    repeat (destruct c as [[] [] [] [] [] [] [] []]; try discriminate Hc;
            try reflexivity).
Qed.

End Extensions.

(** The extension is empty, or a dot followed by bytes that are neither
    dot nor separator. *)
Lemma Ext_shape (path : string) :
  filepath_Ext path = "" \/
  exists rest, filepath_Ext path = String "." rest /\
    all_bytes (fun c => negb (is_sep c) && negb (Ascii.eqb c ".")) rest
    = true.
Proof.
  unfold filepath_Ext.
  destruct (ext_scan_shape (rev (list_ascii_of_string path)) [] eq_refl)
    as [E|(r & E & Hr)]; [now left | right].
  exists (string_of_list_ascii r). split; [exact E |].
  now rewrite <- forallb_all_bytes, list_ascii_of_string_of_list_ascii.
Qed.

Lemma Ext_no_sep (path : string) :
  all_bytes (fun c => negb (is_sep c)) (filepath_Ext path) = true.
Proof.
  destruct (Ext_shape path) as [->|(rest & -> & Hr)]; [reflexivity |].
  cbn. eapply all_bytes_impl; [| exact Hr].
  intros c Hc. now apply andb_true_iff in Hc as [Hc _].
Qed.

(** X1. The handlers split the name of an upload into an id and an
    extension: the id followed by the extension is the name again, for
    every name, and the extension is empty or a dot followed by bytes that
    are neither dot nor separator. *)
Theorem id_and_extension (filename : string) :
  let ext := filepath_Ext filename in
  let id := strings_TrimSuffix filename ext in
  id +:+ ext = filename /\
  (ext = "" \/
   exists rest, ext = "." +:+ rest /\
     all_bytes (fun c => negb (is_sep c) && negb (Ascii.eqb c ".")) rest
     = true).
Proof.
  cbv zeta. split; [| apply Ext_shape].
  destruct (Ext_suffix filename) as [stem Hstem].
  set (ext := filepath_Ext filename) in *.
  rewrite Hstem at 1. rewrite TrimSuffix_append. now symmetry.
Qed.

(** The stored name of an upload, split again. *)
Lemma stored_name_round_trip (now : Z) (n : N) (clientname : string) :
  let id := video_id now n in
  let stored := id +:+ filepath_Ext clientname in
  filepath_Ext stored = filepath_Ext clientname /\
  strings_TrimSuffix stored (filepath_Ext stored) = id.
Proof.
  cbv zeta.
  assert (E : filepath_Ext (video_id now n +:+ filepath_Ext clientname) =
              filepath_Ext clientname).
  { unfold filepath_Ext at 2 3.
    destruct (ext_scan_shape (rev (list_ascii_of_string clientname)) []
                eq_refl) as [->|(r & -> & Hr)].
    - rewrite append_nil_r. apply Ext_plain, video_id_plain.
    - now apply Ext_append_dot. }
  split; [exact E |]. rewrite E. apply TrimSuffix_append.
Qed.

(** X2. An upload is stored under its identifier followed by the extension
    of the client's file name; the id that the page and the reconvert
    handler derive from the stored name is that identifier again, and the
    extension they split off is the client's. *)
Theorem stored_name_gives_id (now : Z) (n : N) (clientname : string) :
  let id := video_id now n in
  let stored := id +:+ filepath_Ext clientname in
  filepath_Ext stored = filepath_Ext clientname /\
  strings_TrimSuffix stored (filepath_Ext stored) = id.
Proof. exact (stored_name_round_trip now n clientname). Qed.

(** ** What a change at one path leaves alone *)

Section Frame.

Implicit Types (p q : list string) (n x : node) (c : string).

Lemma diverges_app p p' q :
  diverges p q = true -> diverges (p ++ p') q = true.
Proof.
  revert q. induction p as [|a p IH]; intros [|b q]; cbn; try discriminate.
  destruct (String.eqb a b); [apply IH | reflexivity].
Qed.

(** A change at [c :: p] is not seen at a path that parts ways with it. *)
Lemma modify_frame f missing c p n q :
  diverges (c :: p) q = true ->
  walk q (snd (modify f missing c p n)) = walk q n.
Proof.
  revert c n q. induction p as [|c' p IH]; intros c n q Hq.
  - destruct n as [d|m]; [reflexivity |].
    destruct q as [|b q]; [discriminate |]. cbn in Hq.
    destruct (String.eqb_spec c b) as [->|Hne].
    { now destruct q. }
    cbn [modify]. destruct (f (m !! c)) as [o|e]; [| reflexivity].
    cbn. destruct o as [n'|]; cbn.
    + now rewrite lookup_insert_ne.
    + now rewrite lookup_delete_ne.
  - destruct n as [d|m]; [reflexivity |].
    destruct q as [|b q]; [discriminate |].
    cbn [modify]. destruct (m !! c) as [n'|] eqn:Ec; [| reflexivity].
    specialize (IH c' n').
    destruct (modify f missing c' p n') as [e n''].
    cbn [snd walk] in *. cbn [diverges] in Hq.
    destruct (String.eqb_spec c b) as [<-|Hne].
    + rewrite lookup_insert_eq, Ec. now apply IH.
    + now rewrite lookup_insert_ne.
Qed.

Lemma at_path_frame f missing root_err (path : string) n q :
  diverges (resolve path) q = true ->
  walk q (snd (at_path f missing root_err path n)) = walk q n.
Proof.
  unfold at_path. destruct (resolve path) as [|c p]; [discriminate |].
  apply modify_frame.
Qed.

Lemma mkdir_all_frame p n q :
  diverges p q = true -> walk q (snd (mkdir_all p n)) = walk q n.
Proof.
  revert n q. induction p as [|c p IH]; intros n q Hq; [discriminate |].
  destruct n as [d|m]; [reflexivity |].
  destruct q as [|b q]; [discriminate |].
  cbn [mkdir_all]. specialize (IH (default (Dir ∅) (m !! c))).
  destruct (mkdir_all p (default (Dir ∅) (m !! c))) as [[e|] child];
    [reflexivity |].
  cbn [snd walk] in *. cbn [diverges] in Hq.
  destruct (String.eqb_spec c b) as [<-|Hne].
  - rewrite lookup_insert_eq, (IH q Hq).
    destruct (m !! c) as [n'|]; [reflexivity |]. cbn.
    destruct q as [|b' q]; [now destruct p | reflexivity].
  - now rewrite lookup_insert_ne.
Qed.

Lemma put_frame p x n q :
  diverges p q = true -> walk q (put p x n) = walk q n.
Proof.
  revert n q. induction p as [|c p IH]; intros n q Hq; [discriminate |].
  destruct q as [|b q]; [discriminate |].
  destruct n as [d|m]; [reflexivity |]. cbn [put].
  destruct (m !! c) as [n'|] eqn:Ec; [| reflexivity].
  cbn [walk]. cbn [diverges] in Hq.
  destruct (String.eqb_spec c b) as [<-|Hne].
  - rewrite lookup_insert_eq, Ec. now apply IH.
  - now rewrite lookup_insert_ne.
Qed.

(** The stand-in transcoder writes below the directory of its playlist
    only. *)
Lemma mock_ffmpeg_frame (broken : list string) (c : Cmd) (dir q : list string)
    (pl : string) (w : node) :
  resolve (List.last (cmd_args c) "") = dir ++ [pl] ->
  diverges dir q = true ->
  walk q (snd (mock_ffmpeg broken c w)) = walk q w.
Proof.
  intros Hpl Hq. unfold mock_ffmpeg. rewrite Hpl, removelast_last.
  destruct (walk dir w) as [[d|m]|e]; [reflexivity | | reflexivity].
  destruct (existsb _ broken); now apply put_frame.
Qed.

(** The status of a job is read off its own directory. *)
Lemma Status_frame (w w' : node) (id : string) :
  valid_name id = true ->
  walk ["hls"; id] w' = walk ["hls"; id] w ->
  Status w' id = Status w id.
Proof.
  intros Hid Hw. rewrite !Status_tree by exact Hid. now rewrite Hw.
Qed.

Lemma diverges_jobs (id id' : string) (rest : list string) :
  id <> id' -> diverges ["hls"; id] ("hls" :: id' :: rest) = true.
Proof.
  intros Hne. cbn. now destruct (String.eqb_spec id id').
Qed.

End Frame.

Section ConverterFrame.

Variable run : Runner node.
Variables inputPath id : string.
Variable variants : list variant.
Variable q : list string.
Hypothesis Hid : valid_name id = true.
Hypothesis Hq : diverges ["hls"; id] q = true.

Let outputDir := filepath_Join [hlsDir; id].

Hypothesis Hrun :
  forall v w, In v variants ->
    walk q (snd (run (ffmpeg_cmd inputPath outputDir v) w)) = walk q w.

Lemma RemoveAll_outputDir_frame (w : node) :
  walk q (snd (os_RemoveAll outputDir w)) = walk q w.
Proof.
  apply at_path_frame. unfold outputDir.
  now rewrite outputDir_eq, resolve_outputDir.
Qed.

Lemma MkdirAll_outputDir_frame (w : node) :
  walk q (snd (os_MkdirAll outputDir w)) = walk q w.
Proof.
  apply mkdir_all_frame. unfold outputDir.
  now rewrite outputDir_eq, resolve_outputDir.
Qed.

Lemma WriteFile_master_frame (data : string) (w : node) :
  walk q (snd (os_WriteFile (filepath_Join [outputDir; "master.m3u8"])
                 data w)) = walk q w.
Proof.
  apply at_path_frame. unfold outputDir.
  rewrite outputDir_eq, masterPlaylistPath_eq, resolve_masterPath
    by exact Hid.
  now apply (diverges_app ["hls"; id] ["master.m3u8"]).
Qed.

Lemma encode_variants_frame (vs : list variant) (w : node) :
  incl vs variants ->
  let r := encode_variants run inputPath outputDir vs w in
  Forall (fun s => walk q s = walk q w) (final_state r :: map snd (trace_of r)).
Proof.
  revert w. induction vs as [|v vs IH]; intros w Hvs r; subst r.
  - cbn. now repeat constructor.
  - rewrite encode_variants_cons. cbv zeta.
    pose proof (Hrun v w (Hvs v (or_introl eq_refl))) as Hv.
    destruct (run (ffmpeg_cmd inputPath outputDir v) w) as [[f|] w1];
      cbn [snd] in Hv.
    + cbn. now repeat constructor.
    + specialize (IH w1 (fun x Hx => Hvs x (or_intror Hx))). cbv zeta in IH.
      destruct (encode_variants run inputPath outputDir vs w1)
        as [[ok w2] t].
      unfold final_state, trace_of in *. cbn [fst snd map] in *.
      inversion IH as [|? ? H2 Ht]; subst.
      constructor; [congruence |]. constructor; [exact Hv |].
      eapply Forall_impl; [exact Ht |]. cbn. intros; congruence.
Qed.

Lemma ConvertToHLS_frame (w : node) :
  Forall (fun s => walk q s = walk q w)
    (observed w (ConvertToHLS run variants inputPath id w)).
Proof.
  rewrite ConvertToHLS_eq. cbv zeta. fold outputDir.
  pose proof (RemoveAll_outputDir_frame w) as H1.
  destruct (os_RemoveAll outputDir w) as [e1 w1]. cbn [snd] in H1.
  pose proof (MkdirAll_outputDir_frame w1) as H2.
  destruct (os_MkdirAll outputDir w1) as [e2 w2]. cbn [snd] in H2.
  pose proof (encode_variants_frame variants w2 (incl_refl _)) as H3.
  cbv zeta in H3.
  destruct (encode_variants run inputPath outputDir variants w2)
    as [[ok w3] t3].
  unfold final_state, trace_of in H3. cbn [fst snd] in H3.
  inversion H3 as [|? ? H3w H3t]; subst.
  assert (Ht3 : Forall (fun s => walk q s = walk q w) (map snd t3)).
  { eapply Forall_impl; [exact H3t |]. cbn. intros; congruence. }
  assert (Hw3 : walk q w3 = walk q w) by congruence.
  assert (Hw2 : walk q w2 = walk q w) by congruence.
  destruct ok.
  - pose proof (WriteFile_master_frame (masterContent variants) w3) as H4.
    destruct (os_WriteFile _ _ w3) as [[e4|] w4]; cbn [snd] in H4.
    + pose proof (RemoveAll_outputDir_frame w4) as H5.
      destruct (os_RemoveAll outputDir w4) as [e5 w5]. cbn [snd] in H5.
      unfold observed, trace_of. cbn [fst snd map app].
      rewrite map_app. cbn [map snd].
      repeat (constructor; [congruence || reflexivity |]).
      apply Forall_app. split; [exact Ht3 |].
      repeat (constructor; [congruence |]). constructor.
    + unfold observed, trace_of. cbn [fst snd map app].
      rewrite map_app. cbn [map snd].
      repeat (constructor; [congruence || reflexivity |]).
      apply Forall_app. split; [exact Ht3 |].
      repeat (constructor; [congruence |]). constructor.
  - pose proof (RemoveAll_outputDir_frame w3) as H5.
    destruct (os_RemoveAll outputDir w3) as [e5 w5]. cbn [snd] in H5.
    unfold observed, trace_of. cbn [fst snd map app].
    rewrite map_app. cbn [map snd].
    repeat (constructor; [congruence || reflexivity |]).
    apply Forall_app. split; [exact Ht3 |].
    repeat (constructor; [congruence |]). constructor.
Qed.

End ConverterFrame.

(** X3. A conversion stays inside the directory of its job.  For a job
    id that is one path element, whatever stands at a path that parts ways
    with [hls/<id>] (the upload it reads, every other upload, every other
    job) is the same at every point of the run as before it, provided the
    transcoder itself leaves that path alone.  This holds for every store
    and whether the run succeeds or fails. *)
Theorem conversion_stays_in_job_directory
    (run : Runner node) (variants : list variant) (inputPath id : string)
    (q : list string) (w : node) :
  valid_name id = true ->
  diverges ["hls"; id] q = true ->
  (forall v w', In v variants ->
     walk q (snd (run (ffmpeg_cmd inputPath (filepath_Join [hlsDir; id]) v)
                    w')) = walk q w') ->
  Forall (fun s => walk q s = walk q w)
    (observed w (ConvertToHLS run variants inputPath id w)).
Proof.
  intros Hid Hq Hrun. now apply ConvertToHLS_frame.
Qed.

(** The upload of the sample store is the same after every step of a run
    in which the third variant fails. *)
Lemma conversion_stays_in_job_directory_witness :
  Forall (fun s => walk ["uploads"; "clip.mp4"] s = Ok (File "bytes"))
    (observed sample_store
       (ConvertToHLS (mock_ffmpeg ["stream_720p.m3u8"]) HLS_VARIANTS
          "uploads/clip.mp4" "clip" sample_store)).
Proof.
  apply (conversion_stays_in_job_directory
           (mock_ffmpeg ["stream_720p.m3u8"]) HLS_VARIANTS
           "uploads/clip.mp4" "clip" ["uploads"; "clip.mp4"] sample_store
           eq_refl eq_refl).
  intros v w' Hv.
  destruct Hv as [<-|[<-|[<-|[<-|[]]]]];
    (eapply mock_ffmpeg_frame with (dir := ["hls"; "clip"]);
     [vm_compute; reflexivity | reflexivity]).
Defined.

(** ** How a run ends *)

Section WrittenFiles.

Implicit Types (p : list string) (n : node) (c : string).

(** A write that reports no error leaves the file with the data. *)
Lemma modify_written (data : string) (e : errno) c p n :
  fst (modify (write_entry data) (Some e) c p n) = None ->
  walk (c :: p) (snd (modify (write_entry data) (Some e) c p n)) =
  Ok (File data).
Proof.
  revert c n. induction p as [|c' p IH]; intros c n.
  - destruct n as [d|m]; [discriminate |]. cbn [modify].
    destruct (m !! c) as [[d|m']|]; cbn; try discriminate;
      intros _; now rewrite lookup_insert_eq.
  - destruct n as [d|m]; [discriminate |]. cbn [modify].
    destruct (m !! c) as [n'|]; [| discriminate].
    specialize (IH c' n').
    destruct (modify (write_entry data) (Some e) c' p n') as [e' n''].
    cbn [fst snd] in *. intros ->. cbn [walk].
    rewrite lookup_insert_eq. now apply IH.
Qed.

Lemma WriteFile_written (path data : string) (w w' : node) :
  os_WriteFile path data w = (None, w') ->
  walk (resolve path) w' = Ok (File data).
Proof.
  cbn [os_WriteFile node_fs]. unfold node_WriteFile, at_path.
  destruct (resolve path) as [|c p]; [discriminate |].
  intros E. pose proof (modify_written data ENOENT c p w) as Hm.
  rewrite E in Hm. now apply Hm.
Qed.

(** The node at a path is an entry of the directory one step above. *)
Lemma walk_snoc p c n x :
  walk (p ++ [c]) n = Ok x <->
  exists m, walk p n = Ok (Dir m) /\ m !! c = Some x.
Proof.
  revert n. induction p as [|a p IH]; intros n.
  - cbn. destruct n as [d|m].
    + split; [discriminate | now intros (m & [=] & _)].
    + split.
      * destruct (m !! c) as [n'|] eqn:Ec; [| discriminate].
        intros [= ->]. eauto.
      * intros (m' & [= <-] & ->). reflexivity.
  - cbn. destruct n as [d|m].
    + split; [discriminate | now intros (m & [=] & _)].
    + destruct (m !! a) as [n'|]; [apply IH |].
      split; [discriminate | now intros (m' & [=] & _)].
Qed.

End WrittenFiles.

Section Endings.

Context {W : Type} `{FileSystem W}.

Lemma no_write_event (t : list (event * W)) (p d : string) (e : error) :
  existsb is_write (map fst t) = false ->
  ~ In (EvWriteFile p d e) (map fst t).
Proof.
  intros Hf Hin.
  assert (existsb is_write (map fst t) = true) as Ht; [| congruence].
  apply existsb_exists. exists (EvWriteFile p d e). now split.
Qed.

End Endings.

(** How a run ends, by whether a call failed. *)
Lemma ConvertToHLS_ending
    (run : Runner node) (variants : list variant) (inputPath id : string)
    (w : node) :
  valid_name id = true ->
  let r := ConvertToHLS run variants inputPath id w in
  if existsb failed (map fst (trace_of r)) then
    Status (final_state r) id = JobAbsent
  else
    Status (final_state r) id = JobReady /\
    walk ["hls"; id; "master.m3u8"] (final_state r) =
      Ok (File (masterContent variants)).
Proof.
  intros Hid r. subst r. rewrite ConvertToHLS_eq. cbv zeta.
  destruct (os_RemoveAll (filepath_Join [hlsDir; id]) w) as [e1 w1].
  destruct (os_MkdirAll (filepath_Join [hlsDir; id]) w1) as [e2 w2].
  pose proof (encode_variants_spec run inputPath (filepath_Join [hlsDir; id])
                variants w2) as Hs.
  cbv zeta in Hs.
  destruct (encode_variants run inputPath (filepath_Join [hlsDir; id])
              variants w2) as [[ok w3] t3].
  destruct Hs as [_ Hs]. destruct ok.
  - destruct Hs as [_ Hf].
    destruct (os_WriteFile _ _ w3) as [[e4|] w4] eqn:E4.
    + pose proof (removed_job_absent id w4 Hid) as [Ha _].
      destruct (os_RemoveAll (filepath_Join [hlsDir; id]) w4) as [e5 w5].
      unfold trace_of, final_state. cbn [fst snd app map existsb failed].
      rewrite map_app, existsb_app, Hf. exact Ha.
    + unfold trace_of, final_state. cbn [fst snd app map existsb failed].
      rewrite map_app, existsb_app, Hf. cbn.
      apply WriteFile_written in E4.
      rewrite (outputDir_eq id Hid), (masterPlaylistPath_eq id Hid),
        (resolve_masterPath id Hid) in E4.
      split; [| exact E4].
      rewrite (Status_tree _ id Hid).
      apply (walk_snoc ["hls"; id]) in E4 as (m & -> & ->). reflexivity.
  - destruct Hs as (done & v & rest & f & t0 & _ & -> & _ & _).
    pose proof (removed_job_absent id w3 Hid) as [Ha _].
    destruct (os_RemoveAll (filepath_Join [hlsDir; id]) w3) as [e5 w5].
    unfold trace_of, final_state. cbn [fst snd app map existsb failed].
    rewrite !map_app, !existsb_app. cbn [map fst existsb failed].
    rewrite orb_true_r. exact Ha.
Qed.

(** X4. A run never leaves its job half done.  For a job id that is one
    path element, on every store and with every transcoder, the job is
    absent after a run in which a transcoder run or the writing of the
    manifest reported an error, and it is ready after any other run: then
    the manifest is a file that holds exactly the generated text. *)
Theorem finished_run_ready_or_absent
    (run : Runner node) (variants : list variant) (inputPath id : string)
    (w : node) :
  valid_name id = true ->
  let r := ConvertToHLS run variants inputPath id w in
  if existsb failed (map fst (trace_of r)) then
    Status (final_state r) id = JobAbsent
  else
    Status (final_state r) id = JobReady /\
    walk ["hls"; id; "master.m3u8"] (final_state r) =
      Ok (File (masterContent variants)).
Proof. exact (ConvertToHLS_ending run variants inputPath id w). Qed.

(** The two endings on the sample store: the stand-in transcoder at work,
    and the same with its third sub-playlist broken. *)
Lemma finished_run_ready_or_absent_witness :
  (Status (final_state
             (ConvertToHLS (mock_ffmpeg []) HLS_VARIANTS
                "uploads/clip.mp4" "clip" sample_store)) "clip" = JobReady /\
   walk ["hls"; "clip"; "master.m3u8"]
     (final_state
        (ConvertToHLS (mock_ffmpeg []) HLS_VARIANTS
           "uploads/clip.mp4" "clip" sample_store)) =
     Ok (File (masterContent HLS_VARIANTS))) /\
  Status (final_state
            (ConvertToHLS (mock_ffmpeg ["stream_720p.m3u8"]) HLS_VARIANTS
               "uploads/clip.mp4" "clip" sample_store)) "clip" = JobAbsent.
Proof.
  split.
  - exact (finished_run_ready_or_absent (mock_ffmpeg []) HLS_VARIANTS
             "uploads/clip.mp4" "clip" sample_store eq_refl).
  - exact (finished_run_ready_or_absent (mock_ffmpeg ["stream_720p.m3u8"])
             HLS_VARIANTS "uploads/clip.mp4" "clip" sample_store eq_refl).
Defined.

(** X5. The transcoder is run for the variants in list order, one run
    each, and the loop is left at the first run that fails: the commands of
    a run are those of a front part of the list, of the whole list when no
    run failed, and a run that failed is the last.  The run for the first
    variant is made whatever the removal and the creation of the directory
    reported, since neither outcome is looked at.  The manifest is written
    at most to the manifest path of the job and with the generated text,
    and only after every variant has been transcoded without failure. *)
Theorem transcoder_runs_in_order {W : Type} `{FileSystem W}
    (run : Runner W) (variants : list variant) (inputPath id : string)
    (w : W) :
  let outputDir := filepath_Join [hlsDir; id] in
  let cmd := ffmpeg_cmd inputPath outputDir in
  let t := trace_of (ConvertToHLS run variants inputPath id w) in
  let no_run_failed :=
    forall c f, ~ In (EvRun c (Some f)) (map fst t) in
  (exists k, commands_run t = map cmd (firstn k variants)) /\
  (no_run_failed -> commands_run t = map cmd variants) /\
  (forall c f, In (EvRun c (Some f)) (map fst t) ->
     exists before, commands_run t = before ++ [c]) /\
  hd_error (commands_run t) = hd_error (map cmd variants) /\
  (forall p d e, In (EvWriteFile p d e) (map fst t) ->
     p = filepath_Join [outputDir; "master.m3u8"] /\
     d = masterContent variants /\
     commands_run t = map cmd variants /\ no_run_failed).
Proof.
  intros outputDir cmd t no_run_failed. subst t no_run_failed.
  rewrite ConvertToHLS_eq. cbv zeta. fold outputDir.
  destruct (os_RemoveAll outputDir w) as [e1 w1].
  destruct (os_MkdirAll outputDir w1) as [e2 w2].
  pose proof (encode_variants_spec run inputPath outputDir variants w2)
    as Hs.
  cbv zeta in Hs. fold cmd in Hs.
  destruct (encode_variants run inputPath outputDir variants w2)
    as [[ok w3] t3].
  destruct Hs as [Hw Hs]. destruct ok.
  - destruct Hs as [Hc Hf].
    assert (Hnone : forall (tail : list (event * W)),
              commands_run tail = [] ->
              (forall c f, ~ In (EvRun c (Some f)) (map fst tail)) ->
              let t := (EvRemoveAll outputDir e1, w1)
                       :: (EvMkdirAll outputDir e2, w2) :: t3 ++ tail in
              commands_run t = map cmd variants /\
              forall c f, ~ In (EvRun c (Some f)) (map fst t)).
    { intros tail Hct Htail t. subst t. split.
      - cbn [commands_run]. now rewrite commands_run_app, Hct, app_nil_r.
      - intros c f. cbn [map fst In]. rewrite map_app, in_app_iff.
        intros [E|[E|[Hin|Hin]]]; try discriminate E.
        + now apply (not_failed_run t3 c f Hf).
        + now apply (Htail c f). }
    assert (Hall : forall (tail : list (event * W)),
              commands_run tail = [] ->
              (forall c f, ~ In (EvRun c (Some f)) (map fst tail)) ->
              (forall p d e, In (EvWriteFile p d e) (map fst tail) ->
                 p = filepath_Join [outputDir; "master.m3u8"] /\
                 d = masterContent variants) ->
              let t := (EvRemoveAll outputDir e1, w1)
                       :: (EvMkdirAll outputDir e2, w2) :: t3 ++ tail in
              (exists k, commands_run t = map cmd (firstn k variants)) /\
              ((forall c f, ~ In (EvRun c (Some f)) (map fst t)) ->
               commands_run t = map cmd variants) /\
              (forall c f, In (EvRun c (Some f)) (map fst t) ->
                 exists before, commands_run t = before ++ [c]) /\
              hd_error (commands_run t) = hd_error (map cmd variants) /\
              (forall p d e, In (EvWriteFile p d e) (map fst t) ->
                 p = filepath_Join [outputDir; "master.m3u8"] /\
                 d = masterContent variants /\
                 commands_run t = map cmd variants /\
                 forall c f, ~ In (EvRun c (Some f)) (map fst t))).
    { intros tail Hct Htail Hwr t.
      destruct (Hnone tail Hct Htail) as [Hcmds Hno]. fold t in Hcmds, Hno.
      split; [| split; [| split; [| split]]].
      - exists (length variants). now rewrite firstn_all.
      - intros _. exact Hcmds.
      - intros c f Hin. now destruct (Hno c f).
      - now rewrite Hcmds.
      - intros p d e Hin. subst t. cbn [map fst In] in Hin.
        rewrite map_app, in_app_iff in Hin.
        destruct Hin as [E|[E|[Hin|Hin]]]; try discriminate E.
        + now destruct (no_write_event t3 p d e Hw).
        + destruct (Hwr p d e Hin) as [-> ->].
          split; [reflexivity | split; [reflexivity |]].
          split; [exact Hcmds | exact Hno]. }
    destruct (os_WriteFile _ _ w3) as [[e4|] w4].
    + destruct (os_RemoveAll outputDir w4) as [e5 w5].
      unfold trace_of. cbn [fst snd app]. apply Hall.
      * reflexivity.
      * intros c f [E|[E|[]]]; discriminate E.
      * intros p d e [E|[E|[]]]; [| discriminate E].
        injection E as <- <- _. now split.
    + unfold trace_of. cbn [fst snd app]. apply Hall.
      * reflexivity.
      * intros c f [E|[]]; discriminate E.
      * intros p d e [E|[]]. injection E as <- <- _. now split.
  - destruct Hs as (done & v & rest & f & t0 & -> & -> & Hc & Hf).
    destruct (os_RemoveAll outputDir w3) as [e5 w5].
    unfold trace_of. cbn [fst snd app].
    assert (Hcmds :
              commands_run
                ((EvRemoveAll outputDir e1, w1)
                 :: (EvMkdirAll outputDir e2, w2)
                 :: (t0 ++ [(EvRun (cmd v) (Some f), w3)])
                    ++ [(EvRemoveAll outputDir e5, w5)]) =
              map cmd done ++ [cmd v]).
    { cbn [commands_run]. rewrite commands_run_app, Hc, map_app.
      cbn. now rewrite app_nil_r. }
    rewrite Hcmds. split; [| split; [| split; [| split]]].
    + exists (length (done ++ [v])).
      rewrite (app_assoc done [v] rest : done ++ v :: rest = _).
      now rewrite firstn_app, firstn_all, Nat.sub_diag, app_nil_r, map_app.
    + intros Hno. destruct (Hno (cmd v) f). cbn [map fst In].
      rewrite !map_app, !in_app_iff. cbn [map fst In]. auto 10.
    + intros c f'. cbn [map fst In]. rewrite !map_app, !in_app_iff.
      cbn [map fst In].
      intros [E|[E|[[Hin|[E|[]]]|[E|[]]]]]; try discriminate E.
      * now destruct (not_failed_run t0 c f' Hf).
      * injection E as <- _. eauto.
    + now destruct done.
    + intros p d e. cbn [map fst In]. rewrite map_app, in_app_iff.
      cbn [map fst In].
      intros [E|[E|[Hin|[E|[]]]]]; try discriminate E.
      now destruct (no_write_event _ p d e Hw).
Qed.

(** ** One entry of one directory *)

Section Entries.

Implicit Types (p q pre : list string) (n : node) (c x : string).

Lemma walk_app p q n :
  walk (p ++ q) n =
  match walk p n with Ok n' => walk q n' | Err e => Err e end.
Proof.
  revert n. induction p as [|a p IH]; intros n; cbn; [reflexivity |].
  destruct n as [d|m]; [reflexivity |].
  destruct (m !! a); [apply IH | reflexivity].
Qed.

(** A change of the entry [x] of the directory at [pre], when the change is
    accepted: the directory has the new entry and is otherwise as before. *)
Lemma modify_entry_ok f missing c p n pre x (m : gmap string node) o :
  c :: p = pre ++ [x] ->
  walk pre n = Ok (Dir m) ->
  f (m !! x) = Ok o ->
  fst (modify f missing c p n) = None /\
  walk pre (snd (modify f missing c p n)) = Ok (Dir (set_entry x o m)).
Proof.
  revert c p n. induction pre as [|a pre IH]; intros c p n Hp Hw Hf.
  - cbn in Hp. injection Hp as -> ->. cbn in Hw. injection Hw as ->.
    cbn [modify]. rewrite Hf. now split.
  - cbn in Hp. injection Hp as -> ->.
    destruct n as [d|m0]; [discriminate |]. cbn in Hw.
    destruct (m0 !! a) as [n'|] eqn:Ea; [| discriminate].
    destruct (pre ++ [x]) as [|c' p'] eqn:Ep; [now destruct pre |].
    cbn [modify]. rewrite Ea.
    destruct (IH c' p' n' eq_refl Hw Hf) as [H1 H2].
    destruct (modify f missing c' p' n') as [e n'']. cbn [fst snd] in *.
    subst e. split; [reflexivity |]. cbn [walk].
    now rewrite lookup_insert_eq.
Qed.

(** The same when the change is refused: nothing happens. *)
Lemma modify_entry_err f missing c p n pre x (m : gmap string node) e :
  c :: p = pre ++ [x] ->
  walk pre n = Ok (Dir m) ->
  f (m !! x) = Err e ->
  modify f missing c p n = (Some e, n).
Proof.
  revert c p n. induction pre as [|a pre IH]; intros c p n Hp Hw Hf.
  - cbn in Hp. injection Hp as -> ->. cbn in Hw. injection Hw as ->.
    cbn [modify]. now rewrite Hf.
  - cbn in Hp. injection Hp as -> ->.
    destruct n as [d|m0]; [discriminate |]. cbn in Hw.
    destruct (m0 !! a) as [n'|] eqn:Ea; [| discriminate].
    destruct (pre ++ [x]) as [|c' p'] eqn:Ep; [now destruct pre |].
    cbn [modify]. rewrite Ea, (IH c' p' n' eq_refl Hw Hf).
    now rewrite insert_id.
Qed.

(** Without a directory at [pre] there is no entry to change. *)
Lemma modify_no_dir f (e0 : errno) c p n pre x :
  c :: p = pre ++ [x] ->
  (forall m, walk pre n <> Ok (Dir m)) ->
  exists e, modify f (Some e0) c p n = (Some e, n).
Proof.
  revert c p n. induction pre as [|a pre IH]; intros c p n Hp Hw.
  - cbn in Hp. injection Hp as -> ->.
    destruct n as [d|m]; [now eexists |]. now destruct (Hw m).
  - cbn in Hp. injection Hp as -> ->.
    destruct (pre ++ [x]) as [|c' p'] eqn:Ep; [now destruct pre |].
    destruct n as [d|m0]; [now eexists |]. cbn in Hw.
    cbn [modify].
    destruct (m0 !! a) as [n'|] eqn:Ea; [| now eexists].
    destruct (IH c' p' n' eq_refl Hw) as [e ->].
    exists e. now rewrite insert_id.
Qed.

End Entries.

(** ** Paths below the upload area *)

Section UploadPaths.

Lemma uploadPath_eq (f : string) :
  valid_name f = true -> filepath_Join [uploadDir; f] = "uploads/" +:+ f.
Proof.
  intros Hf. pose proof (valid_name_inv f Hf) as (_ & _ & _ & Hs).
  cbn. unfold filepath_Clean, clean_elems. cbn. rewrite Hs. cbn.
  now rewrite (clean_step_name _ _ Hf).
Qed.

Lemma resolve_uploadPath (f : string) :
  valid_name f = true -> resolve ("uploads/" +:+ f) = ["uploads"; f].
Proof.
  intros Hf. pose proof (valid_name_inv f Hf) as (_ & _ & _ & Hs).
  unfold resolve. cbn. rewrite Hs. cbn.
  now rewrite (resolve_step_name _ _ Hf).
Qed.

Lemma Stat_uploadPath (w : node) (f : string) :
  valid_name f = true ->
  os_Stat (filepath_Join [uploadDir; f]) w =
  match walk ["uploads"; f] w with
  | Ok n => Ok {| fi_IsDir := is_dir n |}
  | Err e => Err e
  end.
Proof.
  intros Hf. rewrite (uploadPath_eq f Hf). cbn [os_Stat node_fs].
  unfold node_Stat. now rewrite (resolve_uploadPath f Hf).
Qed.

Lemma all_bytes_and (p q : ascii -> bool) (s : string) :
  all_bytes p s = true -> all_bytes q s = true ->
  all_bytes (fun c => p c && q c) s = true.
Proof.
  induction s as [|c s IH]; cbn; [reflexivity |].
  intros [Hp Hps]%andb_true_iff [Hq Hqs]%andb_true_iff.
  now rewrite Hp, Hq, IH.
Qed.

(** The name under which an upload is stored is one path element, unless
    the client's file name holds a NUL byte. *)
Lemma stored_name_valid (now : Z) (n : N) (clientname : string) :
  all_bytes (fun c => negb (Ascii.eqb c "000")) clientname = true ->
  valid_name (video_id now n +:+ filepath_Ext clientname) = true.
Proof.
  intros Hnul.
  pose proof (video_id_valid now n) as Hid.
  pose proof (valid_name_no_sep _ Hid) as Hsep.
  unfold valid_name in *.
  repeat (apply andb_true_iff in Hid as [Hid ?]).
  assert (Hext : all_bytes (fun c => negb (is_sep c) && negb (Ascii.eqb c "000"))
                   (filepath_Ext clientname) = true).
  { apply all_bytes_and; [apply Ext_no_sep |].
    destruct (Ext_suffix clientname) as [stem Hstem].
    rewrite Hstem, all_bytes_append in Hnul.
    now apply andb_true_iff in Hnul as [_ Hnul]. }
  rewrite all_bytes_append, Hext, H, !andb_true_r.
  unfold video_id. reflexivity.
Qed.

End UploadPaths.

(** ** What the handlers do to the store *)

Section HandlerEffects.

Lemma POST_accepted : negb (String.eqb MethodPost MethodPost) = false.
Proof. reflexivity. Qed.

Lemma nonempty_eqb (s : string) : valid_name s = true -> String.eqb s "" = false.
Proof. intros Hs. now destruct (valid_name_inv s Hs) as (-> & _). Qed.

Lemma DeleteHLSHandler_valid (r : Request) (w : node) :
  Method r = MethodPost ->
  valid_name (FormValue (Form r) "id") = true ->
  DeleteHLSHandler r w =
  (Redirect "/" StatusSeeOther,
   snd (os_RemoveAll (filepath_Join [hlsDir; FormValue (Form r) "id"]) w)).
Proof.
  intros Hm Hid. unfold DeleteHLSHandler.
  rewrite Hm, POST_accepted, (nonempty_eqb _ Hid).
  now destruct (os_RemoveAll _ w).
Qed.

Lemma DeleteUploadHandler_valid (r : Request) (w : node) :
  Method r = MethodPost ->
  valid_name (FormValue (Form r) "filename") = true ->
  DeleteUploadHandler r w =
  (Redirect "/" StatusSeeOther,
   snd (os_Remove
          (filepath_Join [uploadDir; FormValue (Form r) "filename"]) w)).
Proof.
  intros Hm Hf. unfold DeleteUploadHandler.
  rewrite Hm, POST_accepted, (nonempty_eqb _ Hf).
  now destruct (os_Remove _ w).
Qed.

Lemma UploadHandler_checked {W : Type} `{FileSystem W}
    (now : Z) (r : Request) (file : FormFile) (w : W) (counter : N) :
  Method r = MethodPost ->
  FormFile_of (Files r) "video" = Some file ->
  let counter' := counter_Add counter 1 in
  let path :=
    filepath_Join [uploadDir;
                   video_id now counter' +:+ filepath_Ext (Filename file)] in
  UploadHandler now r (w, counter) =
  match os_Create path w with
  | (Some _, w1) =>
      (HttpError "Cannot save file" StatusInternalServerError, (w1, counter'))
  | (None, w1) =>
      match io_Copy path (Content file) w1 with
      | (Some _, w2) =>
          (HttpError "Save failed" StatusInternalServerError, (w2, counter'))
      | (None, w2) => (Redirect "/" StatusSeeOther, (w2, counter'))
      end
  end.
Proof.
  intros Hm Hfile counter' path. unfold UploadHandler.
  rewrite Hm, POST_accepted, Hfile. fold counter' path.
  destruct (os_Create path w) as [[e|] w1]; [reflexivity |].
  now destruct (io_Copy path (Content file) w1) as [[e|] w2].
Qed.

End HandlerEffects.

(** X6. Deleting the output of a job makes that job absent and touches
    nothing else.  After a POST with an id that is one path element, every
    other job has the status it had, and whatever stands at a path that
    parts ways with [hls/<id>], the uploads among them, is as before.  The
    caller is redirected to the page. *)
Theorem delete_job_effect (r : Request) (w : node) :
  Method r = MethodPost ->
  valid_name (FormValue (Form r) "id") = true ->
  let id := FormValue (Form r) "id" in
  let out := DeleteHLSHandler r w in
  fst out = Redirect "/" StatusSeeOther /\
  Status (snd out) id = JobAbsent /\
  (forall id', valid_name id' = true -> id' <> id ->
     Status (snd out) id' = Status w id') /\
  (forall q, diverges ["hls"; id] q = true ->
     walk q (snd out) = walk q w).
Proof.
  intros Hm Hid id out. subst out.
  rewrite (DeleteHLSHandler_valid r w Hm Hid). fold id. cbn [fst snd].
  assert (Hframe : forall q, diverges ["hls"; id] q = true ->
            walk q (snd (os_RemoveAll (filepath_Join [hlsDir; id]) w)) =
            walk q w).
  { intros q Hq. apply at_path_frame.
    now rewrite (outputDir_eq id Hid), (resolve_outputDir id Hid). }
  split; [reflexivity |]. split; [apply (removed_job_absent id w Hid) |].
  split; [| exact Hframe].
  intros id' Hid' Hne. apply (Status_frame _ _ _ Hid'), Hframe.
  apply diverges_jobs. congruence.
Qed.

(** Deleting the finished job of the sample store. *)
Lemma delete_job_effect_witness :
  let out := DeleteHLSHandler (post [("id", "done")]) sample_store in
  Status sample_store "done" = JobReady /\
  Status (snd out) "done" = JobAbsent /\
  Status (snd out) "busy" = JobProcessing /\
  walk ["uploads"; "clip.mp4"] (snd out) = Ok (File "bytes").
Proof.
  intros out.
  destruct (delete_job_effect (post [("id", "done")]) sample_store
              eq_refl eq_refl) as (_ & Ha & Hothers & Hframe).
  split; [reflexivity |]. split; [exact Ha |]. split.
  - apply (Hothers "busy" eq_refl). discriminate.
  - apply (Hframe ["uploads"; "clip.mp4"] eq_refl).
Defined.

(** X7. Deleting an upload removes a regular file of that name from the
    upload area and nothing else.  After a POST with a file name that is
    one path element, a directory of that name that is not empty stays,
    with the whole store, and in every case the jobs keep their status
    (the converted output of the upload is not deleted with it) and every
    path that parts ways with the upload is as before. *)
Theorem delete_upload_effect (r : Request) (w : node) :
  Method r = MethodPost ->
  valid_name (FormValue (Form r) "filename") = true ->
  let f := FormValue (Form r) "filename" in
  let out := DeleteUploadHandler r w in
  fst out = Redirect "/" StatusSeeOther /\
  (forall data, walk ["uploads"; f] w = Ok (File data) ->
     walk ["uploads"; f] (snd out) = Err ENOENT) /\
  (forall m, walk ["uploads"; f] w = Ok (Dir m) -> m <> ∅ ->
     snd out = w) /\
  (forall id, valid_name id = true -> Status (snd out) id = Status w id) /\
  (forall q, diverges ["uploads"; f] q = true ->
     walk q (snd out) = walk q w).
Proof.
  intros Hm Hf f out. subst out.
  rewrite (DeleteUploadHandler_valid r w Hm Hf). fold f. cbn [fst snd].
  assert (Hframe : forall q, diverges ["uploads"; f] q = true ->
            walk q (snd (os_Remove (filepath_Join [uploadDir; f]) w)) =
            walk q w).
  { intros q Hq. apply at_path_frame.
    now rewrite (uploadPath_eq f Hf), (resolve_uploadPath f Hf). }
  assert (Hrm : os_Remove (filepath_Join [uploadDir; f]) w =
                modify remove_entry (Some ENOENT) "uploads" [f] w).
  { cbn [os_Remove node_fs]. unfold node_Remove, at_path.
    now rewrite (uploadPath_eq f Hf), (resolve_uploadPath f Hf). }
  split; [reflexivity |]. split; [| split; [| split; [| exact Hframe]]].
  - intros data Hw.
    apply (walk_snoc ["uploads"] f) in Hw as (ups & Hups & Hfile).
    destruct (modify_entry_ok remove_entry (Some ENOENT) "uploads" [f] w
                ["uploads"] f ups None eq_refl Hups) as [_ Hd].
    { now rewrite Hfile. }
    rewrite Hrm.
    change ["uploads"; f] with (["uploads"] ++ [f]).
    rewrite walk_app, Hd. cbn [walk set_entry]. now rewrite lookup_delete_eq.
  - intros m Hw Hne.
    apply (walk_snoc ["uploads"] f) in Hw as (ups & Hups & Hdir).
    rewrite Hrm.
    rewrite (modify_entry_err remove_entry (Some ENOENT) "uploads" [f] w
               ["uploads"] f ups ENOTEMPTY eq_refl Hups); [reflexivity |].
    rewrite Hdir. cbn.
    destruct (map_to_list m) as [|kv l] eqn:El; [| reflexivity].
    now apply map_to_list_empty_iff in El.
  - intros id Hid. apply (Status_frame _ _ _ Hid), Hframe. reflexivity.
Qed.

(** Deleting the upload of the sample store. *)
Lemma delete_upload_effect_witness :
  let out :=
    DeleteUploadHandler (post [("filename", "clip.mp4")]) sample_store in
  walk ["uploads"; "clip.mp4"] (snd out) = Err ENOENT /\
  Status (snd out) "done" = JobReady.
Proof.
  intros out.
  destruct (delete_upload_effect (post [("filename", "clip.mp4")])
              sample_store eq_refl eq_refl) as (_ & Hfile & _ & Hjobs & _).
  split; [apply (Hfile "bytes" eq_refl) |].
  apply (Hjobs "done" eq_refl).
Defined.

(** What a successful upload does to the store. *)
Lemma UploadHandler_effect (now : Z) (r : Request) (file : FormFile)
    (w : node) (counter : N) :
  Method r = MethodPost ->
  FormFile_of (Files r) "video" = Some file ->
  all_bytes (fun c => negb (Ascii.eqb c "000")) (Filename file) = true ->
  let n := counter_Add counter 1 in
  let stored := video_id now n +:+ filepath_Ext (Filename file) in
  os_Stat uploadDir w = Ok {| fi_IsDir := true |} ->
  os_Stat (filepath_Join [uploadDir; stored]) w <>
    Ok {| fi_IsDir := true |} ->
  let out := UploadHandler now r (w, counter) in
  let w' := fst (snd out) in
  fst out = Redirect "/" StatusSeeOther /\
  snd (snd out) = n /\
  walk ["uploads"; stored] w' = Ok (File (Content file)) /\
  (forall id, valid_name id = true -> Status w' id = Status w id) /\
  (forall q, diverges ["uploads"; stored] q = true ->
     walk q w' = walk q w).
Proof.
  intros Hm Hfile Hnul n stored Hup Hnodir out w'. subst out w'.
  pose proof (stored_name_valid now n (Filename file) Hnul) as Hst.
  fold stored in Hst.
  rewrite (UploadHandler_checked now r file w counter Hm Hfile).
  cbv zeta. fold n stored.
  rewrite (Stat_uploadPath w stored Hst) in Hnodir.
  rewrite (uploadPath_eq stored Hst).
  cbn [os_Create io_Copy os_Stat node_fs] in *.
  unfold node_WriteFile, at_path. rewrite (resolve_uploadPath stored Hst).
  unfold node_Stat in Hup.
  change (resolve uploadDir) with ["uploads"] in Hup.
  destruct (walk ["uploads"] w) as [[d|ups]|e] eqn:Hups; try discriminate Hup.
  clear Hup.
  assert (Hfree : forall m, ups !! stored <> Some (Dir m)).
  { intros m Hm'. apply Hnodir.
    change ["uploads"; stored] with (["uploads"] ++ [stored]).
    rewrite walk_app, Hups. cbn [walk]. now rewrite Hm'. }
  destruct (modify_entry_ok (write_entry "") (Some ENOENT) "uploads" [stored]
              w ["uploads"] stored ups (Some (File "")) eq_refl Hups)
    as [Hc1 Hw1].
  { destruct (ups !! stored) as [[d|m]|]; try reflexivity.
    now destruct (Hfree m). }
  pose proof (modify_frame (write_entry "") (Some ENOENT) "uploads" [stored] w)
    as Hf1.
  destruct (modify (write_entry "") (Some ENOENT) "uploads" [stored] w)
    as [e1 w1].
  cbn [fst snd] in *. subst e1.
  destruct (modify_entry_ok (write_entry (Content file)) (Some ENOENT)
              "uploads" [stored] w1 ["uploads"] stored _
              (Some (File (Content file))) eq_refl Hw1)
    as [Hc2 Hw2].
  { cbn [set_entry]. now rewrite lookup_insert_eq. }
  pose proof (modify_frame (write_entry (Content file)) (Some ENOENT)
                "uploads" [stored] w1) as Hf2.
  destruct (modify (write_entry (Content file)) (Some ENOENT) "uploads"
              [stored] w1) as [e2 w2].
  cbn [fst snd] in *. subst e2.
  assert (Hframe : forall q, diverges ["uploads"; stored] q = true ->
            walk q w2 = walk q w).
  { intros q Hq. now rewrite (Hf2 q Hq), (Hf1 q Hq). }
  cbn [fst snd].
  split; [reflexivity |]. split; [reflexivity |].
  split; [| split; [| exact Hframe]].
  - change ["uploads"; stored] with (["uploads"] ++ [stored]).
    rewrite walk_app, Hw2. cbn [walk set_entry]. now rewrite lookup_insert_eq.
  - intros id Hid. apply (Status_frame _ _ _ Hid), Hframe. reflexivity.
Qed.

(** X8. An upload is stored and nothing more.  With the upload area in
    place, no directory in the way, no NUL byte in the client's file name
    and a stored name (identifier and extension) no longer than the file
    system accepts, the handler redirects to the page, the counter has
    advanced by one, the file stands in the upload area under the new
    identifier followed by the extension of the client's file name and
    holds the bytes sent, no job is created or changed (no conversion is
    started), and every path that parts ways with the new file is as
    before. *)
Theorem upload_is_stored (now : Z) (r : Request) (file : FormFile)
    (w : node) (counter : N) :
  Method r = MethodPost ->
  FormFile_of (Files r) "video" = Some file ->
  all_bytes (fun c => negb (Ascii.eqb c "000")) (Filename file) = true ->
  let n := counter_Add counter 1 in
  let stored := video_id now n +:+ filepath_Ext (Filename file) in
  (String.length stored <= NAME_MAX)%nat ->
  os_Stat uploadDir w = Ok {| fi_IsDir := true |} ->
  os_Stat (filepath_Join [uploadDir; stored]) w <>
    Ok {| fi_IsDir := true |} ->
  let out := UploadHandler now r (w, counter) in
  let w' := fst (snd out) in
  fst out = Redirect "/" StatusSeeOther /\
  snd (snd out) = n /\
  walk ["uploads"; stored] w' = Ok (File (Content file)) /\
  (forall id, valid_name id = true -> Status w' id = Status w id) /\
  (forall q, diverges ["uploads"; stored] q = true ->
     walk q w' = walk q w).
Proof.
  intros Hm Hfile Hnul n stored _.
  exact (UploadHandler_effect now r file w counter Hm Hfile Hnul).
Qed.

(** A first upload to the sample store. *)
Lemma upload_is_stored_witness :
  let out := UploadHandler 1700000000000000000 (upload "cat.mp4" "meow")
               (sample_store, 0%N) in
  fst out = Redirect "/" StatusSeeOther /\
  snd (snd out) = 1%N /\
  walk ["uploads"; "video_1700000000000000000_1.mp4"] (fst (snd out)) =
    Ok (File "meow") /\
  Status (fst (snd out)) "video_1700000000000000000_1" = JobAbsent.
Proof.
  intros out.
  destruct (upload_is_stored 1700000000000000000 (upload "cat.mp4" "meow")
              {| Filename := "cat.mp4"; Content := "meow" |}
              sample_store 0%N eq_refl eq_refl eq_refl)
    as (Hr & Hn & Hfile & Hjobs & _).
  { vm_compute. lia. }
  { reflexivity. }
  { vm_compute. discriminate. }
  split; [exact Hr |]. split; [exact Hn |]. split; [exact Hfile |].
  apply (Hjobs "video_1700000000000000000_1" eq_refl).
Defined.

(** X9. An upload that cannot be saved uses up an identifier all the same.
    When the upload area is missing or is not a directory, or a directory
    stands where the file would go, the handler answers with status 500,
    the store is as it was, and the counter has advanced. *)
Theorem failed_upload_consumes_id (now : Z) (r : Request) (file : FormFile)
    (w : node) (counter : N) :
  Method r = MethodPost ->
  FormFile_of (Files r) "video" = Some file ->
  all_bytes (fun c => negb (Ascii.eqb c "000")) (Filename file) = true ->
  let n := counter_Add counter 1 in
  let stored := video_id now n +:+ filepath_Ext (Filename file) in
  os_Stat uploadDir w <> Ok {| fi_IsDir := true |} \/
  os_Stat (filepath_Join [uploadDir; stored]) w = Ok {| fi_IsDir := true |} ->
  UploadHandler now r (w, counter) =
  (HttpError "Cannot save file" StatusInternalServerError, (w, n)).
Proof.
  intros Hm Hfile Hnul n stored Hcase.
  pose proof (stored_name_valid now n (Filename file) Hnul) as Hst.
  fold stored in Hst.
  rewrite (UploadHandler_checked now r file w counter Hm Hfile).
  cbv zeta. fold n stored.
  rewrite (Stat_uploadPath w stored Hst) in Hcase.
  rewrite (uploadPath_eq stored Hst).
  cbn [os_Create io_Copy os_Stat node_fs] in *.
  unfold node_WriteFile, at_path. rewrite (resolve_uploadPath stored Hst).
  unfold node_Stat in Hcase.
  change (resolve uploadDir) with ["uploads"] in Hcase.
  assert (Hfail : exists e,
            modify (write_entry "") (Some ENOENT) "uploads" [stored] w =
            (Some e, w)).
  { destruct (walk ["uploads"] w) as [[d|ups]|e] eqn:Hups.
    - apply (modify_no_dir _ _ _ _ _ ["uploads"] stored eq_refl).
      intros m. now rewrite Hups.
    - destruct Hcase as [Hcase|Hcase]; [now destruct Hcase |].
      change ["uploads"; stored] with (["uploads"] ++ [stored]) in Hcase.
      rewrite walk_app, Hups in Hcase. cbn [walk] in Hcase.
      destruct (ups !! stored) as [[d|m]|] eqn:Es; try discriminate Hcase.
      exists EISDIR.
      apply (modify_entry_err _ _ _ _ _ ["uploads"] stored ups EISDIR
               eq_refl Hups).
      now rewrite Es.
    - apply (modify_no_dir _ _ _ _ _ ["uploads"] stored eq_refl).
      intros m. now rewrite Hups. }
  destruct Hfail as [e ->]. reflexivity.
Qed.

(** An upload to a store without an upload area. *)
Lemma failed_upload_consumes_id_witness :
  UploadHandler 1700000000000000000 (upload "cat.mp4" "meow")
    (dir_of [], 7%N) =
  (HttpError "Cannot save file" StatusInternalServerError, (dir_of [], 8%N)).
Proof.
  apply (failed_upload_consumes_id 1700000000000000000
           (upload "cat.mp4" "meow")
           {| Filename := "cat.mp4"; Content := "meow" |}
           (dir_of []) 7%N eq_refl eq_refl eq_refl).
  left. vm_compute. discriminate.
Defined.

(** ** Start-up *)

Section StartUp.

(** [mkdir -p] of one name in a directory where no regular file has that
    name. *)
Lemma mkdir_all_entry (c : string) (root : gmap string node) :
  is_file (root !! c) = false ->
  mkdir_all [c] (Dir root) =
  (None, Dir (<[c := default (Dir ∅) (root !! c)]> root)).
Proof.
  cbn [mkdir_all]. now destruct (root !! c) as [[d|m]|].
Qed.

Lemma init_eq (root : gmap string node) :
  is_file (root !! "uploads") = false ->
  is_file (root !! "hls") = false ->
  init (Dir root) =
  Dir (<["hls" := default (Dir ∅) (root !! "hls")]>
         (<["uploads" := default (Dir ∅) (root !! "uploads")]> root)).
Proof.
  intros Hu Hh. unfold init. cbn [os_MkdirAll node_fs]. unfold node_MkdirAll.
  change (resolve uploadDir) with ["uploads"].
  change (resolve hlsDir) with ["hls"].
  rewrite (mkdir_all_entry "uploads" root Hu).
  rewrite mkdir_all_entry by now rewrite lookup_insert_ne.
  now rewrite lookup_insert_ne.
Qed.

Lemma default_dir (o : option node) :
  is_file o = false -> is_dir (default (Dir ∅) o) = true.
Proof. now destruct o as [[d|m]|]. Qed.

End StartUp.

(** X10. Start-up prepares the two roots and harms nothing.  In a working
    directory where neither [uploads] nor [hls] is a regular file, after
    [init] both are directories; whatever was in the working directory
    before is there unchanged; nothing was created except the two
    directories, empty, where they were missing; and a second start-up
    changes nothing. *)
Theorem init_prepares_roots (root : gmap string node) :
  is_file (root !! "uploads") = false ->
  is_file (root !! "hls") = false ->
  let w' := init (Dir root) in
  os_Stat uploadDir w' = Ok {| fi_IsDir := true |} /\
  os_Stat hlsDir w' = Ok {| fi_IsDir := true |} /\
  (forall c q x, walk (c :: q) (Dir root) = Ok x ->
     walk (c :: q) w' = Ok x) /\
  (forall c q x, walk (c :: q) w' = Ok x ->
     walk (c :: q) (Dir root) = Ok x \/
     (c = "uploads" \/ c = "hls") /\ q = [] /\ x = Dir ∅) /\
  init w' = w'.
Proof.
  intros Hu Hh w'. subst w'. rewrite (init_eq root Hu Hh).
  set (u := default (Dir ∅) (root !! "uploads")).
  set (h := default (Dir ∅) (root !! "hls")).
  pose proof (default_dir _ Hu) as Hud. pose proof (default_dir _ Hh) as Hhd.
  fold u in Hud. fold h in Hhd.
  split; [| split; [| split; [| split]]].
  - cbn [os_Stat node_fs]. unfold node_Stat.
    change (resolve uploadDir) with ["uploads"]. cbn [walk].
    rewrite lookup_insert_ne by discriminate.
    rewrite lookup_insert_eq. now rewrite Hud.
  - cbn [os_Stat node_fs]. unfold node_Stat.
    change (resolve hlsDir) with ["hls"]. cbn [walk].
    rewrite lookup_insert_eq. now rewrite Hhd.
  - intros c q x. cbn [walk].
    destruct (root !! c) as [n|] eqn:Ec; [| discriminate]. intros Hw.
    destruct (String.eqb_spec c "hls") as [->|Hne1].
    { rewrite lookup_insert_eq. subst h. now rewrite Ec. }
    rewrite lookup_insert_ne by congruence.
    destruct (String.eqb_spec c "uploads") as [->|Hne2].
    { rewrite lookup_insert_eq. subst u. now rewrite Ec. }
    rewrite lookup_insert_ne by congruence. now rewrite Ec.
  - intros c q x. cbn [walk].
    destruct (String.eqb_spec c "hls") as [->|Hne1].
    { rewrite lookup_insert_eq. subst h.
      destruct (root !! "hls") as [n|]; [now left |]. cbn [default].
      destruct q as [|c' q]; cbn; [| discriminate].
      intros [= <-]. right. auto. }
    rewrite lookup_insert_ne by congruence.
    destruct (String.eqb_spec c "uploads") as [->|Hne2].
    { rewrite lookup_insert_eq. subst u.
      destruct (root !! "uploads") as [n|]; [now left |]. cbn [default].
      destruct q as [|c' q]; cbn; [| discriminate].
      intros [= <-]. right. auto. }
    rewrite lookup_insert_ne by congruence. now left.
  - rewrite init_eq.
    + rewrite lookup_insert_eq.
      rewrite lookup_insert_ne by discriminate.
      rewrite lookup_insert_eq. cbn [default].
      rewrite insert_insert_ne by discriminate.
      rewrite insert_insert_eq.
      rewrite insert_insert_ne by discriminate.
      now rewrite insert_insert_eq.
    + rewrite lookup_insert_ne by discriminate.
      rewrite lookup_insert_eq. now destruct u.
    + rewrite lookup_insert_eq. now destruct h.
Qed.

(** Start-up in an empty working directory, and in the sample store. *)
Lemma init_prepares_roots_witness :
  (os_Stat uploadDir (init (Dir ∅)) = Ok {| fi_IsDir := true |} /\
   os_Stat hlsDir (init (Dir ∅)) = Ok {| fi_IsDir := true |}) /\
  walk ["hls"; "done"; "master.m3u8"] (init sample_store) =
    Ok (File "#EXTM3U").
Proof.
  split.
  - destruct (init_prepares_roots ∅) as (Hu & Hh & _);
      [now rewrite lookup_empty | now rewrite lookup_empty |].
    now split.
  - destruct (init_prepares_roots
                (list_to_map
                   [("uploads", dir_of [("clip.mp4", File "bytes")]);
                    ("hls", dir_of [
                       ("done", dir_of [("master.m3u8", File "#EXTM3U")]);
                       ("busy", dir_of [("stream_360p.m3u8", File "")]);
                       ("note.txt", File "")])]))
      as (_ & _ & Hkeep & _); [reflexivity | reflexivity |].
    apply (Hkeep "hls" ["done"; "master.m3u8"]). reflexivity.
Defined.

(** ** The page *)

Section PageContents.

Context {W : Type} `{FileSystem W}.

Lemma In_scan (w : W) (es : list DirEntry) (v : Video) :
  In v (scan w es) <->
  exists e, In e es /\ de_IsDir e = true /\ v = probe w (de_Name e).
Proof.
  induction es as [|e es IH]; cbn [scan In].
  - split; [contradiction | now intros (e & [] & _)].
  - destruct (de_IsDir e) eqn:Ed; cbn [In]; rewrite IH; split.
    + intros [<-|(e' & Hin & Hd & ->)]; eauto 6.
    + intros (e' & [<-|Hin] & Hd & ->); eauto 6.
    + intros (e' & Hin & Hd & ->); eauto 6.
    + intros (e' & [<-|Hin] & Hd & ->); [congruence | eauto 6].
Qed.

Lemma scan_IDs (w : W) (es : list DirEntry) :
  map ID (scan w es) = map de_Name (List.filter de_IsDir es).
Proof.
  induction es as [|e es IH]; cbn; [reflexivity |].
  destruct (de_IsDir e); cbn; now rewrite IH.
Qed.

Lemma In_unconverted (ids : gset string) (uploads : list DirEntry)
    (f : string) :
  In {| Name := f |} (unconverted ids uploads) <->
  exists e, In e uploads /\ de_Name e = f /\ de_IsDir e = false /\
            strings_TrimSuffix f (filepath_Ext f) ∉ ids.
Proof.
  induction uploads as [|e es IH]; cbn [unconverted In].
  - split; [contradiction | now intros (e & [] & _)].
  - destruct (de_IsDir e) eqn:Ed; cbn [negb].
    + rewrite IH. split.
      * intros (e' & Hin & Hrest); eauto.
      * intros (e' & [<-|Hin] & Hn & Hd & Hrest); [congruence | eauto 6].
    + cbv zeta.
      destruct (bool_decide_reflect
                  (strings_TrimSuffix (de_Name e) (filepath_Ext (de_Name e))
                   ∈ ids)) as [Hin|Hout]; cbn [In]; rewrite IH; split.
      * intros (e' & Hin' & Hrest); eauto.
      * intros (e' & [<-|Hin'] & <- & Hd & Hrest);
          [contradiction | eauto 6].
      * intros [[= <-]|(e' & Hin' & Hrest)]; eauto 6.
      * intros (e' & [<-|Hin'] & <- & Hd & Hrest); [now left | eauto 7].
Qed.

End PageContents.

(** X11. What the page shows.  The videos are the directories under the
    output root, in the order [os.ReadDir] gives them, files there are
    passed over; each video is ready exactly when [os.Stat] of its manifest
    path reports no error, and is shown as processing exactly when it is
    not ready; the page polls ([HasProcessing]) exactly when some video is
    processing; and an entry of the upload area is offered for conversion
    exactly when it is not a directory and no video has the id that its
    name gives. *)
Theorem page_contents {W : Type} `{FileSystem W}
    (r : Request) (w : W) (d : TemplateData) :
  RootHandler r w = Page d ->
  map ID (Videos d) =
    map de_Name (List.filter de_IsDir (ReadDir_ hlsDir w)) /\
  (forall v, In v (Videos d) ->
     Processing v = negb (Ready v) /\
     (Ready v = true <->
      err_of (os_Stat (filepath_Join [hlsDir; ID v; "master.m3u8"]) w)
      = None)) /\
  (HasProcessing d = true <->
   exists v, In v (Videos d) /\ Processing v = true) /\
  (forall f, In {| Name := f |} (UploadedFiles d) <->
     exists e, In e (ReadDir_ uploadDir w) /\ de_Name e = f /\
               de_IsDir e = false /\
               ~ In (strings_TrimSuffix f (filepath_Ext f))
                    (map ID (Videos d))).
Proof.
  unfold RootHandler. destruct (negb _); [discriminate |].
  cbv zeta. intros [= <-]. cbn [Videos UploadedFiles HasProcessing].
  assert (Hprobe : forall v, In v (list_videos w) ->
            Processing v = negb (Ready v) /\
            (Ready v = true <->
             err_of (os_Stat (filepath_Join [hlsDir; ID v; "master.m3u8"]) w)
             = None)).
  { intros v (e & _ & _ & ->)%In_scan. unfold probe.
    cbn [Processing Ready ID]. split; [reflexivity |].
    now destruct (err_of _). }
  split; [unfold list_videos; apply scan_IDs |].
  split; [exact Hprobe |]. split.
  - rewrite existsb_exists. split.
    + intros (v & Hin & Hv). exists v. split; [exact Hin |].
      now rewrite (proj1 (Hprobe v Hin)).
    + intros (v & Hin & Hv). exists v. split; [exact Hin |].
      now rewrite <- (proj1 (Hprobe v Hin)).
  - intros f. rewrite In_unconverted.
    setoid_rewrite elem_of_list_to_set.
    now setoid_rewrite list_elem_of_In.
Qed.

(** The page of the sample store. *)
Lemma page_contents_witness :
  let d :=
    {| Videos := [ {| ID := "busy"; Ready := false; Processing := true |};
                   {| ID := "done"; Ready := true; Processing := false |} ];
       UploadedFiles := [ {| Name := "clip.mp4" |} ];
       HasProcessing := true |} in
  RootHandler {| Method := "GET"; URL_Path := "/"; Form := []; Files := [] |}
    sample_store = Page d /\
  map ID (Videos d) =
    map de_Name (List.filter de_IsDir (ReadDir_ hlsDir sample_store)) /\
  (HasProcessing d = true <->
   exists v, In v (Videos d) /\ Processing v = true).
Proof.
  intros d.
  assert (Hpage : RootHandler
                    {| Method := "GET"; URL_Path := "/"; Form := [];
                       Files := [] |} sample_store = Page d)
    by (vm_compute; reflexivity).
  destruct (page_contents _ sample_store d Hpage) as (Hids & _ & Hpoll & _).
  split; [exact Hpage |]. split; assumption.
Defined.

(** ** The page and the reconvert handler *)

Section Offered.

Lemma In_ReadDir_uploads (w : node) (e : DirEntry) :
  In e (ReadDir_ uploadDir w) <->
  exists ups n,
    walk ["uploads"] w = Ok (Dir ups) /\
    ups !! de_Name e = Some n /\ de_IsDir e = is_dir n.
Proof.
  unfold ReadDir_. cbn [os_ReadDir node_fs]. unfold node_ReadDir.
  change (resolve uploadDir) with ["uploads"].
  destruct (walk ["uploads"] w) as [[d|ups]|e'].
  - split; [contradiction | now intros (? & ? & [=] & _)].
  - rewrite In_dir_entries. split.
    + intros (n & Hn & Hd). eauto.
    + intros (? & n & [= <-] & Hn & Hd). eauto.
  - split; [contradiction | now intros (? & ? & [=] & _)].
Qed.

Lemma not_listed_absent {W : Type} `{FileSystem W} (w : W) (id : string) :
  ~ In id (map ID (list_videos w)) -> Status w id = JobAbsent.
Proof.
  intros Hout. unfold Status.
  destruct (find _ (list_videos w)) as [v|] eqn:Ef; [| reflexivity].
  apply find_some in Ef as [Hin Hv]. apply String.eqb_eq in Hv.
  destruct Hout. rewrite <- Hv. now apply in_map.
Qed.

End Offered.

(** X12. The page and the reconvert handler do not always agree.  For an
    upload that the page offers for conversion, the job is absent and a
    reconvert request redirects to the page; it starts the conversion
    exactly when nothing stands at [hls/<id>].  When a regular file stands
    there, or the output root is itself a file, nothing is started and the
    page goes on offering the upload. *)
Theorem offered_upload_reconverts (r : Request) (w : node)
    (d : TemplateData) (f : string) :
  RootHandler r w = Page d ->
  In {| Name := f |} (UploadedFiles d) ->
  valid_name f = true ->
  valid_name (strings_TrimSuffix f (filepath_Ext f)) = true ->
  let id := strings_TrimSuffix f (filepath_Ext f) in
  Status w id = JobAbsent /\
  ReconvertHandler (post [("uploaded_file", f)]) w =
  (Redirect "/" StatusSeeOther,
   match walk ["hls"; id] w with
   | Err ENOENT => Some (filepath_Join [uploadDir; f], id)
   | _ => None
   end).
Proof.
  intros Hpage Hoff Hf Hid id.
  unfold RootHandler in Hpage. destruct (negb _); [discriminate |].
  cbv zeta in Hpage. injection Hpage as <-. cbn [UploadedFiles] in Hoff.
  apply In_unconverted in Hoff as (e & Hin & <- & Hd & Hout).
  rewrite elem_of_list_to_set, list_elem_of_In in Hout. fold id in Hout.
  pose proof (not_listed_absent w id Hout) as Habs.
  split; [exact Habs |].
  apply In_ReadDir_uploads in Hin as (ups & n & Hups & Hn & Hdn).
  rewrite Hd in Hdn. destruct n as [data|m]; [| discriminate].
  rewrite ReconvertHandler_checked;
    [| reflexivity | cbn; intros E; now rewrite E in Hf].
  cbv zeta. cbn [post Form FormValue String.eqb Ascii.eqb Bool.eqb].
  fold id. rewrite (Stat_outputDir w id Hid), (Stat_uploadPath w _ Hf).
  assert (Hfile : walk ["uploads"; de_Name e] w = Ok (File data)).
  { change ["uploads"; de_Name e] with (["uploads"] ++ [de_Name e]).
    rewrite walk_app, Hups. cbn [walk]. now rewrite Hn. }
  rewrite Hfile. cbn [err_of os_IsNotExist].
  now destruct (walk ["hls"; id] w) as [[dd|m]|[]].
Qed.

(** The upload of the sample store is converted on request; in a store
    where a file has taken the place of its job directory it is offered
    and never converted. *)
Lemma offered_upload_reconverts_witness :
  ReconvertHandler (post [("uploaded_file", "clip.mp4")]) sample_store =
    (Redirect "/" StatusSeeOther, Some ("uploads/clip.mp4", "clip")) /\
  ReconvertHandler (post [("uploaded_file", "clip.mp4")]) stray_store =
    (Redirect "/" StatusSeeOther, None).
Proof.
  assert (Hpage : RootHandler (post []) sample_store =
                  Page {| Videos :=
                            [ {| ID := "busy"; Ready := false;
                                 Processing := true |};
                              {| ID := "done"; Ready := true;
                                 Processing := false |} ];
                          UploadedFiles := [ {| Name := "clip.mp4" |} ];
                          HasProcessing := true |})
    by (vm_compute; reflexivity).
  assert (Hstray : RootHandler (post []) stray_store =
                   Page {| Videos := [];
                           UploadedFiles := [ {| Name := "clip.mp4" |} ];
                           HasProcessing := false |})
    by (vm_compute; reflexivity).
  split.
  - exact (proj2 (offered_upload_reconverts (post []) sample_store _
                    "clip.mp4" Hpage (or_introl eq_refl) eq_refl eq_refl)).
  - exact (proj2 (offered_upload_reconverts (post []) stray_store _
                    "clip.mp4" Hstray (or_introl eq_refl) eq_refl eq_refl)).
Defined.

(** ** Trying again *)

Section Retry.

Context {W : Type} `{FileSystem W}.

(** A run in which a call failed ends with the removal of its directory. *)
Lemma failed_run_final (run : Runner W) (variants : list variant)
    (inputPath id : string) (w : W) :
  let r := ConvertToHLS run variants inputPath id w in
  existsb failed (map fst (trace_of r)) = true ->
  exists w', final_state r = snd (os_RemoveAll (filepath_Join [hlsDir; id]) w').
Proof.
  cbv zeta. rewrite ConvertToHLS_eq. cbv zeta.
  destruct (os_RemoveAll (filepath_Join [hlsDir; id]) w) as [e1 w1].
  destruct (os_MkdirAll (filepath_Join [hlsDir; id]) w1) as [e2 w2].
  pose proof (encode_variants_spec run inputPath (filepath_Join [hlsDir; id])
                variants w2) as Hs.
  cbv zeta in Hs.
  destruct (encode_variants run inputPath (filepath_Join [hlsDir; id])
              variants w2) as [[ok w3] t3].
  destruct Hs as [_ Hs]. destruct ok.
  - destruct Hs as [_ Hf].
    destruct (os_WriteFile _ _ w3) as [[e4|] w4].
    + destruct (os_RemoveAll (filepath_Join [hlsDir; id]) w4) as [e5 w5] eqn:E.
      intros _. exists w4. now rewrite E.
    + unfold trace_of. cbn [fst snd app map existsb failed].
      rewrite map_app, existsb_app, Hf. discriminate.
  - destruct (os_RemoveAll (filepath_Join [hlsDir; id]) w3) as [e5 w5] eqn:E.
    intros _. exists w3. now rewrite E.
Qed.

End Retry.

(** X13. A failed run can be tried again, as the clean-up intends.  After
    a run in which a call failed, for an id that is one path element, if
    the output root is still a directory and the upload is still in place,
    a reconvert request for the upload starts a new conversion of the same
    file under the same id. *)
Theorem failed_run_allows_retry (run : Runner node)
    (variants : list variant) (f : string) (w : node) :
  f <> "" ->
  valid_name (strings_TrimSuffix f (filepath_Ext f)) = true ->
  let id := strings_TrimSuffix f (filepath_Ext f) in
  let inputPath := filepath_Join [uploadDir; f] in
  let r := ConvertToHLS run variants inputPath id w in
  existsb failed (map fst (trace_of r)) = true ->
  os_Stat hlsDir (final_state r) = Ok {| fi_IsDir := true |} ->
  os_Stat inputPath (final_state r) <> Err ENOENT ->
  ReconvertHandler (post [("uploaded_file", f)]) (final_state r) =
  (Redirect "/" StatusSeeOther, Some (inputPath, id)).
Proof.
  intros Hf Hid id inputPath r Hfail Hroot Hin.
  destruct (failed_run_final run variants inputPath id w Hfail)
    as [w' Hfinal].
  fold r in Hfinal. rewrite Hfinal in *. clear Hfinal.
  set (wf := snd (os_RemoveAll (filepath_Join [hlsDir; id]) w')) in *.
  rewrite ReconvertHandler_checked; [| reflexivity | exact Hf].
  cbv zeta. cbn [post Form FormValue String.eqb Ascii.eqb Bool.eqb].
  fold id inputPath.
  assert (Hgone : os_Stat (filepath_Join [hlsDir; id]) wf = Err ENOENT).
  { rewrite (Stat_outputDir wf id Hid).
    destruct (root_is_dir wf Hroot) as (root & jobs & Ew & Eh).
    destruct (removed_job_absent id w' Hid) as [_ [e He]].
    fold wf in He. rewrite (Stat_outputDir wf id Hid) in He.
    rewrite Ew in *. cbn [walk] in *. rewrite Eh in *.
    destruct (jobs !! id); [discriminate He | reflexivity]. }
  rewrite Hgone. cbn [err_of os_IsNotExist negb].
  destruct (os_Stat inputPath wf) as [fi|[]]; try reflexivity.
  now destruct Hin.
Qed.

(** The sample upload after a run in which the third variant failed. *)
Lemma failed_run_allows_retry_witness :
  ReconvertHandler (post [("uploaded_file", "clip.mp4")])
    (final_state
       (ConvertToHLS (mock_ffmpeg ["stream_720p.m3u8"]) HLS_VARIANTS
          "uploads/clip.mp4" "clip" sample_store)) =
  (Redirect "/" StatusSeeOther, Some ("uploads/clip.mp4", "clip")).
Proof.
  apply (failed_run_allows_retry (mock_ffmpeg ["stream_720p.m3u8"])
           HLS_VARIANTS "clip.mp4" sample_store).
  - discriminate.
  - reflexivity.
  - reflexivity.
  - reflexivity.
  - vm_compute. discriminate.
Defined.

(** ** Joining in one step or in two *)

Section JoinTwice.

Implicit Types (s t p x : string) (out elems : list string).

Let sep_free s : bool := all_bytes (fun c => negb (is_sep c)) s.

Lemma split_sep_nonempty s : split_sep s <> [].
Proof.
  destruct s as [|c s]; cbn; [discriminate |].
  destruct (is_sep c); [discriminate |]. now destruct (split_sep s).
Qed.

Lemma split_sep_append s t :
  split_sep (s +:+ String "/" t) = split_sep s ++ split_sep t.
Proof.
  induction s as [|c s IH]; cbn; [reflexivity |].
  destruct (is_sep c); rewrite IH; [reflexivity |].
  pose proof (split_sep_nonempty s). now destruct (split_sep s).
Qed.

Lemma split_sep_free s : forallb sep_free (split_sep s) = true.
Proof.
  induction s as [|c s IH]; cbn; [reflexivity |].
  destruct (is_sep c) eqn:Ec; cbn; [exact IH |].
  destruct (split_sep s) as [|w ws]; cbn in *; [now rewrite Ec |].
  now rewrite Ec.
Qed.

(** Splitting what [strings.Join] joined gives the elements back. *)
Lemma split_sep_Join elems :
  elems <> [] -> forallb sep_free elems = true ->
  split_sep (strings_Join elems "/") = elems.
Proof.
  induction elems as [|e elems IH]; [contradiction |]. intros _ Hfree.
  cbn in Hfree. apply andb_true_iff in Hfree as [He Hrest].
  destruct elems as [|e' elems].
  - cbn. now apply split_sep_name.
  - change (strings_Join (e :: e' :: elems) "/")
      with (e +:+ String "/" (strings_Join (e' :: elems) "/")).
    rewrite (split_sep_app _ _ He). f_equal. now apply IH.
Qed.

Lemma dotdots_clean out :
  forallb (String.eqb "..") out = true -> clean_stack out = true.
Proof.
  induction out as [|e out IH]; [reflexivity |]. cbn [forallb clean_stack].
  intros [He Hout]%andb_true_iff.
  apply String.eqb_eq in He as <-. exact Hout.
Qed.

Lemma clean_stack_tail e out :
  clean_stack (e :: out) = true -> clean_stack out = true.
Proof.
  cbn. destruct (String.eqb e "..").
  - apply dotdots_clean.
  - now intros [_ H]%andb_true_iff.
Qed.

Lemma clean_step_stack out e :
  clean_stack out = true -> clean_stack (clean_step out e) = true.
Proof.
  intros Hout. unfold clean_step.
  destruct (String.eqb e "") eqn:E1; [exact Hout |].
  destruct (String.eqb e ".") eqn:E2; [exact Hout |]. cbn [orb].
  destruct (String.eqb e "..") eqn:E3.
  - destruct out as [|prev out]; [reflexivity |].
    destruct (String.eqb prev "..") eqn:Ep.
    + apply String.eqb_eq in Ep as ->. cbn in *. exact Hout.
    + now apply clean_stack_tail in Hout.
  - cbn. now rewrite E1, E2, E3, Hout.
Qed.

Lemma clean_step_free out e :
  forallb sep_free out = true -> sep_free e = true ->
  forallb sep_free (clean_step out e) = true.
Proof.
  intros Hout He. unfold clean_step.
  destruct (_ || _); [exact Hout |].
  destruct (String.eqb e "..").
  - destruct out as [|prev out]; [reflexivity |].
    destruct (String.eqb prev ".."); cbn; [exact Hout |].
    cbn in Hout. now apply andb_true_iff in Hout as [_ Hout].
  - cbn. now rewrite He, Hout.
Qed.

Lemma fold_clean_invariant elems out :
  clean_stack out = true -> forallb sep_free out = true ->
  forallb sep_free elems = true ->
  clean_stack (fold_left clean_step elems out) = true /\
  forallb sep_free (fold_left clean_step elems out) = true.
Proof.
  revert out. induction elems as [|e elems IH]; intros out Hc Hf He; cbn.
  - now split.
  - cbn in He. apply andb_true_iff in He as [He Hes].
    apply IH; [now apply clean_step_stack | now apply clean_step_free |
               exact Hes].
Qed.

(** The loop of [Clean] passes over an output of its own unchanged. *)
Lemma fold_clean_stack out :
  clean_stack out = true -> fold_left clean_step (rev out) [] = out.
Proof.
  induction out as [|e out IH]; [reflexivity |]. intros Hc.
  cbn [rev]. rewrite fold_left_app. cbn [fold_left].
  rewrite (IH (clean_stack_tail _ _ Hc)).
  unfold clean_step. cbn [clean_stack] in Hc.
  destruct (String.eqb e "..") eqn:E3.
  - apply String.eqb_eq in E3 as ->. cbn.
    destruct out as [|prev out]; [reflexivity |].
    cbn [forallb] in Hc. apply andb_true_iff in Hc as [Hp _].
    apply String.eqb_eq in Hp as <-. reflexivity.
  - apply andb_true_iff in Hc as [[E1 E2]%andb_true_iff _].
    apply negb_true_iff in E1, E2. now rewrite E1, E2.
Qed.

(** The loop of [Clean] ends in the same state on a path and on the
    cleaned path. *)
Lemma fold_clean_Clean p :
  fold_left clean_step (split_sep (filepath_Clean p)) [] =
  fold_left clean_step (split_sep p) [].
Proof.
  destruct (fold_clean_invariant (split_sep p) [] eq_refl eq_refl
              (split_sep_free p)) as [Hc Hf].
  unfold filepath_Clean, clean_elems.
  set (st := fold_left clean_step (split_sep p) []) in *.
  destruct (rev st) as [|e es] eqn:Er.
  - apply (f_equal (@rev _)) in Er. rewrite rev_involutive in Er.
    now rewrite Er.
  - rewrite split_sep_Join; [| discriminate |].
    + rewrite <- Er. now apply fold_clean_stack.
    + rewrite <- Er. now rewrite forallb_rev.
Qed.

(** [Clean] of a cleaned path followed by more elements is [Clean] of the
    path followed by them. *)
Lemma Clean_Clean_append p x :
  filepath_Clean (filepath_Clean p +:+ String "/" x) =
  filepath_Clean (p +:+ String "/" x).
Proof.
  assert (E : clean_elems (split_sep (filepath_Clean p +:+ String "/" x)) =
              clean_elems (split_sep (p +:+ String "/" x))).
  { unfold clean_elems. f_equal.
    rewrite (split_sep_append p x), (split_sep_append (filepath_Clean p) x).
    rewrite !fold_left_app. f_equal. apply fold_clean_Clean. }
  unfold filepath_Clean at 1 3. now rewrite E.
Qed.

Lemma Clean_nonempty p : filepath_Clean p <> "".
Proof.
  unfold filepath_Clean, clean_elems.
  destruct (fold_clean_invariant (split_sep p) [] eq_refl eq_refl
              (split_sep_free p)) as [Hc _].
  set (st := fold_left clean_step (split_sep p) []) in *.
  destruct (rev st) as [|e es] eqn:Er; [discriminate |].
  assert (Hin : In e st).
  { apply in_rev. rewrite Er. now left. }
  assert (He : e <> "").
  { clear Er. induction st as [|a st IH]; [contradiction |].
    destruct Hin as [->|Hin].
    - cbn in Hc. destruct (String.eqb_spec e ".."); [now subst |].
      apply andb_true_iff in Hc as [[E1 _]%andb_true_iff _].
      apply negb_true_iff in E1. now apply String.eqb_neq.
    - apply IH; [now apply clean_stack_tail in Hc | exact Hin]. }
  destruct es as [|e' es]; cbn; [exact He |].
  destruct e; [contradiction | discriminate].
Qed.

End JoinTwice.

(** X14. The converter and the page name the same files.  The converter
    joins the directory of the job first and a file name to that; the page
    joins root, id and file name in one step.  Both give the same path, for
    every id and every file name, whatever bytes they hold. *)
Theorem join_in_two_steps (id x : string) :
  filepath_Join [filepath_Join [hlsDir; id]; x] =
  filepath_Join [hlsDir; id; x] /\
  filepath_Join [filepath_Join [uploadDir; id]; x] =
  filepath_Join [uploadDir; id; x].
Proof.
  assert (Hgen : forall root, root <> "" ->
            filepath_Join [filepath_Join [root; id]; x] =
            filepath_Join [root; id; x]).
  { intros root Hroot. apply String.eqb_neq in Hroot.
    cbn [filepath_Join]. rewrite Hroot.
    change (strings_Join [root; id] "/") with (root +:+ String "/" id).
    change (strings_Join [root; id; x] "/")
      with (root +:+ String "/" (id +:+ String "/" x)).
    pose proof (Clean_nonempty (root +:+ String "/" id)) as Hne.
    apply String.eqb_neq in Hne. rewrite Hne.
    change (strings_Join [filepath_Clean (root +:+ String "/" id); x] "/")
      with (filepath_Clean (root +:+ String "/" id) +:+ String "/" x).
    rewrite Clean_Clean_append. f_equal.
    apply (append_assoc root (String "/" id) (String "/" x)). }
  split; apply Hgen; discriminate.
Qed.

(** ** From upload to ready *)

Section Composition.

Lemma listed_not_absent {W : Type} `{FileSystem W} (w : W) (id : string) :
  In id (map ID (list_videos w)) -> Status w id <> JobAbsent.
Proof.
  intros Hin. unfold Status.
  destruct (find _ (list_videos w)) as [v|] eqn:Ef.
  - now destruct (Ready v).
  - apply in_map_iff in Hin as (v & <- & Hv).
    pose proof (find_none _ _ Ef v Hv) as Hn. cbn in Hn.
    now rewrite String.eqb_refl in Hn.
Qed.

(** An upload is offered when it is a regular file of the upload area and
    its id is not the name of a directory under the output root. *)
Lemma offered (w : node) (f data : string) (r : Request) (d : TemplateData) :
  walk ["uploads"; f] w = Ok (File data) ->
  ~ In (strings_TrimSuffix f (filepath_Ext f)) (map ID (list_videos w)) ->
  RootHandler r w = Page d ->
  In {| Name := f |} (UploadedFiles d).
Proof.
  intros Hfile Hout Hpage.
  unfold RootHandler in Hpage. destruct (negb _); [discriminate |].
  cbv zeta in Hpage. injection Hpage as <-. cbn [UploadedFiles].
  apply In_unconverted. exists {| de_Name := f; de_IsDir := false |}.
  split; [| split; [reflexivity | split; [reflexivity |]]].
  - apply In_ReadDir_uploads. cbn [de_Name de_IsDir].
    apply (walk_snoc ["uploads"] f) in Hfile as (ups & Hups & Hf).
    exists ups, (File data). now split.
  - now rewrite elem_of_list_to_set, list_elem_of_In.
Qed.

(** It is not offered when its id is listed. *)
Lemma not_offered {W : Type} `{FileSystem W} (w : W) (f : string)
    (r : Request) (d : TemplateData) :
  In (strings_TrimSuffix f (filepath_Ext f)) (map ID (list_videos w)) ->
  RootHandler r w = Page d ->
  ~ In {| Name := f |} (UploadedFiles d).
Proof.
  intros Hlisted Hpage.
  unfold RootHandler in Hpage. destruct (negb _); [discriminate |].
  cbv zeta in Hpage. injection Hpage as <-. cbn [UploadedFiles].
  intros (e & _ & _ & _ & Hout)%In_unconverted. apply Hout.
  now rewrite elem_of_list_to_set, list_elem_of_In.
Qed.

Lemma listed_dec {W : Type} `{FileSystem W} (w : W) (id : string) :
  In id (map ID (list_videos w)) \/ ~ In id (map ID (list_videos w)).
Proof.
  destruct (in_dec String.string_dec id (map ID (list_videos w))); auto.
Qed.

Lemma counter_Add_changes (a : N) :
  (a < 2 ^ 64)%N -> counter_Add a 1 <> a.
Proof.
  unfold counter_Add. intros Ha.
  destruct (N.lt_ge_cases (a + 1) (2 ^ 64)) as [Hlt|Hge].
  - rewrite N.mod_small by exact Hlt. lia.
  - assert (E : (a + 1 = 2 ^ 64)%N) by lia.
    rewrite E, N.Div0.mod_same.
    change (2 ^ 64)%N with 18446744073709551616%N in E. lia.
Qed.

Lemma diverges_siblings (dir a b : string) :
  a <> b -> diverges [dir; a] [dir; b] = true.
Proof.
  intros Hne. cbn [diverges]. rewrite String.eqb_refl.
  now destruct (String.eqb_spec a b).
Qed.

Lemma FormValue_post (key v : string) :
  FormValue (Form (post [(key, v)])) key = v.
Proof. cbn [post Form FormValue]. now rewrite String.eqb_refl. Qed.

Lemma counter_Add_bound (a : N) : (counter_Add a 1 < 2 ^ 64)%N.
Proof. unfold counter_Add. now apply N.mod_lt. Qed.

End Composition.

(** X15. From upload to ready.  After a successful upload (upload area
    in place, no directory in the way, no NUL byte in the client's file
    name, a stored name no longer than the file system accepts) whose id
    has nothing at its place under the output root, the
    page offers the stored file for conversion; a reconvert request for it
    starts the conversion of exactly that file under exactly the id the
    upload drew; and when that conversion runs without a failed call the
    job is ready and the page no longer offers the file. *)
Theorem upload_convert_ready (now : Z) (r : Request) (file : FormFile)
    (w : node) (counter : N) (run : Runner node) (variants : list variant) :
  Method r = MethodPost ->
  FormFile_of (Files r) "video" = Some file ->
  all_bytes (fun c => negb (Ascii.eqb c "000")) (Filename file) = true ->
  let id := video_id now (counter_Add counter 1) in
  let f := id +:+ filepath_Ext (Filename file) in
  let inputPath := filepath_Join [uploadDir; f] in
  (String.length f <= NAME_MAX)%nat ->
  os_Stat uploadDir w = Ok {| fi_IsDir := true |} ->
  os_Stat inputPath w <> Ok {| fi_IsDir := true |} ->
  os_Stat (filepath_Join [hlsDir; id]) w = Err ENOENT ->
  let w1 := fst (snd (UploadHandler now r (w, counter))) in
  let conv := ConvertToHLS run variants inputPath id w1 in
  (forall r0 d, RootHandler r0 w1 = Page d ->
     In {| Name := f |} (UploadedFiles d)) /\
  ReconvertHandler (post [("uploaded_file", f)]) w1 =
    (Redirect "/" StatusSeeOther, Some (inputPath, id)) /\
  (existsb failed (map fst (trace_of conv)) = false ->
   Status (final_state conv) id = JobReady /\
   forall r0 d, RootHandler r0 (final_state conv) = Page d ->
     ~ In {| Name := f |} (UploadedFiles d)).
Proof.
  intros Hm Hfile Hnul id f inputPath _ Hup Hnodir Hgone w1 conv.
  destruct (UploadHandler_effect now r file w counter Hm Hfile Hnul Hup
              Hnodir) as (_ & _ & Hstored & _ & Hframe).
  fold id f w1 in Hstored, Hframe.
  pose proof (video_id_valid now (counter_Add counter 1)) as Hid.
  fold id in Hid.
  pose proof (stored_name_valid now (counter_Add counter 1) (Filename file)
                Hnul) as Hf.
  fold id f in Hf.
  destruct (stored_name_round_trip now (counter_Add counter 1)
              (Filename file)) as [_ Hsplit].
  fold id f in Hsplit.
  assert (Hgone1 : walk ["hls"; id] w1 = Err ENOENT).
  { rewrite (Hframe ["hls"; id] eq_refl).
    rewrite (Stat_outputDir w id Hid) in Hgone.
    now destruct (walk ["hls"; id] w) as [n|[]]. }
  assert (Habs : Status w1 id = JobAbsent).
  { now rewrite (Status_tree w1 id Hid), Hgone1. }
  split; [| split].
  - intros r0 d. apply (offered w1 f (Content file)); [exact Hstored |].
    rewrite Hsplit. intros Hin. now apply listed_not_absent in Hin.
  - rewrite ReconvertHandler_checked;
      [| reflexivity
       | rewrite FormValue_post; intros E; now rewrite E in Hf].
    cbv zeta. rewrite !FormValue_post, Hsplit. fold inputPath.
    rewrite (Stat_outputDir w1 id Hid), Hgone1.
    unfold inputPath. rewrite (Stat_uploadPath w1 f Hf), Hstored.
    reflexivity.
  - intros Hok.
    pose proof (ConvertToHLS_ending run variants inputPath id w1 Hid) as He.
    cbv zeta in He. fold conv in He. rewrite Hok in He.
    destruct He as [Hready _]. split; [exact Hready |].
    intros r0 d. apply not_offered. rewrite Hsplit.
    destruct (listed_dec (final_state conv) id) as [Hin|Hout];
      [exact Hin |].
    apply not_listed_absent in Hout. congruence.
Qed.

(** An upload to the sample store, converted by the stand-in transcoder. *)
Lemma upload_convert_ready_witness :
  let w1 := fst (snd (UploadHandler 1700000000000000000
                        (upload "cat.mp4" "meow") (sample_store, 0%N))) in
  ReconvertHandler
    (post [("uploaded_file", "video_1700000000000000000_1.mp4")]) w1 =
    (Redirect "/" StatusSeeOther,
     Some ("uploads/video_1700000000000000000_1.mp4",
           "video_1700000000000000000_1")) /\
  Status
    (final_state
       (ConvertToHLS (mock_ffmpeg []) HLS_VARIANTS
          "uploads/video_1700000000000000000_1.mp4"
          "video_1700000000000000000_1" w1))
    "video_1700000000000000000_1" = JobReady.
Proof.
  intros w1.
  destruct (upload_convert_ready 1700000000000000000
              (upload "cat.mp4" "meow")
              {| Filename := "cat.mp4"; Content := "meow" |}
              sample_store 0%N (mock_ffmpeg []) HLS_VARIANTS
              eq_refl eq_refl eq_refl)
    as (_ & Hre & Hconv).
  { vm_compute. lia. }
  { reflexivity. }
  { vm_compute. discriminate. }
  { vm_compute. reflexivity. }
  split; [exact Hre |].
  apply Hconv. vm_compute. reflexivity.
Defined.

(** X16. Uploads do not overwrite one another.  With the upload area in
    place, no directory in the way, no NUL byte in the clients' file names
    and stored names no longer than the file system accepts, two uploads
    in a row are stored under different names, whatever the clock reads,
    and after the second both files are in the upload area with the bytes
    sent. *)
Theorem uploads_do_not_overwrite (now1 now2 : Z) (r1 r2 : Request)
    (file1 file2 : FormFile) (w : node) (counter : N) :
  Method r1 = MethodPost ->
  FormFile_of (Files r1) "video" = Some file1 ->
  all_bytes (fun c => negb (Ascii.eqb c "000")) (Filename file1) = true ->
  Method r2 = MethodPost ->
  FormFile_of (Files r2) "video" = Some file2 ->
  all_bytes (fun c => negb (Ascii.eqb c "000")) (Filename file2) = true ->
  let n1 := counter_Add counter 1 in
  let n2 := counter_Add n1 1 in
  let f1 := video_id now1 n1 +:+ filepath_Ext (Filename file1) in
  let f2 := video_id now2 n2 +:+ filepath_Ext (Filename file2) in
  (String.length f1 <= NAME_MAX)%nat ->
  (String.length f2 <= NAME_MAX)%nat ->
  os_Stat uploadDir w = Ok {| fi_IsDir := true |} ->
  os_Stat (filepath_Join [uploadDir; f1]) w <> Ok {| fi_IsDir := true |} ->
  os_Stat (filepath_Join [uploadDir; f2]) w <> Ok {| fi_IsDir := true |} ->
  let st1 := snd (UploadHandler now1 r1 (w, counter)) in
  let st2 := snd (UploadHandler now2 r2 st1) in
  f1 <> f2 /\
  snd st2 = n2 /\
  walk ["uploads"; f1] (fst st2) = Ok (File (Content file1)) /\
  walk ["uploads"; f2] (fst st2) = Ok (File (Content file2)).
Proof.
  intros Hm1 Hfile1 Hnul1 Hm2 Hfile2 Hnul2 n1 n2 f1 f2 _ _ Hup Hfree1
    Hfree2 st1 st2.
  assert (Hne : f1 <> f2).
  { intros E.
    destruct (stored_name_round_trip now1 n1 (Filename file1)) as [_ H1].
    destruct (stored_name_round_trip now2 n2 (Filename file2)) as [_ H2].
    fold f1 in H1. fold f2 in H2. rewrite E, H2 in H1.
    apply video_id_inj in H1 as [_ Hn].
    apply (counter_Add_changes n1 (counter_Add_bound counter)).
    now symmetry. }
  pose proof (stored_name_valid now1 n1 (Filename file1) Hnul1) as Hv1.
  pose proof (stored_name_valid now2 n2 (Filename file2) Hnul2) as Hv2.
  fold f1 in Hv1. fold f2 in Hv2.
  destruct (UploadHandler_effect now1 r1 file1 w counter Hm1 Hfile1 Hnul1 Hup
              Hfree1) as (_ & Hn1 & Hs1 & _ & Hframe1).
  fold n1 f1 st1 in Hn1, Hs1, Hframe1.
  destruct st1 as [w1 c1] eqn:Est1. cbn [fst snd] in Hn1, Hs1, Hframe1.
  subst c1.
  assert (Hup1 : os_Stat uploadDir w1 = Ok {| fi_IsDir := true |}).
  { cbn [os_Stat node_fs]. unfold node_Stat.
    change (resolve uploadDir) with ["uploads"].
    apply (walk_snoc ["uploads"] f1) in Hs1 as (ups & -> & _). reflexivity. }
  assert (Hd12 : diverges ["uploads"; f1] ["uploads"; f2] = true).
  { now apply diverges_siblings. }
  assert (Hd21 : diverges ["uploads"; f2] ["uploads"; f1] = true).
  { apply diverges_siblings. congruence. }
  assert (Hfree2' : os_Stat (filepath_Join [uploadDir; f2]) w1 <>
                    Ok {| fi_IsDir := true |}).
  { rewrite (Stat_uploadPath w1 f2 Hv2), (Hframe1 _ Hd12).
    now rewrite <- (Stat_uploadPath w f2 Hv2). }
  destruct (UploadHandler_effect now2 r2 file2 w1 n1 Hm2 Hfile2 Hnul2 Hup1
              Hfree2') as (_ & Hn2 & Hs2 & _ & Hframe2).
  fold n2 f2 st2 in Hn2, Hs2, Hframe2.
  split; [exact Hne |]. split; [exact Hn2 |]. split; [| exact Hs2].
  now rewrite (Hframe2 _ Hd21).
Qed.

(** Two uploads of the same file at the same clock reading. *)
Lemma uploads_do_not_overwrite_witness :
  let st1 := snd (UploadHandler 1700000000000000000
                    (upload "cat.mp4" "meow") (sample_store, 0%N)) in
  let st2 := snd (UploadHandler 1700000000000000000
                    (upload "cat.mp4" "purr") st1) in
  walk ["uploads"; "video_1700000000000000000_1.mp4"] (fst st2) =
    Ok (File "meow") /\
  walk ["uploads"; "video_1700000000000000000_2.mp4"] (fst st2) =
    Ok (File "purr").
Proof.
  intros st1 st2.
  destruct (uploads_do_not_overwrite
              1700000000000000000 1700000000000000000
              (upload "cat.mp4" "meow") (upload "cat.mp4" "purr")
              {| Filename := "cat.mp4"; Content := "meow" |}
              {| Filename := "cat.mp4"; Content := "purr" |}
              sample_store 0%N
              eq_refl eq_refl eq_refl eq_refl eq_refl eq_refl)
    as (_ & _ & H1 & H2).
  { vm_compute. lia. }
  { vm_compute. lia. }
  { reflexivity. }
  { vm_compute. discriminate. }
  { vm_compute. discriminate. }
  split; [exact H1 | exact H2].
Defined.

(** The page when the listing of the output root gave an error. *)
Lemma page_without_listing {W : Type} `{FileSystem W}
    (r : Request) (w : W) (d : TemplateData) (e : errno) :
  RootHandler r w = Page d ->
  os_ReadDir hlsDir w = Err e ->
  Videos d = [] /\
  HasProcessing d = false /\
  map Name (UploadedFiles d) =
    map de_Name
      (List.filter (fun f => negb (de_IsDir f)) (ReadDir_ uploadDir w)).
Proof.
  unfold RootHandler. destruct (negb _); [discriminate |].
  cbv zeta. intros [= <-] Herr. cbn [Videos UploadedFiles HasProcessing].
  unfold list_videos, ReadDir_ at 1 2 3. rewrite Herr.
  cbn [scan map existsb].
  split; [reflexivity |]. split; [reflexivity |].
  induction (ReadDir_ uploadDir w) as [|f fs IH]; [reflexivity |].
  cbn [unconverted List.filter]. destruct (de_IsDir f); cbn [negb].
  - exact IH.
  - cbv zeta. rewrite bool_decide_eq_false_2 by apply not_elem_of_empty.
    cbn [map Name]. now rewrite IH.
Qed.

(** X17. Without an output root the page comes up all the same.  When the
    output root is missing or is not a directory, the page shows no video
    and does not poll, and it offers exactly the regular files of the
    upload area, each of them, converted before or not: the error of
    [os.ReadDir] is dropped. *)
Theorem unreadable_root_page (r : Request) (w : node) (d : TemplateData) :
  RootHandler r w = Page d ->
  os_Stat hlsDir w <> Ok {| fi_IsDir := true |} ->
  Videos d = [] /\
  HasProcessing d = false /\
  (forall f, In {| Name := f |} (UploadedFiles d) <->
     exists data, walk ["uploads"; f] w = Ok (File data)).
Proof.
  intros Hpage Hroot.
  assert (Herr : exists e, os_ReadDir hlsDir w = Err e).
  { cbn [os_ReadDir os_Stat node_fs] in *. unfold node_ReadDir, node_Stat in *.
    destruct (walk (resolve hlsDir) w) as [[data|m]|e]; eauto.
    now destruct Hroot. }
  destruct Herr as [e Herr].
  destruct (page_without_listing r w d e Hpage Herr) as (Hv & Hp & Hup).
  split; [exact Hv |]. split; [exact Hp |].
  intros f. transitivity (In f (map Name (UploadedFiles d))).
  { rewrite in_map_iff. split.
    - intros Hin. now exists {| Name := f |}.
    - intros ([f'] & <- & Hin). exact Hin. }
  rewrite Hup, in_map_iff. split.
  - intros (en & <- & [Hin Hd]%filter_In).
    apply In_ReadDir_uploads in Hin as (ups & n & Hups & Hn & Hdn).
    apply negb_true_iff in Hd. rewrite Hd in Hdn.
    destruct n as [data|m]; [| discriminate]. exists data.
    apply (walk_snoc ["uploads"]). eauto.
  - intros [data (ups & Hups & Hn)%(walk_snoc ["uploads"])].
    exists {| de_Name := f; de_IsDir := false |}.
    split; [reflexivity |]. apply filter_In. split; [| reflexivity].
    apply In_ReadDir_uploads. exists ups, (File data). now split.
Qed.

(** The page of a store whose output root is a regular file. *)
Lemma unreadable_root_page_witness :
  let w := dir_of [("uploads", dir_of [("clip.mp4", File "bytes")]);
                   ("hls", File "")] in
  let d := {| Videos := [];
              UploadedFiles := [ {| Name := "clip.mp4" |} ];
              HasProcessing := false |} in
  RootHandler (post []) w = Page d /\
  (In {| Name := "clip.mp4" |} (UploadedFiles d) <->
   exists data, walk ["uploads"; "clip.mp4"] w = Ok (File data)).
Proof.
  intros w d.
  assert (Hpage : RootHandler (post []) w = Page d)
    by (vm_compute; reflexivity).
  destruct (unreadable_root_page (post []) w d Hpage) as (_ & _ & Hup).
  { vm_compute. discriminate. }
  split; [exact Hpage | exact (Hup "clip.mp4")].
Defined.

(** X18. Deleting the output of a job puts its upload back on offer.  If
    the upload whose name gives the id is still in the upload area, the
    page after the deletion offers it for conversion and lists no video
    of that id. *)
Theorem deleted_job_offered_again (r : Request) (w : node)
    (f data : string) :
  Method r = MethodPost ->
  valid_name (FormValue (Form r) "id") = true ->
  strings_TrimSuffix f (filepath_Ext f) = FormValue (Form r) "id" ->
  walk ["uploads"; f] w = Ok (File data) ->
  forall r0 d,
    RootHandler r0 (snd (DeleteHLSHandler r w)) = Page d ->
    In {| Name := f |} (UploadedFiles d) /\
    ~ In (FormValue (Form r) "id") (map ID (Videos d)).
Proof.
  intros Hm Hid Hsplit Hfile r0 d Hpage.
  rewrite (DeleteHLSHandler_valid r w Hm Hid) in Hpage. cbn [snd] in Hpage.
  set (id := FormValue (Form r) "id") in *.
  set (w' := snd (os_RemoveAll (filepath_Join [hlsDir; id]) w)) in *.
  destruct (removed_job_absent id w Hid) as [Habs _]. fold w' in Habs.
  assert (Hout : ~ In id (map ID (list_videos w'))).
  { intros Hin. now apply listed_not_absent in Hin. }
  assert (Hfile' : walk ["uploads"; f] w' = Ok (File data)).
  { rewrite <- Hfile. apply at_path_frame.
    now rewrite (outputDir_eq id Hid), (resolve_outputDir id Hid). }
  split.
  - apply (offered w' f data r0 d Hfile'); [| exact Hpage].
    now rewrite Hsplit.
  - unfold RootHandler in Hpage. destruct (negb _); [discriminate |].
    cbv zeta in Hpage. injection Hpage as <-. exact Hout.
Qed.

(** The finished job of a store that still holds its upload. *)
Lemma deleted_job_offered_again_witness :
  let w := dir_of [("uploads", dir_of [("done.mp4", File "bytes")]);
                   ("hls", dir_of [
                      ("done", dir_of [("master.m3u8", File "#EXTM3U")])])]
  in
  let d := {| Videos := [];
              UploadedFiles := [ {| Name := "done.mp4" |} ];
              HasProcessing := false |} in
  RootHandler (post []) (snd (DeleteHLSHandler (post [("id", "done")]) w)) =
    Page d /\
  In {| Name := "done.mp4" |} (UploadedFiles d).
Proof.
  intros w d.
  assert (Hpage : RootHandler (post [])
                    (snd (DeleteHLSHandler (post [("id", "done")]) w)) =
                  Page d) by (vm_compute; reflexivity).
  split; [exact Hpage |].
  apply (deleted_job_offered_again (post [("id", "done")]) w "done.mp4"
           "bytes" eq_refl eq_refl eq_refl eq_refl (post []) d Hpage).
Defined.

(** ** Where the transcoder writes *)

Section CommandOutputs.

Let path_byte (c : ascii) : bool :=
  negb (is_sep c) && negb (Ascii.eqb c "000").

Lemma long_name_valid (s : string) :
  (2 < String.length s)%nat ->
  all_bytes path_byte s = true ->
  valid_name s = true.
Proof.
  intros Hlen Hbytes. unfold valid_name. fold path_byte. rewrite Hbytes.
  assert (Hne : forall t, (String.length t <= 2)%nat -> String.eqb s t = false).
  { intros t Ht. apply String.eqb_neq. intros ->. lia. }
  rewrite !Hne by (cbn; lia). reflexivity.
Qed.

Lemma streamName_valid (v : variant) :
  all_bytes path_byte (name v) = true -> valid_name (streamName v) = true.
Proof.
  intros Hn. apply long_name_valid.
  - unfold streamName. rewrite !length_append. cbn. lia.
  - unfold streamName. rewrite !all_bytes_append, Hn. reflexivity.
Qed.

Lemma segment_pattern_valid (v : variant) :
  all_bytes path_byte (name v) = true ->
  valid_name (name v +:+ "_segment_%03d.ts") = true.
Proof.
  intros Hn. apply long_name_valid.
  - rewrite length_append. cbn. lia.
  - rewrite all_bytes_append, Hn. reflexivity.
Qed.

(** A file of a job: the path that [filepath.Join] gives for it, resolved. *)
Lemma resolve_job_file (id x : string) :
  valid_name id = true -> valid_name x = true ->
  resolve (filepath_Join [filepath_Join [hlsDir; id]; x]) = ["hls"; id; x].
Proof.
  intros Hid Hx. pose proof (valid_name_no_sep id Hid) as Hs.
  pose proof (valid_name_inv x Hx) as (_ & _ & _ & Hsx).
  rewrite (outputDir_eq id Hid).
  assert (E : filepath_Join ["hls/" +:+ id; x] =
              "hls/" +:+ id +:+ String "/" x).
  { cbn. unfold filepath_Clean, clean_elems. cbn.
    rewrite (split_sep_app _ _ Hs), Hsx. cbn.
    now rewrite (clean_step_name _ _ Hid), (clean_step_name _ _ Hx). }
  rewrite E. unfold resolve. cbn.
  rewrite (split_sep_app _ _ Hs), Hsx. cbn.
  now rewrite (resolve_step_name _ _ Hid), (resolve_step_name _ _ Hx).
Qed.

End CommandOutputs.

(** X19. The manifest names what the transcoder was told to write.  For a
    valid job id and variants whose fields hold no line feed, every variant
    whose name is free of separators and NUL bytes has its sub-playlist
    named on a line of the manifest, and the command for that variant
    reads the given input and puts that sub-playlist and its segments in
    the directory of the job, next to the manifest. *)
Theorem manifest_names_written_playlists (variants : list variant)
    (inputPath id : string) (v : variant) :
  valid_name id = true ->
  forallb plain_variant variants = true ->
  In v variants ->
  all_bytes (fun c => negb (is_sep c) && negb (Ascii.eqb c "000")) (name v)
    = true ->
  let outputDir := filepath_Join [hlsDir; id] in
  In (streamName v) (lines (masterContent variants)) /\
  resolve (filepath_Join [outputDir; "master.m3u8"]) =
    ["hls"; id; "master.m3u8"] /\
  exists options segments playlist,
    ffmpeg_cmd inputPath outputDir v =
      exec_Command "ffmpeg"
        (["-i"; inputPath] ++ options ++
         ["-hls_segment_filename"; segments; playlist]) /\
    resolve playlist = ["hls"; id; streamName v] /\
    resolve segments = ["hls"; id; name v +:+ "_segment_%03d.ts"].
Proof.
  intros Hid Hplain Hv Hname outputDir. split; [| split].
  - rewrite (lines_masterContent variants Hplain).
    apply in_or_app. right. apply in_flat_map. exists v.
    split; [exact Hv | right; now left].
  - now apply resolve_job_file.
  - unfold ffmpeg_cmd, segmentPattern.
    exists ["-vf"; "scale=" +:+ width v +:+ ":" +:+ height v;
            "-c:v"; "libx264"; "-preset"; "veryfast";
            "-b:v"; vbitrate v; "-maxrate"; vbitrate v; "-bufsize"; "2M";
            "-g"; "30"; "-c:a"; "aac"; "-b:a"; "128k"; "-hls_time"; "10";
            "-hls_playlist_type"; "vod"],
      (filepath_Join [outputDir; name v +:+ "_segment_%03d.ts"]),
      (filepath_Join [outputDir; streamName v]).
    split; [reflexivity |]. split.
    + apply resolve_job_file; [exact Hid | now apply streamName_valid].
    + apply resolve_job_file; [exact Hid | now apply segment_pattern_valid].
Qed.

(** The second of the four variants, for the job [clip]. *)
Lemma manifest_names_written_playlists_witness :
  In "stream_540p.m3u8" (lines (masterContent HLS_VARIANTS)) /\
  List.last
    (cmd_args (ffmpeg_cmd "uploads/clip.mp4" (filepath_Join [hlsDir; "clip"])
                 {| name := "540p"; height := "540"; vbitrate := "1800k";
                    width := "960" |})) "" = "hls/clip/stream_540p.m3u8".
Proof.
  destruct (manifest_names_written_playlists HLS_VARIANTS "uploads/clip.mp4"
              "clip"
              {| name := "540p"; height := "540"; vbitrate := "1800k";
                 width := "960" |}
              eq_refl eq_refl (or_intror (or_introl eq_refl)) eq_refl)
    as (Hline & _).
  split; [exact Hline | reflexivity].
Defined.

(** X20. The reconvert handler only asks whether the upload exists.  With
    nothing at the place of the job, a request for a valid file name, no
    longer than the file system accepts, is answered with 404 exactly when
    nothing stands at the upload path.  A
    directory there is accepted as the input of a conversion, and so is a
    path below an upload area that is a regular file, where the check
    fails with another error than does-not-exist. *)
Theorem reconvert_input_check (f : string) (w : node) :
  valid_name f = true ->
  (String.length f <= NAME_MAX)%nat ->
  valid_name (strings_TrimSuffix f (filepath_Ext f)) = true ->
  let id := strings_TrimSuffix f (filepath_Ext f) in
  let inputPath := filepath_Join [uploadDir; f] in
  walk ["hls"; id] w = Err ENOENT ->
  ReconvertHandler (post [("uploaded_file", f)]) w =
  match walk ["uploads"; f] w with
  | Err ENOENT => (HttpError "File not found" StatusNotFound, None)
  | _ => (Redirect "/" StatusSeeOther, Some (inputPath, id))
  end.
Proof.
  intros Hf _ Hid id inputPath Hgone.
  rewrite ReconvertHandler_checked;
    [| reflexivity
     | rewrite FormValue_post; intros E; now rewrite E in Hf].
  cbv zeta. rewrite !FormValue_post. fold id inputPath.
  rewrite (Stat_outputDir w id Hid), Hgone.
  unfold inputPath. rewrite (Stat_uploadPath w f Hf).
  now destruct (walk ["uploads"; f] w) as [n|[]].
Qed.

(** A missing upload, a directory in the upload area, and an upload area
    that is a file. *)
Lemma reconvert_input_check_witness :
  ReconvertHandler (post [("uploaded_file", "gone.mp4")]) sample_store =
    (HttpError "File not found" StatusNotFound, None) /\
  ReconvertHandler (post [("uploaded_file", "c.mp4")])
    (dir_of [("uploads", dir_of [("c.mp4", dir_of [])])]) =
    (Redirect "/" StatusSeeOther, Some ("uploads/c.mp4", "c")) /\
  ReconvertHandler (post [("uploaded_file", "c.mp4")])
    (dir_of [("uploads", File "")]) =
    (Redirect "/" StatusSeeOther, Some ("uploads/c.mp4", "c")).
Proof.
  split; [| split].
  - apply (reconvert_input_check "gone.mp4" sample_store eq_refl);
      [vm_compute; lia | reflexivity | reflexivity].
  - apply (reconvert_input_check "c.mp4"
             (dir_of [("uploads", dir_of [("c.mp4", dir_of [])])]) eq_refl);
      [vm_compute; lia | reflexivity | reflexivity].
  - apply (reconvert_input_check "c.mp4" (dir_of [("uploads", File "")])
             eq_refl);
      [vm_compute; lia | reflexivity | reflexivity].
Defined.
